(** * Building 37 analysis toolkit: a shallow embedding of the metric pipeline

    The development follows [Data Analysis/ge_building_analysis.py] (the
    current script) and its two earlier versions,
    [v1_ge_building_analysis.py] and [v2_ge_building_analysis.py].

    Conventions of the embedding:
    - an integer column (swipe counts, attendee counts) is a list of [Z];
    - a float64 value is an exact rational ([Q]); the values that numpy
      and pandas report as [nan]/[inf] are [None]. An equality between
      floats proved here is an equality of exact fractions, which the
      float64 results satisfy up to rounding; the rounding itself is
      modelled for the printed shares only ([Rounding]);
    - a table is the list of its rows, a row is a record whose fields are
      the columns the scripts read;
    - the analyzer object and the tables it refers to live in an explicit
      store, so that a copy and the original can be told apart. *)

From stdpp Require Import base option list gmap strings sorting.
From Stdlib Require Import ZArith QArith Qfield Reals Lia Lra Bool Ascii String List Sorted.
From Stdlib Require Lqa.
Import ListNotations.

(** ** float64 values *)

Module Float.

(** A float64: [Some q] is the finite value [q], [None] is [nan]
    (also used for the [inf] of a division by zero, which none of the
    scripts ever turns back into a finite number). *)
Definition float : Type := option Q.

Definition nan : float := None.
Definition of_Z (z : Z) : float := Some (inject_Z z).

(** True division of numpy values (float64 and int64 columns and
    scalars): a zero divisor gives [nan]/[inf] together with a warning
    (silenced by [warnings.filterwarnings('ignore')]) and no exception.
    The columns of a table without any row have the object dtype: their
    sums are Python ints, whose division by zero raises; that case is
    not this function, it is modelled in the methods that meet it
    ([Script.analyze_occupancy_patterns]). The quotient is the exact
    fraction. *)
Definition div (a b : float) : float :=
  match a, b with
  | Some x, Some y => if Qeq_bool y 0 then None else Some (x / y)%Q
  | _, _ => None
  end.

Definition mul (a b : float) : float :=
  match a, b with
  | Some x, Some y => Some (x * y)%Q
  | _, _ => None
  end.

(** Comparisons with [nan] are false. *)
Definition leb (a b : float) : bool :=
  match a, b with
  | Some x, Some y => Qle_bool x y
  | _, _ => false
  end.

Definition ltb (a b : float) : bool :=
  match a, b with
  | Some x, Some y => Qle_bool x y && negb (Qeq_bool x y)
  | _, _ => false
  end.

Definition gtb (a b : float) : bool := ltb b a.

(** Equality of floats up to the representation of the fraction. *)
Definition eq (a b : float) : Prop :=
  match a, b with
  | Some x, Some y => (x == y)%Q
  | None, None => True
  | _, _ => False
  end.

Definition is_finite (a : float) : bool :=
  match a with Some _ => true | None => false end.

Definition qsum (l : list Q) : Q := fold_right Qplus 0%Q l.

(** [Series.sum()] of a float series: [nan] entries are skipped. *)
Definition sum (l : list float) : float := Some (qsum (omap (fun a => a) l)).

(** [Series.mean()] of a float series: [nan] entries are skipped, and
    the mean of no value at all is [nan]. *)
Definition mean (l : list float) : float :=
  let present := omap (fun a => a) l in
  div (Some (qsum present)) (of_Z (Z.of_nat (length present))).

End Float.

(** ** Badge swipes *)

Module Badge.

Local Open Scope Z_scope.

Inductive month := Jan | Feb | Mar | Apr | May | Jun | Jul | Aug | Sep.

(** [months = ['Jan', ..., 'Sep']] *)
Definition months : list month := [Jan; Feb; Mar; Apr; May; Jun; Jul; Aug; Sep].

(** One row of the badge table: the columns the scripts read. *)
Record employee := mk_employee {
  Floor : Z;
  swipes_Jan : Z; swipes_Feb : Z; swipes_Mar : Z;
  swipes_Apr : Z; swipes_May : Z; swipes_Jun : Z;
  swipes_Jul : Z; swipes_Aug : Z; swipes_Sep : Z
}.

(** [row[m]] *)
Definition col (m : month) (e : employee) : Z :=
  match m with
  | Jan => swipes_Jan e | Feb => swipes_Feb e | Mar => swipes_Mar e
  | Apr => swipes_Apr e | May => swipes_May e | Jun => swipes_Jun e
  | Jul => swipes_Jul e | Aug => swipes_Aug e | Sep => swipes_Sep e
  end.

Definition badge_table := list employee.

(** [Series.sum()] of an integer series. *)
Definition zsum (l : list Z) : Z := fold_right Z.add 0 l.

(** [Series.sum()] of a boolean series: the number of [True]. *)
Definition count_true (l : list bool) : Z :=
  fold_right (fun (b : bool) n => (if b then 1 else 0) + n) 0 l.

(** [badge_data[months].sum()]: one total per month, in the order of
    [months]. *)
Definition monthly_swipes (badge_data : badge_table) : list Z :=
  List.map (fun m => zsum (List.map (col m) badge_data)) months.

(** [badge_data[months].sum(axis=1)]: one total per employee. *)
Definition row_total (e : employee) : Z :=
  zsum (List.map (fun m => col m e) months).

Definition total_swipes (badge_data : badge_table) : list Z :=
  List.map row_total badge_data.

(** The four utilization tiers of [analyze_occupancy_patterns]
    (ge_building_analysis.py, lines 115-118), on one total. *)
Definition very_low_util (t : Z) : bool := t <? 30.
Definition low_util (t : Z) : bool := (30 <=? t) && (t <? 90).
Definition medium_util (t : Z) : bool := (90 <=? t) && (t <? 140).
Definition high_util (t : Z) : bool := 140 <=? t.

(** How many of the four tier masks hold for a total. *)
Definition tiers_matched (t : Z) : Z :=
  count_true [very_low_util t; low_util t; medium_util t; high_util t].

(** Section 6 of [advanced_metrics_analysis] (lines 471-475). *)
Definition full_remote (badge_data : badge_table) : Z :=
  count_true (List.map (fun t => t <? 20) (total_swipes badge_data)).

Definition mostly_remote (badge_data : badge_table) : Z :=
  count_true (List.map (fun t => (20 <=? t) && (t <? 90)) (total_swipes badge_data)).

Definition remote_employees (badge_data : badge_table) : Z :=
  full_remote badge_data + mostly_remote badge_data.

(** The number of employees whose nine-month total is below 90. *)
Definition below_90 (badge_data : badge_table) : Z :=
  count_true (List.map (fun t => t <? 90) (total_swipes badge_data)).

(** *** [Building37Analyzer.__init__]: the building constants *)

Record building_info_t := mk_building_info {
  floors : Z;
  floor_1_2_sqft : Z;
  floor_3_6_sqft : Z;
  total_sqft : Z;
  employees : Z;
  working_days_per_month : Z;
  conference_rooms : list string
}.

Definition building_info : building_info_t := {|
  floors := 6;
  floor_1_2_sqft := 44352;
  floor_3_6_sqft := 22728;
  total_sqft := 2 * 44352 + 4 * 22728;
  employees := 356;
  working_days_per_month := 20;
  conference_rooms :=
    ["Room 133"; "Room 128"; "Room 129"; "Room 130"; "Room 131"; "Room 132";
     "Room 135"; "Van Curler A"; "Van Curler B"; "Schuyler"; "Glen";
     "Van Buren"; "Van Patten"; "Auditorium A"; "Auditorium B";
     "Auditorium C"]%string
|}.

(** *** [groupby('Floor')]: the distinct floors in ascending order *)

Fixpoint insert_key (k : Z) (ks : list Z) : list Z :=
  match ks with
  | [] => [k]
  | k' :: rest =>
      if k <? k' then k :: ks
      else if k =? k' then ks
      else k' :: insert_key k rest
  end.

Definition group_keys (l : list Z) : list Z := fold_right insert_key [] l.

(** [badge_data[badge_data['Floor'] == floor]] *)
Definition on_floor (floor : Z) (badge_data : badge_table) : badge_table :=
  List.filter (fun e => Floor e =? floor) badge_data.

(** [badge_data.groupby('Floor')[months].sum().sum(axis=1)] *)
Definition floor_occupancy (badge_data : badge_table) : list (Z * Z) :=
  List.map (fun floor => (floor, zsum (monthly_swipes (on_floor floor badge_data))))
           (group_keys (List.map Floor badge_data)).

(** *** [analyze_occupancy_patterns] (ge_building_analysis.py, lines 63-136) *)

(** One printed line of the monthly table (lines 88-92). *)
Record month_row := mk_month_row {
  mr_month : month;
  mr_swipes : Z;
  mr_avg_days : Float.float;
  mr_rate : Float.float
}.

(** One printed line of the floor table (lines 106-109). *)
Record floor_row := mk_floor_row {
  fr_floor : Z;
  fr_swipes : Z;
  fr_pct : Float.float;
  fr_emp_count : Z
}.

(** One printed line of the utilization distribution (lines 121-124). *)
Record tier_row := mk_tier_row {
  tr_count : Z;
  tr_pct : Float.float
}.

Record occupancy_report := mk_occupancy_report {
  r_monthly_swipes : list Z;
  r_avg_days_in_office_per_month : list Float.float;
  r_attendance_rate : list Float.float;
  r_month_rows : list month_row;
  r_avg_days_in_office : Float.float;      (* overall_avg *)
  r_overall_rate : Float.float;            (* 'attendance_rate' *)
  r_floor_distribution : list (Z * Z);
  r_floor_rows : list floor_row;
  r_very_low : tier_row;
  r_low : tier_row;
  r_medium : tier_row;
  r_high : tier_row;
  r_low_utilizers : Z;
  r_low_utilizers_pct : Float.float;
  r_hoteling_sqft : Z
}.

Definition hundred : Float.float := Float.of_Z 100.

(** Lines 90-91: [avg_days = swipes / num_employees] and
    [rate = (avg_days / working_days) * 100]. *)
Definition avg_days_of (swipes num_employees : Z) : Float.float :=
  Float.div (Float.of_Z swipes) (Float.of_Z num_employees).

Definition rate_of (avg_days : Float.float) (working_days : Z) : Float.float :=
  Float.mul (Float.div avg_days (Float.of_Z working_days)) hundred.

Definition tier_line (mask : Z -> bool) (total_swipes : list Z) (num_employees : Z) : tier_row :=
  let n := count_true (List.map mask total_swipes) in
  {| tr_count := n;
     tr_pct := Float.mul (Float.div (Float.of_Z n) (Float.of_Z num_employees)) hundred |}.

Definition analyze_occupancy_patterns (info : building_info_t) (badge_data : badge_table)
  : occupancy_report :=
  let monthly_swipes := monthly_swipes badge_data in
  let num_employees := Z.of_nat (length badge_data) in
  let working_days := working_days_per_month info in
  let avg_days_in_office_per_month :=
    List.map (fun s => Float.div (Float.of_Z s) (Float.of_Z num_employees)) monthly_swipes in
  let attendance_rate :=
    List.map (fun a => Float.mul (Float.div a (Float.of_Z working_days)) hundred)
             avg_days_in_office_per_month in
  let month_rows :=
    List.map (fun '(month, swipes) =>
                let avg_days := avg_days_of swipes num_employees in
                let rate := rate_of avg_days working_days in
                mk_month_row month swipes avg_days rate)
             (List.combine months monthly_swipes) in
  let overall_avg := Float.mean avg_days_in_office_per_month in
  let overall_rate := Float.mul (Float.div overall_avg (Float.of_Z working_days)) hundred in
  let floor_occupancy := floor_occupancy badge_data in
  let floor_rows :=
    List.map (fun '(floor, swipes) =>
                let pct := Float.mul (Float.div (Float.of_Z swipes)
                                                (Float.of_Z (zsum (List.map snd floor_occupancy))))
                                     hundred in
                let emp_count := Z.of_nat (length (on_floor floor badge_data)) in
                mk_floor_row floor swipes pct emp_count)
             floor_occupancy in
  let total_swipes := total_swipes badge_data in
  let low_utilizers :=
    count_true (List.map very_low_util total_swipes)
    + count_true (List.map low_util total_swipes) in
  {| r_monthly_swipes := monthly_swipes;
     r_avg_days_in_office_per_month := avg_days_in_office_per_month;
     r_attendance_rate := attendance_rate;
     r_month_rows := month_rows;
     r_avg_days_in_office := overall_avg;
     r_overall_rate := overall_rate;
     r_floor_distribution := floor_occupancy;
     r_floor_rows := floor_rows;
     r_very_low := tier_line very_low_util total_swipes num_employees;
     r_low := tier_line low_util total_swipes num_employees;
     r_medium := tier_line medium_util total_swipes num_employees;
     r_high := tier_line high_util total_swipes num_employees;
     r_low_utilizers := low_utilizers;
     r_low_utilizers_pct :=
       Float.mul (Float.div (Float.of_Z low_utilizers) (Float.of_Z num_employees)) hundred;
     r_hoteling_sqft := low_utilizers * 120 |}.

(** Every float the analysis prints or returns. *)
Definition report_floats (r : occupancy_report) : list Float.float :=
  r_avg_days_in_office_per_month r ++ r_attendance_rate r
  ++ List.map mr_avg_days (r_month_rows r) ++ List.map mr_rate (r_month_rows r)
  ++ [r_avg_days_in_office r; r_overall_rate r]
  ++ List.map fr_pct (r_floor_rows r)
  ++ [tr_pct (r_very_low r); tr_pct (r_low r); tr_pct (r_medium r); tr_pct (r_high r);
      r_low_utilizers_pct r].

(** The analysis is well defined when no division met a zero divisor:
    every float of the report is finite. *)
Definition well_defined (r : occupancy_report) : bool :=
  forallb Float.is_finite (report_floats r).

(** A monthly row that carries the given average and rate. *)
Definition row_has (avg_days rate : Q) (row : month_row) : Prop :=
  Float.eq (mr_avg_days row) (Some avg_days) /\ Float.eq (mr_rate row) (Some rate).

(** The scenario table: 100 employees on one floor, 10 swipes each in
    every month, so that every monthly total is 1000. *)
Definition ten_a_month : employee := mk_employee 1 10 10 10 10 10 10 10 10 10.
Definition scenario_table : badge_table := List.repeat ten_a_month 100.

(** The dtype of the month columns as [pd.read_csv] infers it: int64 for
    a table with at least one row; a table without any row keeps the
    object dtype, and the sums of its columns are Python ints. *)
Definition object_dtype (badge_data : badge_table) : bool :=
  match badge_data with
  | [] => true
  | _ :: _ => false
  end.

(** A table with three floors and all four utilization tiers, for the
    examples: totals 9, 45, 135, 180 and 27. *)
Definition mixed_table : badge_table :=
  [mk_employee 1 1 1 1 1 1 1 1 1 1;
   mk_employee 2 5 5 5 5 5 5 5 5 5;
   mk_employee 2 15 15 15 15 15 15 15 15 15;
   mk_employee 3 20 20 20 20 20 20 20 20 20;
   mk_employee 3 3 3 3 3 3 3 3 3 3].

End Badge.

(** ** Conference-room bookings *)

Module Conference.

Local Open Scope Z_scope.

(** A parsed ['Date'] (only the year is ever read). *)
Record date := mk_date { year : Z; month_of_year : Z; day : Z }.

(** A cell of the ['Start'] or ['Finish'] column: the text read from the
    CSV or, once [pd.to_datetime] went over the column, a time stamp
    (seconds after 1900-01-01 00:00, the day [to_datetime] gives a bare
    time of day) or [NaT]. *)
Inductive time_cell :=
| Text (s : string)
| Stamp (seconds : Z)
| NaT.

(** One row of the booking table. ['Hours'] is a derived column:
    [None] as long as the frame has no such column. *)
Record booking := mk_booking {
  Room : string;
  Date : date;
  Start : time_cell;
  Finish : time_cell;
  Attendees : Z;                       (* '#Attendees' *)
  Attendance_Type : string;            (* 'Attendance Type' *)
  Hours : option Float.float
}.

Definition set_Start (c : time_cell) (b : booking) : booking :=
  mk_booking (Room b) (Date b) c (Finish b) (Attendees b) (Attendance_Type b) (Hours b).
Definition set_Finish (c : time_cell) (b : booking) : booking :=
  mk_booking (Room b) (Date b) (Start b) c (Attendees b) (Attendance_Type b) (Hours b).
Definition set_Hours (h : Float.float) (b : booking) : booking :=
  mk_booking (Room b) (Date b) (Start b) (Finish b) (Attendees b) (Attendance_Type b) (Some h).

Definition frame := list booking.

(** [conference_data[conference_data['Date'].dt.year == 2025]] *)
Definition in_2025 (b : booking) : bool := year (Date b) =? 2025.
Definition select_2025 (conference_data : frame) : frame :=
  List.filter in_2025 conference_data.

(** [(finish - start).total_seconds() / 3600]; [NaT] on either side
    gives [nan]. *)
Definition hours_between (start finish : time_cell) : Float.float :=
  match start, finish with
  | Stamp s, Stamp f => Float.div (Float.of_Z (f - s)) (Float.of_Z 3600)
  | _, _ => Float.nan
  end.

(** The masks [df['Hours'] <= 0], [df['Hours'] < 0] and
    [df['Hours'] > 20]. *)
Definition Hours_le_0 (b : booking) : bool :=
  match Hours b with Some h => Float.leb h (Float.of_Z 0) | None => false end.
Definition Hours_lt_0 (b : booking) : bool :=
  match Hours b with Some h => Float.ltb h (Float.of_Z 0) | None => false end.
Definition Hours_gt_20 (b : booking) : bool :=
  match Hours b with Some h => Float.gtb h (Float.of_Z 20) | None => false end.

(** [df.loc[mask, 'Hours'] = value] *)
Definition loc_assign_Hours (mask : booking -> bool) (value : Float.float) (df : frame) : frame :=
  List.map (fun b => if mask b then set_Hours value b else b) df.

(** [df['Hours'] = (df['Finish'] - df['Start']).dt.total_seconds() / 3600] *)
Definition derive_Hours (df : frame) : frame :=
  List.map (fun b => set_Hours (hours_between (Start b) (Finish b)) b) df.

Definition sentinel : Float.float := Float.of_Z 15.

(** ['#Attendees'].sum() *)
Definition total_attendees (df : frame) : Z := Badge.zsum (List.map Attendees df).

(** [df['Hours'].sum()]: [nan] hours are skipped. *)
Definition hours_sum (df : frame) : Float.float :=
  Float.sum (List.map (fun b => default Float.nan (Hours b)) df).

(** The two ghost masks: zero attendees (v1 and the current script), and
    zero attendees of a type other than 'All Hands' (v2). *)
Definition ghost_mask (b : booking) : bool := Attendees b =? 0.
Definition ghost_mask_excluding (label : string) (b : booking) : bool :=
  (Attendees b =? 0) && negb (String.eqb (Attendance_Type b) label).
Definition all_hands_zero_mask (b : booking) : bool :=
  (Attendees b =? 0) && String.eqb (Attendance_Type b) "All Hands".

Record conference_report := mk_conference_report {
  total_bookings : Z;
  c_total_attendees : Z;
  total_hours : Float.float;
  ghost_bookings : Z;
  ghost_pct : Float.float;
  all_hands_zero : Z;                 (* printed by v2 only, 0 otherwise *)
  ghost_hours : Float.float;
  wasted_energy_kwh : Float.float
}.

Section Parser.

(** The time-of-day parser behind
    [pd.to_datetime(_, format='%I:%M %p', errors='coerce')]: the seconds
    after midnight, or [None] for a text that does not parse. It belongs
    to the tabular-data library, so the analyses are stated for any such
    function. *)
Variable strptime : string -> option Z.

Definition to_datetime (c : time_cell) : time_cell :=
  match c with
  | Text s => match strptime s with Some t => Stamp t | None => NaT end
  | Stamp t => Stamp t
  | NaT => NaT
  end.

(** [df['Start'] = pd.to_datetime(df['Start'], ...)], same for 'Finish'. *)
Definition parse_Start (df : frame) : frame :=
  List.map (fun b => set_Start (to_datetime (Start b)) b) df.
Definition parse_Finish (df : frame) : frame :=
  List.map (fun b => set_Finish (to_datetime (Finish b)) b) df.

(** Lines 312-321 of ge_building_analysis.py (291-300 of v2), applied to
    the copy [df_2025]. *)
Definition with_hours (df_2025 : frame) : frame :=
  let df := parse_Start df_2025 in
  let df := parse_Finish df in
  let df := derive_Hours df in
  let df := loc_assign_Hours Hours_le_0 sentinel df in
  loc_assign_Hours Hours_gt_20 sentinel df.

(** Lines 172-181 of v1: the first mask is [Hours < 0]. *)
Definition with_hours_v1 (df_2025 : frame) : frame :=
  let df := parse_Start df_2025 in
  let df := parse_Finish df in
  let df := derive_Hours df in
  let df := loc_assign_Hours Hours_lt_0 sentinel df in
  loc_assign_Hours Hours_gt_20 sentinel df.

(** What the three versions compute from the prepared frame. The
    booking-type distribution ([value_counts().head(5)]) is printed
    only and not part of the report. *)
Definition report_of (ghost : booking -> bool) (all_hands : booking -> bool) (df_2025 : frame)
  : conference_report :=
  let n := Z.of_nat (length df_2025) in
  let ghosts := Badge.count_true (List.map ghost df_2025) in
  let ghost_hours := hours_sum (List.filter ghost df_2025) in
  {| total_bookings := n;
     c_total_attendees := total_attendees df_2025;
     total_hours := hours_sum df_2025;
     ghost_bookings := ghosts;
     ghost_pct := Float.mul (Float.div (Float.of_Z ghosts) (Float.of_Z n)) (Float.of_Z 100);
     all_hands_zero := Badge.count_true (List.map all_hands df_2025);
     ghost_hours := ghost_hours;
     wasted_energy_kwh := Float.mul ghost_hours (Float.of_Z 5) |}.

(** [analyze_conference_room_utilization], ge_building_analysis.py. *)
Definition analyze_conference_room_utilization (conference_data : frame) : conference_report :=
  let df_2025 := with_hours (select_2025 conference_data) in
  report_of ghost_mask (fun _ => false) df_2025.

(** [analyze_conference_room_utilization], v2_ge_building_analysis.py. *)
Definition analyze_conference_room_utilization_v2 (conference_data : frame) : conference_report :=
  let df_2025 := with_hours (select_2025 conference_data) in
  report_of (ghost_mask_excluding "All Hands") all_hands_zero_mask df_2025.

(** [analyze_conference_room_utilization], v1_ge_building_analysis.py
    (the room statistics and the auditorium average are left out). *)
Definition analyze_conference_room_utilization_v1 (conference_data : frame) : conference_report :=
  let df_2025 := with_hours_v1 (select_2025 conference_data) in
  report_of ghost_mask (fun _ => false) df_2025.

(** The five column steps act row by row; on one row they amount to
    this. *)
Definition hours_row (first_mask : booking -> bool) (b : booking) : booking :=
  let b := set_Start (to_datetime (Start b)) b in
  let b := set_Finish (to_datetime (Finish b)) b in
  let b := set_Hours (hours_between (Start b) (Finish b)) b in
  let b := if first_mask b then set_Hours sentinel b else b in
  if Hours_gt_20 b then set_Hours sentinel b else b.

(** A row parses when both of its times do; its parsed duration is then
    the difference in hours. *)
Definition parses (b : booking) (start finish : Z) : Prop :=
  to_datetime (Start b) = Stamp start /\ to_datetime (Finish b) = Stamp finish.

End Parser.

Definition duration (start finish : Z) : Q := (inject_Z (finish - start) / inject_Z 3600)%Q.

(** The derived duration lies in (0, 20]. *)
Definition in_bound (h : Float.float) : Prop :=
  match h with
  | Some q => (0 < q)%Q /\ (q <= 20)%Q
  | None => False
  end.

(** *** Section 5 of [advanced_metrics_analysis]: room cost-benefit *)

Definition large_rooms : list string := ["Auditorium A"; "Auditorium B"; "Auditorium C"]%string.
Definition medium_rooms : list string :=
  ["Room 128"; "Room 129"; "Room 130"; "Room 131"; "Room 132"; "Room 133"; "Room 135"]%string.

(** [df['Room'].isin(room_list)] *)
Definition isin (room_list : list string) (b : booking) : bool :=
  existsb (String.eqb (Room b)) room_list.

(** The block printed for one room category (lines 462-465). *)
Record room_metrics := mk_room_metrics {
  rm_room_type : string;
  rm_bookings : Z;
  rm_avg_attendees : Float.float;
  rm_ghost_pct : Float.float
}.

(** The body of the loop of lines 455-465 for one category: [None] when
    the guard [len(room_data) > 0] fails and nothing is printed. *)
Definition room_category (df_2025 : frame) (category : string * list string)
  : option room_metrics :=
  let '(room_type, room_list) := category in
  let room_data := List.filter (isin room_list) df_2025 in
  if 0 <? Z.of_nat (length room_data) then
    let attended := List.filter (fun b => 0 <? Attendees b) room_data in
    let avg_attendees := Float.mean (List.map (fun b => Float.of_Z (Attendees b)) attended) in
    let total_bookings := Z.of_nat (length room_data) in
    let ghost_pct :=
      Float.mul (Float.div (Float.of_Z (Badge.count_true (List.map ghost_mask room_data)))
                           (Float.of_Z total_bookings))
                (Float.of_Z 100) in
    Some (mk_room_metrics room_type total_bookings avg_attendees ghost_pct)
  else None.

Definition room_categories : list (string * list string) :=
  [("Large (200+ cap)", large_rooms); ("Medium (20-50 cap)", medium_rooms)]%string.

(** The blocks section 5 prints, in order. *)
Definition conference_room_cost_benefit (conference_data : frame) : list room_metrics :=
  let df_2025 := select_2025 conference_data in
  omap (room_category df_2025) room_categories.

(** The attended bookings of a category, the group whose size divides
    the average attendance. *)
Definition attended_in (room_list : list string) (df_2025 : frame) : frame :=
  List.filter (fun b => 0 <? Attendees b) (List.filter (isin room_list) df_2025).

(** *** A reading of the ['%I:%M %p'] format, for the examples *)

Definition digit_of (c : Ascii.ascii) : option Z :=
  let n := Z.of_nat (Ascii.nat_of_ascii c) in
  if (48 <=? n) && (n <=? 57) then Some (n - 48) else None.

(** One or two decimal digits. *)
Definition number_of (s : string) : option Z :=
  match s with
  | String a EmptyString => digit_of a
  | String a (String b EmptyString) =>
      match digit_of a, digit_of b with
      | Some x, Some y => Some (10 * x + y)
      | _, _ => None
      end
  | _ => None
  end.

Fixpoint split_at (sep : Ascii.ascii) (s : string) : option (string * string) :=
  match s with
  | EmptyString => None
  | String c rest =>
      if Ascii.eqb c sep then Some (EmptyString, rest)
      else match split_at sep rest with
           | Some (l, r) => Some (String c l, r)
           | None => None
           end
  end.

(** ["H:MM AM"] or ["H:MM PM"] on the 12-hour clock, as seconds after
    midnight. *)
Definition clock_12h (s : string) : option Z :=
  match split_at ":"%char s with
  | Some (h, rest) =>
      match split_at " "%char rest with
      | Some (m, p) =>
          match number_of h, number_of m with
          | Some hh, Some mm =>
              if (1 <=? hh) && (hh <=? 12) && (mm <=? 59) then
                if String.eqb p "AM" then Some ((hh mod 12) * 3600 + mm * 60)
                else if String.eqb p "PM" then Some ((hh mod 12 + 12) * 3600 + mm * 60)
                else None
              else None
          | _, _ => None
          end
      | None => None
      end
  | None => None
  end.

(** Example rows. *)
Definition midnight_to_midnight : booking :=
  mk_booking "Room 133" (mk_date 2025 3 14) (Text "12:00 AM") (Text "12:00 AM") 12 "Meeting" None.
Definition morning_meeting : booking :=
  mk_booking "Room 128" (mk_date 2025 3 14) (Text "9:00 AM") (Text "10:30 AM") 8 "Meeting" None.
Definition overnight : booking :=
  mk_booking "Glen" (mk_date 2025 5 2) (Text "11:00 PM") (Text "1:00 AM") 0 "All Hands" None.
Definition empty_auditorium : booking :=
  mk_booking "Auditorium A" (mk_date 2025 6 9) (Text "1:00 PM") (Text "2:00 PM") 0 "Town Hall" None.

End Conference.

(** ** Energy consumption *)

Module Energy.

Local Open Scope Z_scope.

(** The monthly series, literal constants of the scripts. *)
Definition electricity : list Z :=
  [463000; 413000; 485000; 474000; 461000; 477000; 516000; 491000; 470000].
Definition gas : list Z :=
  [48000; 41000; 35000; 23000; 14000; 12000; 8000; 11000; 12000].
Definition water : list Z :=
  [5978000; 5901000; 6083000; 9405000; 9434000; 9405000; 17143000; 17287000; 16696000].

Definition total_electricity : Z := 5666000.
Definition total_gas : Z := 273000.
Definition total_water : Z := 129777000.

(** [a[i:j]] *)
Definition slice {A : Type} (i j : nat) (a : list A) : list A := firstn (j - i) (skipn i a).

(** [np.mean] of an integer array. *)
Definition np_mean (a : list Z) : Float.float := Float.mean (List.map Float.of_Z a).

Definition fadd (a b : Float.float) : Float.float :=
  match a, b with
  | Some x, Some y => Some (x + y)%Q
  | _, _ => None
  end.

Record energy_report := mk_energy_report {
  electricity_per_sqft : Float.float;
  gas_per_sqft : Float.float;
  water_per_sqft : Float.float;
  water_surge_multiplier : Float.float;
  co2_electricity : Float.float;
  co2_gas : Float.float;
  co2_water : Float.float;
  total_co2_tons : Float.float
}.

(** [analyze_energy_consumption] (ge_building_analysis.py, lines
    138-227); the decimal factors are taken as exact fractions. *)
Definition analyze_energy_consumption (info : Badge.building_info_t) : energy_report :=
  let sqft := Float.of_Z (Badge.total_sqft info) in
  let spring_water_avg := np_mean (slice 2 5 water) in
  let summer_water_avg := np_mean (slice 6 9 water) in
  let to_tons x := Float.div (Float.mul x (Some (92 # 100))) (Float.of_Z 2000) in
  let co2_electricity := to_tons (Float.of_Z total_electricity) in
  let co2_gas := Float.div (Float.mul (Float.of_Z total_gas) (Some (117 # 10))) (Float.of_Z 2000) in
  let water_embedded_kwh :=
    Float.mul (Float.div (Float.of_Z total_water) (Float.of_Z 1000)) (Some (275 # 10)) in
  let co2_water := to_tons water_embedded_kwh in
  {| electricity_per_sqft := Float.div (Float.of_Z total_electricity) sqft;
     gas_per_sqft := Float.div (Float.of_Z total_gas) sqft;
     water_per_sqft := Float.div (Float.of_Z total_water) sqft;
     water_surge_multiplier := Float.div summer_water_avg spring_water_avg;
     co2_electricity := co2_electricity;
     co2_gas := co2_gas;
     co2_water := co2_water;
     total_co2_tons := fadd (fadd co2_electricity co2_gas) co2_water |}.

End Energy.

(** ** Correlation of occupancy with resources *)

Module Correlation.

Local Open Scope R_scope.

Definition rsum (l : list R) : R := fold_right Rplus 0 l.

Definition mean (l : list R) : R := rsum l / INR (length l).

(** [x - x.mean()] *)
Definition centered (l : list R) : list R := List.map (fun x => x - mean l) l.

Definition dot (xs ys : list R) : R :=
  rsum (List.map (fun p => fst p * snd p) (List.combine xs ys)).

Definition sum_sq (xs : list R) : R := rsum (List.map (fun x => x * x) xs).

(** Modelled from the spec: [scipy.stats.pearsonr] is a library function
    and not part of the repository. The specification describes it as the
    Pearson correlation coefficient of two equal-length numeric
    sequences, which is undefined ([nan], here [None]) when either
    sequence has zero variance. The coefficient is the sum of products
    of the centered sequences over the product of their norms. *)
Definition pearsonr (xs ys : list R) : option R :=
  let xm := centered xs in
  let ym := centered ys in
  if Req_dec_T (sum_sq xm) 0 then None
  else if Req_dec_T (sum_sq ym) 0 then None
  else Some (dot xm ym / (sqrt (sum_sq xm) * sqrt (sum_sq ym))).

(** A sequence is constant when all of its entries are equal. *)
Definition constant (xs : list R) : Prop :=
  forall x y, In x xs -> In y xs -> x = y.

Record correlation_report := mk_correlation_report {
  corr_electricity : option R;
  corr_gas : option R;
  corr_water : option R
}.

(** [correlate_occupancy_with_energy] (ge_building_analysis.py, lines
    238-251): the three coefficients of the monthly swipe totals. *)
Definition correlate_occupancy_with_energy (badge_data : Badge.badge_table)
  : correlation_report :=
  let monthly_swipes := List.map IZR (Badge.monthly_swipes badge_data) in
  let electricity := List.map IZR Energy.electricity in
  let gas := List.map IZR Energy.gas in
  let water := List.map IZR Energy.water in
  {| corr_electricity := pearsonr monthly_swipes electricity;
     corr_gas := pearsonr monthly_swipes gas;
     corr_water := pearsonr monthly_swipes water |}.

End Correlation.

(** ** The analyzer object and its tables *)

Module Analyzer.

(** The identity of a data frame. *)
Definition loc : Type := positive.

(** The utility table: its column names and its records. It is never
    read by an analysis: its cells stay as text. *)
Record utility_table := mk_utility_table {
  columns : list string;
  records : list (list string)
}.

(** A cell of the ['Date'] column of the booking table while it is
    loaded: the text read from the CSV or [NaN] for a blank cell and,
    once [pd.to_datetime] went over the column, a date or [NaT]. (The
    dates of the data are text; a column of numbers is not modelled.) *)
Inductive date_cell :=
| DateText (s : string)
| DateNaN
| DateStamp (d : Conference.date)
| DateNaT.

(** One row of the booking table as [pd.read_csv] returns it. *)
Record csv_booking := mk_csv_booking {
  csv_Room : string;
  csv_Date : date_cell;
  csv_Start : Conference.time_cell;
  csv_Finish : Conference.time_cell;
  csv_Attendees : Z;
  csv_Attendance_Type : string
}.

Definition set_Date (c : date_cell) (r : csv_booking) : csv_booking :=
  mk_csv_booking (csv_Room r) c (csv_Start r) (csv_Finish r) (csv_Attendees r)
    (csv_Attendance_Type r).

(** A data frame of one of the shapes the script holds: the badge table,
    the utility table, the booking table as read (until line 58) and the
    booking table with its parsed dates. *)
Inductive data_frame :=
| BadgeFrame (rows : Badge.badge_table)
| EnergyFrame (table : utility_table)
| BookingCsvFrame (rows : list csv_booking)
| ConferenceFrame (rows : Conference.frame).

(** A [Building37Analyzer]: each table attribute is [None] or refers to a
    frame of the store. *)
Record analyzer := mk_analyzer {
  badge_data : option loc;
  energy_data : option loc;
  conference_data : option loc;
  building_info : Badge.building_info_t
}.

Record state := mk_state {
  self : analyzer;
  heap : gmap loc data_frame
}.

(** A method body: from a state it returns a value ([Some]) or raises
    an exception ([None]); either way it leaves a state behind, the one
    reached when the exception was raised in the second case. *)
Definition M (A : Type) : Type := state -> option A * state.

Definition ret {A : Type} (a : A) : M A := fun st => (Some a, st).

Definition bind {A B : Type} (m : M A) (k : A -> M B) : M B :=
  fun st => match m st with
            | (Some a, st') => k a st'
            | (None, st') => (None, st')
            end.

Definition raise {A : Type} : M A := fun st => (None, st).

Notation "'let*' x := m 'in' k" := (bind m (fun x => k))
  (at level 10, x name, m at level 100, k at level 200).
Notation "m ;;; k" := (bind m (fun _ => k))
  (at level 100, k at level 200, right associativity).

Definition get_self : M analyzer := fun st => (Some (self st), st).

Definition set_self (a : analyzer) : M unit :=
  fun st => (Some tt, mk_state a (heap st)).

(** [self.badge_data = l], and the same for the other two attributes. *)
Definition set_badge_data (l : loc) : M unit :=
  let* a := get_self in
  set_self (mk_analyzer (Some l) (energy_data a) (conference_data a) (building_info a)).
Definition set_energy_data (l : loc) : M unit :=
  let* a := get_self in
  set_self (mk_analyzer (badge_data a) (Some l) (conference_data a) (building_info a)).
Definition set_conference_data (l : loc) : M unit :=
  let* a := get_self in
  set_self (mk_analyzer (badge_data a) (energy_data a) (Some l) (building_info a)).

(** A new frame object. *)
Definition new_frame (f : data_frame) : M loc :=
  fun st =>
    let l := fresh (dom (heap st)) in
    (Some l, mk_state (self st) (<[l := f]> (heap st))).

Definition read_frame (l : loc) : M data_frame :=
  fun st => match heap st !! l with
            | Some f => (Some f, st)
            | None => (None, st)
            end.

(** In-place update of the frame object [l]. *)
Definition write_frame (l : loc) (f : data_frame) : M unit :=
  fun st => match heap st !! l with
            | Some _ => (Some tt, mk_state (self st) (<[l := f]> (heap st)))
            | None => (None, st)
            end.

(** Reading through an attribute that is still [None] raises. *)
Definition attribute {A : Type} (o : option A) : M A :=
  match o with Some a => ret a | None => raise end.

(** [self.badge_data] *)
Definition the_badge_data : M Badge.badge_table :=
  let* a := get_self in
  let* l := attribute (badge_data a) in
  let* f := read_frame l in
  match f with BadgeFrame rows => ret rows | _ => raise end.

(** A frame with parsed dates; on the booking table as read, the
    accessor [.dt] of the ['Date'] column raises. *)
Definition read_conference (l : loc) : M Conference.frame :=
  let* f := read_frame l in
  match f with ConferenceFrame rows => ret rows | _ => raise end.

(** [self.conference_data] *)
Definition the_conference_data : M Conference.frame :=
  let* a := get_self in
  let* l := attribute (conference_data a) in
  read_conference l.

(** A column assignment on the frame object [df]: [df[col] = ...] or
    [df.loc[mask, col] = ...]. *)
Definition assign (df : loc) (step : Conference.frame -> Conference.frame) : M unit :=
  let* rows := read_conference df in
  write_frame df (ConferenceFrame (step rows)).

(** [self.conference_data[self.conference_data['Date'].dt.year == 2025].copy()]:
    the boolean selection builds a frame, [copy] another one. *)
Definition copy_of_2025 : M loc :=
  let* rows := the_conference_data in
  let* selected := new_frame (ConferenceFrame (Conference.select_2025 rows)) in
  let* rows' := read_conference selected in
  new_frame (ConferenceFrame rows').

(** *** [load_data] (lines 41-61) *)

(** [pd.read_csv(path, skiprows=_)] reads a file outside the program:
    its outcome is given, the table or [None] when it raises (no such
    file, nothing to parse). *)
Definition read_csv {A : Type} (outcome : option A) : M A :=
  match outcome with Some table => ret table | None => raise end.

Definition is_text (c : date_cell) : bool :=
  match c with DateText _ => true | _ => false end.

(** Whether the ['Date'] column has the accessor [.str]: a column with
    no row or with some text has the object dtype; a column of blank
    cells only is a float64 column, on which [.str] raises
    AttributeError. *)
Definition Date_has_str (rows : list csv_booking) : bool :=
  match rows with
  | [] => true
  | _ :: _ => existsb (fun r => is_text (csv_Date r)) rows
  end.

(** The rows of the booking table after line 58: those whose ['Date'] is
    a date. ['Hours'] is not a column yet. *)
Definition dated (r : csv_booking) : option Conference.booking :=
  match csv_Date r with
  | DateStamp d =>
      Some (Conference.mk_booking (csv_Room r) d (csv_Start r) (csv_Finish r)
              (csv_Attendees r) (csv_Attendance_Type r) None)
  | _ => None
  end.

(** [dropna(subset=['Date'])] *)
Definition dropna_Date (rows : list csv_booking) : Conference.frame := omap dated rows.

Section Loader.

(** [str.strip], and [pd.to_datetime(column, errors='coerce')] on one
    text of the column, [None] for [NaT]; the reader sees the whole
    column, from which it infers the format. Both belong to the
    libraries, so [load_data] is stated for any such functions. *)
Variable strip : string -> string.
Variable to_datetime : list date_cell -> string -> option Conference.date.

(** [column.str.strip()]: a blank cell stays [NaN]. *)
Definition str_strip (c : date_cell) : date_cell :=
  match c with
  | DateText s => DateText (strip s)
  | _ => DateNaN
  end.

Definition Date_str_strip (rows : list csv_booking) : list csv_booking :=
  List.map (fun r => set_Date (str_strip (csv_Date r)) r) rows.

Definition Date_to_datetime (rows : list csv_booking) : list csv_booking :=
  let column := List.map csv_Date rows in
  List.map (fun r =>
              set_Date (match csv_Date r with
                        | DateText s =>
                            match to_datetime column s with
                            | Some d => DateStamp d
                            | None => DateNaT
                            end
                        | DateStamp d => DateStamp d
                        | _ => DateNaT
                        end) r) rows.

(** Lines 56-58 on the contents of the table. *)
Definition parse_dates (rows : list csv_booking) : Conference.frame :=
  dropna_Date (Date_to_datetime (Date_str_strip rows)).

Definition strip_columns (table : utility_table) : utility_table :=
  mk_utility_table (List.map strip (columns table)) (records table).

(** [self.energy_data.columns = self.energy_data.columns.str.strip()],
    on the frame object itself. *)
Definition assign_columns : M unit :=
  let* a := get_self in
  let* l := attribute (energy_data a) in
  let* f := read_frame l in
  match f with
  | EnergyFrame table => write_frame l (EnergyFrame (strip_columns table))
  | _ => raise
  end.

(** [self.conference_data['Date']] of the table as read. *)
Definition the_booking_csv : M (list csv_booking) :=
  let* a := get_self in
  let* l := attribute (conference_data a) in
  let* f := read_frame l in
  match f with BookingCsvFrame rows => ret rows | _ => raise end.

(** [self.conference_data['Date'] = ...], on the frame object itself. *)
Definition assign_Date (rows : list csv_booking) : M unit :=
  let* a := get_self in
  let* l := attribute (conference_data a) in
  write_frame l (BookingCsvFrame rows).

Definition load_data (badge_csv : option Badge.badge_table)
    (energy_csv : option utility_table) (conference_csv : option (list csv_booking))
  : M unit :=
  (* line 46 *)
  let* badge := read_csv badge_csv in
  let* b := new_frame (BadgeFrame badge) in
  set_badge_data b ;;;
  (* lines 50-51 *)
  let* energy := read_csv energy_csv in
  let* e := new_frame (EnergyFrame energy) in
  set_energy_data e ;;;
  assign_columns ;;;
  (* line 55 *)
  let* conference := read_csv conference_csv in
  let* c := new_frame (BookingCsvFrame conference) in
  set_conference_data c ;;;
  (* line 56 *)
  let* rows := the_booking_csv in
  (if Date_has_str rows then assign_Date (Date_str_strip rows) else raise) ;;;
  (* line 57 *)
  let* rows := the_booking_csv in
  assign_Date (Date_to_datetime rows) ;;;
  (* line 58 *)
  let* rows := the_booking_csv in
  let* kept := new_frame (ConferenceFrame (dropna_Date rows)) in
  set_conference_data kept.

End Loader.

(** [Building37Analyzer()] *)
Definition init : state :=
  mk_state (mk_analyzer None None None Badge.building_info) ∅.

(** The three tables an analyzer holds, as values. *)
Definition table_of (st : state) (attr : option loc) : option data_frame :=
  l ← attr; heap st !! l.

Definition tables (st : state) : option data_frame * option data_frame * option data_frame :=
  (table_of st (badge_data (self st)),
   table_of st (energy_data (self st)),
   table_of st (conference_data (self st))).

(** The analyzer is loaded: its attributes refer to frames of the right
    shape. *)
Definition loaded (st : state) : Prop :=
  exists badge energy conference,
    tables st = (Some (BadgeFrame badge), Some (EnergyFrame energy),
                 Some (ConferenceFrame conference)).

(** The state [st] still holds the analyzer and the frames of [st0]. *)
Definition stable (st0 st : state) : Prop :=
  self st = self st0 /\ heap st0 ⊆ heap st.

(** Moreover [df] is a booking frame created after [st0], with the given
    rows. *)
Definition scratch (st0 : state) (df : loc) (rows : Conference.frame) (st : state) : Prop :=
  stable st0 st /\ heap st0 !! df = None
  /\ heap st !! df = Some (ConferenceFrame rows).

(** *** Readers and tables for the examples *)

Fixpoint drop_spaces (s : list Ascii.ascii) : list Ascii.ascii :=
  match s with
  | c :: rest => if Ascii.eqb c " "%char then drop_spaces rest else s
  | [] => []
  end.

(** [str.strip] on a text whose only white space is the space. *)
Definition strip_spaces (s : string) : string :=
  string_of_list_ascii
    (List.rev (drop_spaces (List.rev (drop_spaces (list_ascii_of_string s))))).

Definition year_of (s : string) : option Z :=
  match s with
  | String a (String b (String c (String d EmptyString))) =>
      match Conference.digit_of a, Conference.digit_of b,
            Conference.digit_of c, Conference.digit_of d with
      | Some w, Some x, Some y, Some z => Some (1000 * w + 100 * x + 10 * y + z)%Z
      | _, _, _, _ => None
      end
  | _ => None
  end.

(** A reading of dates written [M/D/YYYY]. *)
Definition slash_date (column : list date_cell) (s : string) : option Conference.date :=
  match Conference.split_at "/"%char s with
  | Some (m, rest) =>
      match Conference.split_at "/"%char rest with
      | Some (d, y) =>
          match Conference.number_of m, Conference.number_of d, year_of y with
          | Some mm, Some dd, Some yy =>
              if ((1 <=? mm) && (mm <=? 12) && (1 <=? dd) && (dd <=? 31))%Z
              then Some (Conference.mk_date yy mm dd) else None
          | _, _, _ => None
          end
      | None => None
      end
  | None => None
  end.

(** The booking CSV of the examples: a morning meeting, a row without
    date, a row whose date does not read, and a booking from midnight to
    midnight. *)
Definition example_bookings : list csv_booking :=
  [mk_csv_booking "Room 128" (DateText " 3/14/2025 ") (Conference.Text "9:00 AM")
     (Conference.Text "10:30 AM") 8 "Meeting";
   mk_csv_booking "Room 129" DateNaN (Conference.Text "1:00 PM")
     (Conference.Text "2:00 PM") 4 "Meeting";
   mk_csv_booking "Glen" (DateText "TBD") (Conference.Text "1:00 PM")
     (Conference.Text "2:00 PM") 4 "Meeting";
   mk_csv_booking "Room 133" (DateText "3/14/2025") (Conference.Text "12:00 AM")
     (Conference.Text "12:00 AM") 12 "Meeting"].

Definition example_utilities : utility_table :=
  mk_utility_table ["Month "; " Electricity (kWh)"] [["January 2025"; "463000"]].

(** A loaded analyzer, and one loaded from a badge CSV without any
    row. *)
Definition example_state : state :=
  snd (load_data strip_spaces slash_date (Some [Badge.ten_a_month])
         (Some example_utilities) (Some example_bookings) init).

Definition example_state_no_employee : state :=
  snd (load_data strip_spaces slash_date (Some [])
         (Some example_utilities) (Some example_bookings) init).

End Analyzer.

(** ** The first version of the occupancy analysis *)

Module BadgeV1.

Import Badge.
Local Open Scope Z_scope.

Record occupancy_report_v1 := mk_occupancy_report_v1 {
  v1_monthly_swipes : list Z;
  v1_avg_days_in_office_per_month : list Float.float;   (* avg_days_in_office *)
  v1_attendance_printed : list Float.float;             (* days / 4 *)
  v1_avg_days_in_office : Float.float;                  (* its mean *)
  v1_floor_distribution : list (Z * Z);
  v1_floor_pct : list Float.float;
  v1_remote_workers : Z;
  v1_remote_pct : Float.float;
  v1_space_reduction : Z
}.

(** [analyze_occupancy_patterns], v1_ge_building_analysis.py, lines
    62-105. *)
Definition analyze_occupancy_patterns (badge_data : badge_table) : occupancy_report_v1 :=
  let monthly_swipes := monthly_swipes badge_data in
  let num := Z.of_nat (length badge_data) in
  let avg_swipes_per_employee :=
    List.map (fun s => Float.div (Float.of_Z s) (Float.of_Z num)) monthly_swipes in
  let avg_days_in_office :=
    List.map (fun a => Float.div a (Float.of_Z 20)) avg_swipes_per_employee in
  let floor_occupancy := floor_occupancy badge_data in
  let total_swipes := total_swipes badge_data in
  let low_util := List.map (fun t => t <? 50) total_swipes in
  {| v1_monthly_swipes := monthly_swipes;
     v1_avg_days_in_office_per_month := avg_days_in_office;
     v1_attendance_printed :=
       List.map (fun days => Float.div days (Float.of_Z 4)) avg_days_in_office;
     v1_avg_days_in_office := Float.mean avg_days_in_office;
     v1_floor_distribution := floor_occupancy;
     v1_floor_pct :=
       List.map (fun '(floor, swipes) =>
                   Float.mul (Float.div (Float.of_Z swipes)
                                (Float.of_Z (zsum (List.map snd floor_occupancy))))
                             hundred)
                floor_occupancy;
     v1_remote_workers := count_true low_util;
     v1_remote_pct :=
       Float.mul (Float.div (Float.of_Z (count_true low_util)) (Float.of_Z num)) hundred;
     v1_space_reduction := count_true low_util * 150 |}.

End BadgeV1.

(** ** Occupancy rate and per-swipe consumption *)

Module Rates.

Local Open Scope Z_scope.

Definition fsub (a b : Float.float) : Float.float :=
  match a, b with
  | Some x, Some y => Some (x - y)%Q
  | _, _ => None
  end.

Record rates_report := mk_rates_report {
  occupancy_rate : Float.float;            (* avg_occupancy_rate *)
  estimated_waste : Float.float;
  electricity_per_swipe : Float.float;
  water_per_swipe : Float.float
}.

(** The second half of [correlate_occupancy_with_energy]
    (ge_building_analysis.py, lines 278-303): the occupancy rate against
    the fixed 356 employees and 20 days, and the consumption per swipe. *)
Definition occupancy_and_consumption (badge_data : Badge.badge_table) : rates_report :=
  let monthly_swipes := Badge.monthly_swipes badge_data in
  let swipes_mean := Energy.np_mean monthly_swipes in
  let avg_occupancy_rate :=
    Float.mul (Float.div swipes_mean (Float.of_Z (356 * 20))) (Float.of_Z 100) in
  {| occupancy_rate := avg_occupancy_rate;
     estimated_waste :=
       Float.mul
         (Float.mul (Float.div (fsub (Float.of_Z 100) avg_occupancy_rate) (Float.of_Z 100))
                    (Some (3 # 10)))
         (Float.of_Z 850000);
     electricity_per_swipe := Float.div (Energy.np_mean Energy.electricity) swipes_mean;
     water_per_swipe := Float.div (Energy.np_mean Energy.water) swipes_mean |}.

End Rates.

(** ** The advanced metrics *)

Module Advanced.

Import Badge.
Local Open Scope Z_scope.

(** *** Section 1: peak and off-peak months *)

(** A series indexed by month. *)
Definition month_series : Type := list (month * Z).

(** [Series.nlargest(n)]: the [n] largest values in decreasing order,
    equal values in their order of appearance; [nsmallest] likewise in
    increasing order. *)
Fixpoint insert_desc (x : month * Z) (l : month_series) : month_series :=
  match l with
  | [] => [x]
  | y :: rest => if snd x <? snd y then y :: insert_desc x rest else x :: l
  end.

Fixpoint insert_asc (x : month * Z) (l : month_series) : month_series :=
  match l with
  | [] => [x]
  | y :: rest => if snd y <? snd x then y :: insert_asc x rest else x :: l
  end.

Definition nlargest (n : nat) (s : month_series) : month_series :=
  firstn n (fold_right insert_desc [] s).

Definition nsmallest (n : nat) (s : month_series) : month_series :=
  firstn n (fold_right insert_asc [] s).

(** [Series.mean()] of an integer series. *)
Definition series_mean (s : month_series) : Float.float :=
  Energy.np_mean (List.map snd s).

(** *** Section 2: floor efficiency *)

(** The dictionary [floor_sqft]. *)
Definition floor_sqft : gmap Z Z :=
  list_to_map [(1, 44352); (2, 44352); (3, 22728); (4, 22728); (5, 22728)].

(** [floor_sqft.get(floor, 22728)] *)
Definition floor_sqft_get (floor : Z) : Z := default 22728 (floor_sqft !! floor).

Record floor_line := mk_floor_line {
  fl_floor : Z;
  fl_employees : Z;
  fl_sqft : Z;
  fl_swipes : Z;
  fl_swipes_per_sqft : Float.float;
  fl_efficiency : Float.float
}.

(** The loop of lines 387-395, over the floors in ascending order. *)
Definition floor_lines (badge_data : badge_table) : list floor_line :=
  List.map (fun '(floor, swipes) =>
              let emp := Z.of_nat (length (on_floor floor badge_data)) in
              let sqft := floor_sqft_get floor in
              let swipes_per_sqft := Float.div (Float.of_Z swipes) (Float.of_Z sqft) in
              let efficiency :=
                Float.mul (Float.div (Float.of_Z swipes) (Float.of_Z (emp * 180)))
                          (Float.of_Z 100) in
              mk_floor_line floor emp sqft swipes swipes_per_sqft efficiency)
           (floor_occupancy badge_data).

(** [min(scores, key=scores.get)]: the first key whose value is not
    above any other; [None] stands for the [ValueError] on an empty
    dictionary. *)
Fixpoint min_from (best : Z * Float.float) (rest : list (Z * Float.float)) : Z :=
  match rest with
  | [] => fst best
  | x :: rest' => if Float.ltb (snd x) (snd best) then min_from x rest' else min_from best rest'
  end.

Definition min_key (scores : list (Z * Float.float)) : option Z :=
  match scores with
  | [] => None
  | x :: rest => Some (min_from x rest)
  end.

Definition efficiency_scores (badge_data : badge_table) : list (Z * Float.float) :=
  List.map (fun l => (fl_floor l, fl_efficiency l)) (floor_lines badge_data).

Definition underutilized_floor (badge_data : badge_table) : option Z :=
  min_key (efficiency_scores badge_data).

(** *** Section 4: month-over-month changes *)

(** [(a[i] - a[i-1]) / a[i-1] * 100] for [i] from 1. *)
Fixpoint mom_change (a : list Z) : list Float.float :=
  match a with
  | prev :: (cur :: _) as rest =>
      Float.mul (Float.div (Float.of_Z (cur - prev)) (Float.of_Z prev)) (Float.of_Z 100)
      :: mom_change rest
  | _ => []
  end.

(** Line 438, ['↑' if change > 0 else '↓'], for the change from [prev]
    to [cur]. After a month without swipes the change is [inf] when the
    difference is positive, which is above 0, and [nan] or [-inf]
    otherwise, which are not. *)
Definition arrow_up (prev cur : Z) : bool :=
  match Float.div (Float.of_Z (cur - prev)) (Float.of_Z prev) with
  | Some q => Float.gtb (Float.mul (Some q) (Float.of_Z 100)) (Float.of_Z 0)
  | None => 0 <? cur - prev
  end.

(** The arrows of the loop of lines 436-439. *)
Fixpoint mom_arrows (a : list Z) : list bool :=
  match a with
  | prev :: (cur :: _) as rest => arrow_up prev cur :: mom_arrows rest
  | _ => []
  end.

(** The builtin [sum] of floats: [nan] and [inf] are not skipped. *)
Definition builtin_sum (l : list Float.float) : Float.float :=
  fold_left Energy.fadd l (Float.of_Z 0).

(** *** Section 7: water per swipe *)

(** A float64 with its infinities, needed where a finite number is
    divided by an infinite one. *)
Inductive efloat :=
| Fin (q : Q)
| Inf (positive : bool)
| NaN.

Definition qltb (x y : Q) : bool := negb (Qle_bool y x).

(** Integer array by integer array. *)
Definition ediv_Z (a b : Z) : efloat :=
  if b =? 0 then (if a =? 0 then NaN else Inf (0 <? a))
  else Fin (inject_Z a / inject_Z b).

Definition eadd (a b : efloat) : efloat :=
  match a, b with
  | Fin x, Fin y => Fin (x + y)
  | Fin _, Inf s => Inf s
  | Inf s, Fin _ => Inf s
  | Inf s, Inf t => if Bool.eqb s t then Inf s else NaN
  | _, _ => NaN
  end.

Definition ediv (a b : efloat) : efloat :=
  match a, b with
  | Fin x, Fin y =>
      if Qeq_bool y 0 then (if Qeq_bool x 0 then NaN else Inf (qltb 0 x))
      else Fin (x / y)
  | Fin _, Inf _ => Fin 0
  | Inf s, Fin y => Inf (if qltb y 0 then negb s else s)
  | _, _ => NaN
  end.

(** [ndarray.mean()] *)
Definition emean (l : list efloat) : efloat :=
  ediv (fold_left eadd l (Fin 0)) (Fin (inject_Z (Z.of_nat (length l)))).

(** [water / monthly_swipes_arr] *)
Definition water_per_swipe (monthly_swipes : list Z) : list efloat :=
  List.map (fun '(w, s) => ediv_Z w s) (List.combine Energy.water monthly_swipes).

(** [water_per_swipe[6:9].mean() / water_per_swipe[0:3].mean()] *)
Definition summer_ratio (monthly_swipes : list Z) : efloat :=
  let wps := water_per_swipe monthly_swipes in
  ediv (emean (Energy.slice 6 9 wps)) (emean (Energy.slice 0 3 wps)).

(** *** Section 8: cost per swipe *)

(** [5_666_000 * 0.15 + 273_000 * 1.20 + 129_777_000 * 0.01], the
    decimal factors taken as exact fractions. *)
Definition total_annual_cost : Float.float :=
  Energy.fadd
    (Energy.fadd (Float.mul (Float.of_Z 5666000) (Some (15 # 100)))
                 (Float.mul (Float.of_Z 273000) (Some (120 # 100))))
    (Float.mul (Float.of_Z 129777000) (Some (1 # 100))).

(** [monthly_swipes.sum() * (12/9)] *)
Definition total_swipes_annual (monthly_swipes : list Z) : Float.float :=
  Float.mul (Float.of_Z (zsum monthly_swipes)) (Float.div (Float.of_Z 12) (Float.of_Z 9)).

Definition cost_per_swipe (monthly_swipes : list Z) : Float.float :=
  Float.div total_annual_cost (total_swipes_annual monthly_swipes).

(** *** The whole report *)

Record advanced_metrics := mk_advanced_metrics {
  (* 1 *)
  peak_months : month_series;
  low_months : month_series;
  peak_low_variance : Float.float;
  (* 2 *)
  a_floor_lines : list floor_line;
  a_underutilized : Z;
  (* 3 *)
  excess_kwh : Float.float;
  excess_cost : Float.float;
  (* 4 *)
  a_mom_change : list Float.float;
  summer_growth : Float.float;
  (* 5 *)
  a_room_blocks : list Conference.room_metrics;
  (* 6 *)
  a_remote_employees : Z;
  potential_space_reduction_sqft : Z;
  space_savings : Z;
  (* 7 *)
  a_water_per_swipe : list efloat;
  a_summer_ratio : efloat;
  (* 8 *)
  a_total_swipes_annual : Float.float;
  a_cost_per_swipe : Float.float
}.

(** The values [advanced_metrics_analysis] prints and returns
    (ge_building_analysis.py, lines 350-525), once the floor with the
    lowest efficiency is known; [df_2025] is the copy of the 2025
    bookings. The bars of section 3 and the arrows of section 4 are
    formatting only. *)
Definition assemble (info : building_info_t) (badge_data : badge_table)
    (underutilized : Z) (df_2025 : Conference.frame) : advanced_metrics :=
  let monthly_swipes := monthly_swipes badge_data in
  let series := List.combine months monthly_swipes in
  let peak_months := nlargest 3 series in
  let low_months := nsmallest 3 series in
  let sqft := total_sqft info in
  let excess_kwh :=
    Float.mul (Rates.fsub (Some (315 # 10)) (Some (85 # 10))) (Float.of_Z sqft) in
  let mom_change := mom_change monthly_swipes in
  let remote_employees := remote_employees badge_data in
  let potential_space_reduction_sqft := remote_employees * 120 in
  {| peak_months := peak_months;
     low_months := low_months;
     peak_low_variance :=
       Float.mul (Float.div (Rates.fsub (series_mean peak_months) (series_mean low_months))
                            (series_mean low_months))
                 (Float.of_Z 100);
     a_floor_lines := floor_lines badge_data;
     a_underutilized := underutilized;
     excess_kwh := excess_kwh;
     excess_cost := Float.mul excess_kwh (Some (15 # 100));
     a_mom_change := mom_change;
     summer_growth := Float.div (builtin_sum (Energy.slice 4 7 mom_change)) (Float.of_Z 3);
     a_room_blocks := omap (Conference.room_category df_2025) Conference.room_categories;
     a_remote_employees := remote_employees;
     potential_space_reduction_sqft := potential_space_reduction_sqft;
     space_savings := potential_space_reduction_sqft * 25;
     a_water_per_swipe := water_per_swipe monthly_swipes;
     a_summer_ratio := summer_ratio monthly_swipes;
     a_total_swipes_annual := total_swipes_annual monthly_swipes;
     a_cost_per_swipe := cost_per_swipe monthly_swipes |}.

(** The analysis on the table contents: [None] when there is no floor
    to take the minimum over (line 397), that is for a badge table
    without any row, on which the method raises at line 365 already. *)
Definition advanced_metrics_of (info : building_info_t) (badge_data : badge_table)
    (conference_data : Conference.frame) : option advanced_metrics :=
  match underutilized_floor badge_data with
  | Some floor => Some (assemble info badge_data floor (Conference.select_2025 conference_data))
  | None => None
  end.

End Advanced.

(** ** The methods and the script *)

Module Script.

Import Analyzer.

(** The metric operations of the analyzer. *)
Inductive operation :=
| OccupancyPatterns
| EnergyConsumption
| OccupancyEnergyCorrelation
| ConferenceRoomUtilization
| AdvancedMetrics
| SummaryReport.

Inductive result :=
| Occupancy (r : Badge.occupancy_report)
| Consumption (r : Energy.energy_report)
| Correlations (r : Correlation.correlation_report) (rates : Rates.rates_report)
| Utilization (r : Conference.conference_report)
| Advanced (r : Advanced.advanced_metrics)
| Summary.

Section Methods.

Variable strptime : string -> option Z.

(** [analyze_occupancy_patterns]: on a badge table without any row the
    monthly sums are Python ints and [monthly_swipes / num_employees]
    (line 80) is [0 / 0] on them: ZeroDivisionError. *)
Definition analyze_occupancy_patterns : M Badge.occupancy_report :=
  let* a := get_self in
  let* badge := the_badge_data in
  if Badge.object_dtype badge then raise
  else ret (Badge.analyze_occupancy_patterns (building_info a) badge).

Definition analyze_energy_consumption : M Energy.energy_report :=
  let* a := get_self in
  ret (Energy.analyze_energy_consumption (building_info a)).

(** [correlate_occupancy_with_energy] with both halves of its result.
    [stats.pearsonr] (line 249) raises on the object-dtype array that
    the sums of a table without any row make. *)
Definition correlate_occupancy_with_energy : M result :=
  let* badge := the_badge_data in
  if Badge.object_dtype badge then raise
  else ret (Correlations (Correlation.correlate_occupancy_with_energy badge)
                         (Rates.occupancy_and_consumption badge)).

(** Lines 311-348: the derived columns are assigned on [df_2025]. *)
Definition analyze_conference_room_utilization : M Conference.conference_report :=
  let* df_2025 := copy_of_2025 in
  assign df_2025 (Conference.parse_Start strptime) ;;;
  assign df_2025 (Conference.parse_Finish strptime) ;;;
  assign df_2025 Conference.derive_Hours ;;;
  assign df_2025 (Conference.loc_assign_Hours Conference.Hours_le_0 Conference.sentinel) ;;;
  assign df_2025 (Conference.loc_assign_Hours Conference.Hours_gt_20 Conference.sentinel) ;;;
  let* rows := read_conference df_2025 in
  ret (Conference.report_of Conference.ghost_mask (fun _ => false) rows).

(** [advanced_metrics_analysis]: the badge table is read first;
    [nlargest] (line 365) raises on the object-dtype sums of a table
    without any row, and [min] (line 397) on an empty score dictionary;
    only then the 2025 bookings are copied (line 449). *)
Definition advanced_metrics_analysis : M Advanced.advanced_metrics :=
  let* a := get_self in
  let* badge := the_badge_data in
  if Badge.object_dtype badge then raise
  else
    match Advanced.underutilized_floor badge with
    | None => raise
    | Some floor =>
        let* df_2025 := copy_of_2025 in
        let* rows := read_conference df_2025 in
        ret (Advanced.assemble (building_info a) badge floor rows)
    end.

(** [generate_summary_report] prints fixed text. *)
Definition generate_summary_report : M unit := ret tt.

(** One analysis call of the script. *)
Definition exec (op : operation) : M result :=
  match op with
  | OccupancyPatterns => let* r := analyze_occupancy_patterns in ret (Occupancy r)
  | EnergyConsumption => let* r := analyze_energy_consumption in ret (Consumption r)
  | OccupancyEnergyCorrelation => correlate_occupancy_with_energy
  | ConferenceRoomUtilization =>
      let* r := analyze_conference_room_utilization in ret (Utilization r)
  | AdvancedMetrics => let* r := advanced_metrics_analysis in ret (Advanced r)
  | SummaryReport => generate_summary_report ;;; ret Summary
  end.

(** The same analysis on the contents of the tables, [None] where the
    call raises. *)
Definition result_of (op : operation) (info : Badge.building_info_t)
    (badge : Badge.badge_table) (conference : Conference.frame) : option result :=
  match op with
  | OccupancyPatterns =>
      if Badge.object_dtype badge then None
      else Some (Occupancy (Badge.analyze_occupancy_patterns info badge))
  | EnergyConsumption => Some (Consumption (Energy.analyze_energy_consumption info))
  | OccupancyEnergyCorrelation =>
      if Badge.object_dtype badge then None
      else Some (Correlations (Correlation.correlate_occupancy_with_energy badge)
                              (Rates.occupancy_and_consumption badge))
  | ConferenceRoomUtilization =>
      Some (Utilization (Conference.analyze_conference_room_utilization strptime conference))
  | AdvancedMetrics =>
      if Badge.object_dtype badge then None
      else option_map Advanced (Advanced.advanced_metrics_of info badge conference)
  | SummaryReport => Some Summary
  end.

(** Analyses called one after the other. *)
Fixpoint exec_all (ops : list operation) : M (list result) :=
  match ops with
  | [] => ret []
  | op :: rest =>
      let* r := exec op in
      let* rs := exec_all rest in
      ret (r :: rs)
  end.

(** The calls of the [__main__] block of ge_building_analysis.py. *)
Definition analyses : list operation :=
  [OccupancyPatterns; EnergyConsumption; OccupancyEnergyCorrelation;
   ConferenceRoomUtilization; AdvancedMetrics; SummaryReport].

Variable strip : string -> string.
Variable to_datetime : list date_cell -> string -> option Conference.date.

Definition main (badge_csv : option Badge.badge_table) (energy_csv : option utility_table)
    (conference_csv : option (list csv_booking)) : M (list result) :=
  load_data strip to_datetime badge_csv energy_csv conference_csv ;;; exec_all analyses.

End Methods.

(** The analyzer holds exactly these tables. *)
Definition holds (st : state) (badge : Badge.badge_table) (energy : utility_table)
    (conference : Conference.frame) : Prop :=
  tables st = (Some (BadgeFrame badge), Some (EnergyFrame energy),
               Some (ConferenceFrame conference)).

(** The calls that read the swipe columns. *)
Definition reads_swipes (op : operation) : bool :=
  match op with
  | OccupancyPatterns | OccupancyEnergyCorrelation | AdvancedMetrics => true
  | _ => false
  end.

End Script.

(** ** float64 rounding of the printed shares *)

Module Rounding.

Local Open Scope Q_scope.

(** The unit roundoff of float64, [2^-53]. *)
Definition u : Q := 1 # 9007199254740992.

(** The standard model of float64 arithmetic with rounding to nearest:
    away from underflow and overflow, an operation returns its exact
    result times [1 + delta] for some [delta] of magnitude at most
    [u]. *)
Definition small (delta : Q) : Prop := - u <= delta /\ delta <= u.

Definition fl (delta x : Q) : Q := x * (1 + delta).

(** [part / whole * 100] (lines 107 and 121-124) as float64 computes it:
    the quotient of the two integers (exact as floats below [2^53]) is
    rounded, and so is its product with 100. *)
Definition pct (errors : Q * Q) (part whole : Z) : Q :=
  fl (snd errors) (fl (fst errors) (inject_Z part / inject_Z whole) * 100).

(** The floor shares of lines 106-107, for the rounding errors
    [errors floor] of the two operations on each floor. *)
Definition floor_shares (errors : Z -> Q * Q) (badge_data : Badge.badge_table) : list Q :=
  let floor_occupancy := Badge.floor_occupancy badge_data in
  List.map (fun '(floor, swipes) =>
              pct (errors floor) swipes (Badge.zsum (List.map snd floor_occupancy)))
           floor_occupancy.

(** The four tier percentages of lines 121-124, each with the errors of
    its two operations. *)
Definition tier_shares (e1 e2 e3 e4 : Q * Q) (badge_data : Badge.badge_table) : list Q :=
  let total_swipes := Badge.total_swipes badge_data in
  let num_employees := Z.of_nat (length badge_data) in
  [pct e1 (Badge.count_true (List.map Badge.very_low_util total_swipes)) num_employees;
   pct e2 (Badge.count_true (List.map Badge.low_util total_swipes)) num_employees;
   pct e3 (Badge.count_true (List.map Badge.medium_util total_swipes)) num_employees;
   pct e4 (Badge.count_true (List.map Badge.high_util total_swipes)) num_employees].

(** The bounds of a product of two rounded operations. *)
Definition below : Q := (1 - u) * (1 - u).
Definition above : Q := (1 + u) * (1 + u).

End Rounding.

(** ** Auxiliary notions for the statements *)

Module Notions.

(** A cell of the derived ['Hours'] column that is [nan] or lies in
    (0, 20]. *)
Definition bounded_cell (c : Float.float) : Prop :=
  c = None \/ exists q, c = Some q /\ (0 < q)%Q /\ (q <= 20)%Q.

(** The orders of [nlargest] and [nsmallest] on a month series. *)
Definition by_value_desc (x y : Badge.month * Z) : Prop := (snd y <= snd x)%Z.
Definition by_value_asc (x y : Badge.month * Z) : Prop := (snd x <= snd y)%Z.

(** The floats of the badge-derived sections (1 to 4, 7 and 8) of the
    advanced metrics, and whether they are all finite. *)
Definition efinite (x : Advanced.efloat) : bool :=
  match x with Advanced.Fin _ => true | _ => false end.

Definition advanced_floats (a : Advanced.advanced_metrics) : list Float.float :=
  [Advanced.peak_low_variance a; Advanced.excess_kwh a; Advanced.excess_cost a;
   Advanced.summer_growth a; Advanced.a_total_swipes_annual a; Advanced.a_cost_per_swipe a]
  ++ Advanced.a_mom_change a
  ++ List.map Advanced.fl_swipes_per_sqft (Advanced.a_floor_lines a)
  ++ List.map Advanced.fl_efficiency (Advanced.a_floor_lines a).

Definition advanced_well_defined (a : Advanced.advanced_metrics) : bool :=
  forallb Float.is_finite (advanced_floats a)
  && forallb efinite (Advanced.a_summer_ratio a :: Advanced.a_water_per_swipe a).

(** The nine monthly totals of a badge table, by name. *)
Definition month_total (m : Badge.month) (badge_data : Badge.badge_table) : Z :=
  Badge.zsum (List.map (Badge.col m) badge_data).

(** An employee without any swipe in January, for the examples. *)
Definition away_in_january : Badge.employee :=
  Badge.mk_employee 2 0 10 10 10 10 10 10 10 10.

(** A booking of another year, for the examples. *)
Definition last_year_meeting : Conference.booking :=
  Conference.mk_booking "Room 129" (Conference.mk_date 2024 11 5)
    (Conference.Text "2:00 PM") (Conference.Text "3:00 PM") 6 "Meeting" None.

End Notions.

(** * Properties *)

(** ** Utilization tiers *)

Section Tiers.

Import Badge.
Local Open Scope Z_scope.

Lemma count_true_nonneg (l : list bool) : 0 <= count_true l.
Proof.
  induction l as [|b l IH]; simpl; [lia|].
  destruct b; lia.
Qed.

Lemma count_true_app (l1 l2 : list bool) :
  count_true (l1 ++ l2) = count_true l1 + count_true l2.
Proof.
  induction l1 as [|b l1 IH]; simpl; [reflexivity|].
  rewrite IH. lia.
Qed.

(** Two masks that split a third one, row by row, split its count. *)
Lemma count_true_split (p q r : Z -> bool) (l : list Z) :
  (forall t, (if p t then 1 else 0) + (if q t then 1 else 0) = (if r t then 1 else 0)) ->
  count_true (List.map p l) + count_true (List.map q l) = count_true (List.map r l).
Proof.
  intros Hsplit. induction l as [|t l IH]; simpl; [reflexivity|].
  specialize (Hsplit t). lia.
Qed.

Lemma tier_masks_cases (t : Z) :
  (very_low_util t = true /\ low_util t = false /\ medium_util t = false /\ high_util t = false)
  \/ (very_low_util t = false /\ low_util t = true /\ medium_util t = false /\ high_util t = false)
  \/ (very_low_util t = false /\ low_util t = false /\ medium_util t = true /\ high_util t = false)
  \/ (very_low_util t = false /\ low_util t = false /\ medium_util t = false /\ high_util t = true).
Proof.
  unfold very_low_util, low_util, medium_util, high_util.
  destruct (Z.ltb_spec t 30), (Z.leb_spec 30 t), (Z.ltb_spec t 90),
    (Z.leb_spec 90 t), (Z.ltb_spec t 140), (Z.leb_spec 140 t); simpl;
    try lia; tauto.
Qed.

(** C1. Every nine-month total, of any sign, satisfies exactly one of the
    four tier masks [<30], [[30,90)], [[90,140)], [>=140] of
    [analyze_occupancy_patterns]; hence in every badge table the four
    tier counts add up to the number of employees. *)
Theorem tiers_partition :
  (forall t : Z, tiers_matched t = 1)
  /\ (forall badge_data : badge_table,
        let r := analyze_occupancy_patterns building_info badge_data in
        tr_count (r_very_low r) + tr_count (r_low r)
        + tr_count (r_medium r) + tr_count (r_high r)
        = Z.of_nat (length badge_data)).
Proof.
  assert (Hone : forall t : Z, tiers_matched t = 1).
  { intros t. unfold tiers_matched.
    destruct (tier_masks_cases t) as [H|[H|[H|H]]];
      destruct H as (-> & -> & -> & ->); reflexivity. }
  split; [exact Hone|].
  intros badge_data. simpl. unfold total_swipes.
  induction badge_data as [|e rest IH]; [reflexivity|].
  change (length (e :: rest)) with (S (length rest)).
  rewrite Nat2Z.inj_succ. simpl List.map. simpl count_true.
  pose proof (Hone (row_total e)) as H1. unfold tiers_matched in H1.
  simpl in H1. lia.
Qed.

(** C9. The remote-work headcount of [advanced_metrics_analysis]
    ([<20] plus [[20,90)]) equals the low-utilizer count returned by
    [analyze_occupancy_patterns] ([<30] plus [[30,90)]): both are the
    number of employees whose nine-month total is below 90. *)
Theorem remote_headcount_is_low_utilizers (badge_data : badge_table) :
  remote_employees badge_data
  = r_low_utilizers (analyze_occupancy_patterns building_info badge_data)
  /\ remote_employees badge_data = below_90 badge_data.
Proof.
  assert (Hremote : remote_employees badge_data = below_90 badge_data).
  { unfold remote_employees, full_remote, mostly_remote, below_90.
    apply count_true_split. intros t.
    destruct (Z.ltb_spec t 20), (Z.leb_spec 20 t), (Z.ltb_spec t 90); simpl; lia. }
  split; [|exact Hremote].
  rewrite Hremote. unfold below_90. simpl. symmetry.
  apply count_true_split. intros t. unfold very_low_util, low_util.
  destruct (Z.ltb_spec t 30), (Z.leb_spec 30 t), (Z.ltb_spec t 90); simpl; lia.
Qed.

End Tiers.

(** ** Monthly occupancy metrics *)

Section MonthlyMetrics.

Import Badge.
Local Open Scope Z_scope.

(** C4, as stated, fails: on a table of 100 employees whose monthly
    totals are all 1000, with 20 working days, the monthly rows do not
    carry 0.5 days and 2.5 %. *)
Lemma scenario_not_half_day :
  length scenario_table = 100%nat
  /\ monthly_swipes scenario_table = List.repeat 1000 9
  /\ working_days_per_month building_info = 20
  /\ ~ Forall (row_has (1 # 2) (5 # 2))
        (r_month_rows (analyze_occupancy_patterns building_info scenario_table)).
Proof.
  repeat split; try reflexivity.
  intros Hall. vm_compute in Hall.
  inversion Hall as [|row rows [Havg _] _]; subst.
  discriminate Havg.
Qed.

(** C4, amended. On every badge table of 100 employees whose nine
    monthly totals are all 1000, with the 20 working days of
    [building_info], [analyze_occupancy_patterns] reports, for each of the
    nine months, 10 average days per employee and an attendance rate of
    50 %. *)
Theorem scenario_monthly_metrics (badge_data : badge_table) :
  length badge_data = 100%nat ->
  monthly_swipes badge_data = List.repeat 1000 9 ->
  let r := analyze_occupancy_patterns building_info badge_data in
  List.map mr_month (r_month_rows r) = months
  /\ Forall (row_has 10 50) (r_month_rows r)
  /\ Forall (fun a => Float.eq a (Some 10%Q)) (r_avg_days_in_office_per_month r)
  /\ Forall (fun a => Float.eq a (Some 50%Q)) (r_attendance_rate r).
Proof.
  intros Hlen Hmonthly r. subst r.
  unfold analyze_occupancy_patterns.
  rewrite Hmonthly, Hlen. simpl.
  split; [reflexivity|].
  split; [|split]; repeat constructor.
Qed.

Lemma scenario_monthly_metrics_witness :
  let r := analyze_occupancy_patterns building_info scenario_table in
  List.map mr_month (r_month_rows r) = months
  /\ Forall (row_has 10 50) (r_month_rows r)
  /\ Forall (fun a => Float.eq a (Some 10%Q)) (r_avg_days_in_office_per_month r)
  /\ Forall (fun a => Float.eq a (Some 50%Q)) (r_attendance_rate r).
Proof.
  apply (scenario_monthly_metrics scenario_table); reflexivity.
Defined.

End MonthlyMetrics.

(** ** Well-definedness of the occupancy analysis *)

Section OccupancyDivisions.

Import Badge.
Local Open Scope Z_scope.

Lemma Qeq_bool_inject_Z (b : Z) : Qeq_bool (inject_Z b) 0 = (b =? 0).
Proof. destruct b; reflexivity. Qed.

Lemma finite_div_of_Z (a b : Z) :
  Float.is_finite (Float.div (Float.of_Z a) (Float.of_Z b)) = negb (b =? 0).
Proof.
  unfold Float.div, Float.of_Z. rewrite Qeq_bool_inject_Z.
  destruct (b =? 0); reflexivity.
Qed.

Lemma finite_mul (a b : Float.float) :
  Float.is_finite (Float.mul a b) = Float.is_finite a && Float.is_finite b.
Proof. destruct a, b; reflexivity. Qed.

Lemma finite_div_by (a : Float.float) (b : Z) :
  b <> 0 -> Float.is_finite (Float.div a (Float.of_Z b)) = Float.is_finite a.
Proof.
  intros Hb. destruct a as [x|]; [|reflexivity].
  unfold Float.div, Float.of_Z. rewrite Qeq_bool_inject_Z.
  apply Z.eqb_neq in Hb. rewrite Hb. reflexivity.
Qed.

(** The percentage pattern [(x / d) * 100] is finite exactly when
    [x / d] is. *)
Lemma finite_percent (a : Float.float) : Float.is_finite (Float.mul a hundred) = Float.is_finite a.
Proof. rewrite finite_mul. unfold hundred. simpl. apply andb_true_r. Qed.

Lemma mean_finite (l : list Float.float) :
  l <> [] -> Forall (fun a => Float.is_finite a = true) l ->
  Float.is_finite (Float.mean l) = true.
Proof.
  intros Hne Hall. unfold Float.mean.
  assert (Hlen : length (omap (fun a => a) l) = length l).
  { clear Hne. induction Hall as [|a l Ha _ IH]; [reflexivity|].
    destruct a as [x|]; [|discriminate Ha]. simpl. f_equal. exact IH. }
  rewrite Hlen. unfold Float.div, Float.of_Z. rewrite Qeq_bool_inject_Z.
  destruct l as [|a l]; [congruence|]. reflexivity.
Qed.

Lemma zsum_nonneg (l : list Z) : Forall (fun x => 0 <= x) l -> 0 <= zsum l.
Proof. induction 1 as [|x l Hx _ IH]; simpl; lia. Qed.

Lemma zsum_pos (l : list Z) (x : Z) :
  Forall (fun y => 0 <= y) l -> In x l -> 0 < x -> 0 < zsum l.
Proof.
  intros Hall Hin Hx. induction Hall as [|y l Hy Hall IH]; [destruct Hin|].
  simpl. pose proof (zsum_nonneg l Hall).
  destruct Hin as [->|Hin]; [lia|]. specialize (IH Hin). lia.
Qed.

Lemma zsum_all_zero (l : list Z) : Forall (fun x => x = 0) l -> zsum l = 0.
Proof. induction 1 as [|x l Hx _ IH]; simpl; lia. Qed.

Lemma in_months (m : month) : In m months.
Proof. destruct m; simpl; tauto. Qed.

Lemma in_insert_key (k x : Z) (ks : list Z) :
  In x (insert_key k ks) <-> x = k \/ In x ks.
Proof.
  induction ks as [|k' rest IH]; simpl; [intuition congruence|].
  destruct (Z.ltb_spec k k'); simpl; [intuition congruence|].
  destruct (Z.eqb_spec k k'); simpl; [subst; intuition congruence|].
  rewrite IH. intuition congruence.
Qed.

Lemma in_group_keys (x : Z) (l : list Z) : In x (group_keys l) <-> In x l.
Proof.
  induction l as [|k l IH]; simpl; [tauto|].
  rewrite in_insert_key, IH. intuition congruence.
Qed.

(** The grand total [floor_occupancy.sum()] is positive as soon as one
    swipe count is, when no count is negative. *)
Lemma grand_total_pos (badge_data : badge_table) (e : employee) (m : month) :
  (forall e' m', In e' badge_data -> 0 <= col m' e') ->
  In e badge_data -> 0 < col m e ->
  0 < zsum (List.map snd (floor_occupancy badge_data)).
Proof.
  intros Hnn He Hpos. unfold floor_occupancy. rewrite List.map_map. cbn [snd].
  assert (Hgroup : forall floor,
             Forall (fun x => 0 <= x) (monthly_swipes (on_floor floor badge_data))).
  { intros floor. unfold monthly_swipes. apply Forall_map, Forall_forall.
    intros m' _. apply zsum_nonneg, Forall_map, Forall_forall.
    intros e' He'. apply filter_In in He' as [He' _]. auto. }
  apply zsum_pos with (x := zsum (monthly_swipes (on_floor (Floor e) badge_data))).
  - apply Forall_map, Forall_forall. intros floor _. apply zsum_nonneg, Hgroup.
  - apply in_map_iff. exists (Floor e). split; [reflexivity|].
    apply in_group_keys, in_map. exact He.
  - apply zsum_pos with (x := zsum (List.map (col m) (on_floor (Floor e) badge_data)));
      [apply Hgroup| |].
    + unfold monthly_swipes. apply in_map_iff. exists m. split; [reflexivity|apply in_months].
    + apply zsum_pos with (x := col m e); [| |exact Hpos].
      * apply Forall_map, Forall_forall. intros e' He'.
        apply filter_In in He' as [He' _]. auto.
      * apply in_map. apply filter_In. split; [exact He|apply Z.eqb_refl].
Qed.

(** Without any positive count (and none negative) it is zero. *)
Lemma grand_total_zero (badge_data : badge_table) :
  (forall e m, In e badge_data -> col m e = 0) ->
  zsum (List.map snd (floor_occupancy badge_data)) = 0.
Proof.
  intros Hz. unfold floor_occupancy. rewrite List.map_map. cbn [snd].
  apply zsum_all_zero, Forall_map, Forall_forall. intros floor _.
  apply zsum_all_zero. unfold monthly_swipes. apply Forall_map, Forall_forall.
  intros m _. apply zsum_all_zero, Forall_map, Forall_forall.
  intros e He. apply filter_In in He as [He _]. auto.
Qed.

(** The report is finite exactly when neither divisor, the number of
    employees and the grand total of swipes, is zero. *)
Lemma well_defined_divisors (badge_data : badge_table) :
  well_defined (analyze_occupancy_patterns building_info badge_data) = true
  <-> badge_data <> [] /\ zsum (List.map snd (floor_occupancy badge_data)) <> 0.
Proof.
  unfold well_defined. rewrite forallb_forall.
  set (r := analyze_occupancy_patterns building_info badge_data).
  split.
  - intros Hfin.
    assert (Hne : badge_data <> []).
    { intros ->. specialize (Hfin (tr_pct (r_very_low r))).
      discriminate Hfin. unfold report_floats. rewrite !in_app_iff. simpl. tauto. }
    split; [exact Hne|]. intros Hzero.
    destruct badge_data as [|e rest]; [congruence|].
    assert (Hkey : In (Floor e) (group_keys (List.map Floor (e :: rest)))).
    { apply in_group_keys. left. reflexivity. }
    set (swipes := zsum (monthly_swipes (on_floor (Floor e) (e :: rest)))).
    specialize (Hfin (Float.mul (Float.div (Float.of_Z swipes) (Float.of_Z 0)) hundred)).
    rewrite finite_percent, finite_div_of_Z in Hfin. discriminate Hfin.
    unfold report_floats. rewrite !in_app_iff. do 5 right. left.
    subst r. unfold analyze_occupancy_patterns. cbn [r_floor_rows].
    rewrite Hzero. rewrite List.map_map. apply in_map_iff.
    exists (Floor e, swipes). split; [reflexivity|].
    unfold floor_occupancy. apply in_map_iff. exists (Floor e). split; [reflexivity|exact Hkey].
  - intros [Hne Hgrand] x Hin.
    assert (Hn : Z.of_nat (length badge_data) <> 0).
    { destruct badge_data; [congruence|]. simpl length. lia. }
    assert (Hwd : working_days_per_month building_info <> 0) by (simpl; lia).
    assert (Havg : forall s,
               Float.is_finite (Float.div (Float.of_Z s)
                                  (Float.of_Z (Z.of_nat (length badge_data)))) = true).
    { intros s. rewrite finite_div_of_Z. apply Z.eqb_neq in Hn. rewrite Hn. reflexivity. }
    unfold report_floats in Hin. rewrite !in_app_iff in Hin.
    subst r. unfold analyze_occupancy_patterns in Hin.
    cbn [r_avg_days_in_office_per_month r_attendance_rate r_month_rows r_avg_days_in_office
         r_overall_rate r_floor_rows r_very_low r_low r_medium r_high r_low_utilizers_pct
         tier_line tr_pct] in Hin.
    rewrite !List.map_map in Hin.
    destruct Hin as [Hin|[Hin|[Hin|[Hin|[Hin|[Hin|Hin]]]]]].
    + apply in_map_iff in Hin as (s & <- & _). apply Havg.
    + apply in_map_iff in Hin as (s & <- & _).
      rewrite finite_percent, finite_div_by by exact Hwd. apply Havg.
    + apply in_map_iff in Hin as ([mo s] & <- & _). apply Havg.
    + apply in_map_iff in Hin as ([mo s] & <- & _). cbn [mr_rate]. unfold rate_of.
      rewrite finite_percent, finite_div_by by exact Hwd. apply Havg.
    + assert (Hmean : Float.is_finite
                        (Float.mean
                           (List.map (fun s => Float.div (Float.of_Z s)
                                         (Float.of_Z (Z.of_nat (length badge_data))))
                              (monthly_swipes badge_data))) = true).
      { apply mean_finite; [discriminate|].
        apply Forall_map, Forall_forall. intros s _. apply Havg. }
      destruct Hin as [<-|[<-|[]]]; [exact Hmean|].
      rewrite finite_percent, finite_div_by by exact Hwd. exact Hmean.
    + apply in_map_iff in Hin as ([floor s] & <- & _). cbn [fr_pct].
      rewrite finite_percent, finite_div_of_Z.
      apply Z.eqb_neq in Hgrand. rewrite Hgrand. reflexivity.
    + destruct Hin as [<-|[<-|[<-|[<-|[<-|[]]]]]];
        rewrite finite_percent; apply Havg.
Qed.

(** C10. For a badge table whose swipe counts are not negative,
    [analyze_occupancy_patterns] meets no zero divisor (every float of its
    report is finite) exactly when the table is non-empty and holds a
    positive swipe count: the per-employee averages divide by the number
    of employees and the per-floor shares by the grand total, unguarded. *)
Theorem occupancy_well_defined_iff (badge_data : badge_table) :
  (forall e m, In e badge_data -> 0 <= col m e) ->
  (well_defined (analyze_occupancy_patterns building_info badge_data) = true
   <-> badge_data <> [] /\ exists e m, In e badge_data /\ 0 < col m e).
Proof.
  intros Hnn. rewrite well_defined_divisors. split.
  - intros [Hne Hgrand]. split; [exact Hne|].
    destruct (Exists_dec (fun e => Exists (fun m => 0 < col m e) months) badge_data)
      as [Hex|Hnone].
    { intros e. apply Exists_dec. intros m. apply Z_lt_dec. }
    + apply Exists_exists in Hex as (e & He & Hm).
      apply Exists_exists in Hm as (m & _ & Hpos). eauto.
    + exfalso. apply Hgrand, grand_total_zero. intros e m He.
      specialize (Hnn e m He).
      destruct (Z.eq_dec (col m e) 0) as [|Hnz]; [assumption|].
      exfalso. apply Hnone. apply Exists_exists. exists e. split; [exact He|].
      apply Exists_exists. exists m. split; [apply in_months|lia].
  - intros [Hne (e & m & He & Hpos)]. split; [exact Hne|].
    pose proof (grand_total_pos badge_data e m Hnn He Hpos). lia.
Qed.

Lemma occupancy_well_defined_iff_witness :
  well_defined (analyze_occupancy_patterns building_info scenario_table) = true
  <-> scenario_table <> [] /\ exists e m, In e scenario_table /\ 0 < col m e.
Proof.
  apply (occupancy_well_defined_iff scenario_table).
  intros e m He. apply repeat_spec in He. subst e. destruct m; simpl; lia.
Defined.

End OccupancyDivisions.

(** ** Derived booking durations *)

Section Durations.

Import Conference.
Local Open Scope Z_scope.

Variable strptime : string -> option Z.

Lemma with_hours_rows (df : frame) :
  with_hours strptime df = List.map (hours_row strptime Hours_le_0) df.
Proof.
  unfold with_hours, loc_assign_Hours, derive_Hours, parse_Finish, parse_Start.
  rewrite !List.map_map. reflexivity.
Qed.

Lemma with_hours_v1_rows (df : frame) :
  with_hours_v1 strptime df = List.map (hours_row strptime Hours_lt_0) df.
Proof.
  unfold with_hours_v1, loc_assign_Hours, derive_Hours, parse_Finish, parse_Start.
  rewrite !List.map_map. reflexivity.
Qed.

Lemma hours_between_stamps (s f : Z) :
  hours_between (Stamp s) (Stamp f) = Some (duration s f).
Proof. reflexivity. Qed.

Lemma Qle_bool_false (x y : Q) : Qle_bool x y = false <-> (y < x)%Q.
Proof.
  rewrite <- not_true_iff_false, Qle_bool_iff. split.
  - apply Qnot_le_lt.
  - apply Qlt_not_le.
Qed.

Lemma gtb_20_spec (q : Q) : Float.gtb (Some q) (Float.of_Z 20) = true <-> (20 < q)%Q.
Proof.
  unfold Float.gtb, Float.ltb, Float.of_Z.
  rewrite andb_true_iff, negb_true_iff, Qle_bool_iff.
  rewrite <- not_true_iff_false, Qeq_bool_iff.
  change (inject_Z 20) with 20%Q. split.
  - intros [Hle Hne]. apply Qle_lt_or_eq in Hle. tauto.
  - intros Hlt. split; [apply Qlt_le_weak, Hlt|].
    intros Heq. rewrite Heq in Hlt. exact (Qlt_irrefl _ Hlt).
Qed.

Lemma leb_0_spec (q : Q) : Float.leb (Some q) (Float.of_Z 0) = true <-> (q <= 0)%Q.
Proof. unfold Float.leb, Float.of_Z. apply Qle_bool_iff. Qed.

(** The current script and v2: a parsed row gets the sentinel exactly
    when its parsed duration is [<= 0] or [> 20], and keeps the parsed
    duration otherwise. *)
Lemma clamp_exactly_when (b : booking) (s f : Z) :
  parses strptime b s f ->
  ((duration s f <= 0)%Q \/ (20 < duration s f)%Q ->
     Hours (hours_row strptime Hours_le_0 b) = Some sentinel)
  /\ ((0 < duration s f)%Q /\ (duration s f <= 20)%Q ->
     Hours (hours_row strptime Hours_le_0 b) = Some (Some (duration s f))).
Proof.
  intros [Hs Hf]. unfold hours_row. cbn [Start Finish set_Start set_Finish].
  rewrite Hs, Hf, hours_between_stamps.
  unfold Hours_le_0, Hours_gt_20. cbn [Hours set_Hours].
  destruct (Float.leb (Some (duration s f)) (Float.of_Z 0)) eqn:Hle;
    cbn [Hours set_Hours].
  - apply leb_0_spec in Hle. split.
    + intros _. reflexivity.
    + intros [Hpos _]. exfalso. exact (Qlt_not_le _ _ Hpos Hle).
  - assert (Hpos : (0 < duration s f)%Q).
    { apply Qnot_le_lt. intros Hle'. apply leb_0_spec in Hle'. congruence. }
    destruct (Float.gtb (Some (duration s f)) (Float.of_Z 20)) eqn:Hgt;
      cbn [Hours set_Hours].
    + apply gtb_20_spec in Hgt. split; [reflexivity|].
      intros [_ Hle20]. exfalso. exact (Qlt_not_le _ _ Hgt Hle20).
    + split; [|reflexivity].
      intros [Hle0|Hgt20].
      * exfalso. exact (Qlt_not_le _ _ Hpos Hle0).
      * apply gtb_20_spec in Hgt20. congruence.
Qed.

(** The current script and v2: after the two masked assignments the
    duration of a parsed row lies in (0, 20]. *)
Lemma clamp_bound (b : booking) (s f : Z) :
  parses strptime b s f ->
  exists h, Hours (hours_row strptime Hours_le_0 b) = Some h /\ in_bound h.
Proof.
  intros Hp. destruct (clamp_exactly_when b s f Hp) as [Hout Hin].
  destruct (Qlt_le_dec 0 (duration s f)) as [Hpos|Hle0].
  - destruct (Qlt_le_dec 20 (duration s f)) as [Hgt|Hle].
    + exists sentinel. split; [auto|]. simpl. split; reflexivity || discriminate.
    + exists (Some (duration s f)). split; [auto|]. simpl. auto.
  - exists sentinel. split; [auto|]. simpl. split; reflexivity || discriminate.
Qed.

End Durations.

(** ** The first version of the script and the zero-length booking *)

Section FirstVersion.

Import Conference.
Local Open Scope Z_scope.

(** C2. In v1 the first mask is [Hours < 0]: a booking from 12:00 AM to
    12:00 AM parses, its parsed duration is 0 (non-positive), and v1
    keeps 0 hours instead of the sentinel 15 that the current script and
    v2 assign on the same row. *)
Theorem v1_keeps_zero_duration :
  parses clock_12h midnight_to_midnight 0 0
  /\ (duration 0 0 <= 0)%Q
  /\ List.map Hours (with_hours_v1 clock_12h (select_2025 [midnight_to_midnight]))
     = [Some (Some (duration 0 0))]
  /\ ~ Float.eq (Some (duration 0 0)) sentinel
  /\ List.map Hours (with_hours clock_12h (select_2025 [midnight_to_midnight]))
     = [Some sentinel].
Proof.
  split; [split; reflexivity|].
  split; [discriminate|].
  split; [reflexivity|].
  split; [|reflexivity].
  intros Heq. vm_compute in Heq. discriminate Heq.
Qed.

(** C8. In v1 the duration column of parsed rows does not stay within
    (0, 20]: every row of the example table parses, yet after v1's two
    masked assignments the midnight-to-midnight row holds 0 hours; the
    current script keeps the same table within the bound. *)
Theorem v1_zero_duration_out_of_bound :
  let df_2025 := select_2025 [morning_meeting; midnight_to_midnight; overnight] in
  Forall (fun b => exists s f, parses clock_12h b s f) df_2025
  /\ ~ Forall (fun b => exists h, Hours b = Some h /\ in_bound h)
         (with_hours_v1 clock_12h df_2025)
  /\ Forall (fun b => exists h, Hours b = Some h /\ in_bound h)
       (with_hours clock_12h df_2025).
Proof.
  cbv zeta. split; [|split].
  - repeat constructor.
    + exists 32400, 37800. split; reflexivity.
    + exists 0, 0. split; reflexivity.
    + exists 82800, 3600. split; reflexivity.
  - intros Hall. vm_compute in Hall.
    inversion Hall as [|b1 rest1 _ Hrest]; subst.
    inversion Hrest as [|b2 rest2 (h & Hh & Hb) _]; subst.
    simpl in Hh. injection Hh as <-. destruct Hb as [Hpos _].
    discriminate Hpos.
  - rewrite with_hours_rows. apply Forall_map, Forall_forall.
    intros b Hb. vm_compute in Hb.
    destruct Hb as [<-|[<-|[<-|[]]]].
    + apply (clamp_bound clock_12h _ 32400 37800). split; reflexivity.
    + apply (clamp_bound clock_12h _ 0 0). split; reflexivity.
    + apply (clamp_bound clock_12h _ 82800 3600). split; reflexivity.
Qed.

End FirstVersion.

(** ** Ghost bookings *)

Section Ghosts.

Import Conference.
Local Open Scope Z_scope.

Lemma count_true_le (A : Type) (p q : A -> bool) (l : list A) :
  (forall x, p x = true -> q x = true) ->
  Badge.count_true (List.map p l) <= Badge.count_true (List.map q l).
Proof.
  intros Himp. induction l as [|x l IH]; simpl; [lia|].
  specialize (Himp x).
  destruct (p x), (q x); first [lia | specialize (Himp eq_refl); discriminate Himp].
Qed.

(** C6. On the same booking set the ghost count that excludes a named
    booking type never exceeds the ghost count without exclusion; in
    particular the ghost bookings v2 reports (excluding 'All Hands')
    are at most those the current script reports, whatever the time
    parser does. *)
Theorem ghost_exclusion_le :
  (forall (label : string) (df : frame),
      Badge.count_true (List.map (ghost_mask_excluding label) df)
      <= Badge.count_true (List.map ghost_mask df))
  /\ (forall (strptime : string -> option Z) (conference_data : frame),
        ghost_bookings (analyze_conference_room_utilization_v2 strptime conference_data)
        <= ghost_bookings (analyze_conference_room_utilization strptime conference_data)).
Proof.
  assert (Hle : forall (label : string) (df : frame),
             Badge.count_true (List.map (ghost_mask_excluding label) df)
             <= Badge.count_true (List.map ghost_mask df)).
  { intros label df. apply count_true_le. intros b.
    unfold ghost_mask_excluding, ghost_mask. intros H.
    apply andb_true_iff in H as [H _]. exact H. }
  split; [exact Hle|].
  intros strptime conference_data. apply Hle.
Qed.

End Ghosts.

(** ** Room cost-benefit: the guard on empty groups *)

Section RoomCategories.

Import Conference.
Local Open Scope Z_scope.

(** The guarded case: a category without bookings prints nothing. *)
Lemma room_category_skipped (df_2025 : frame) (room_type : string) (room_list : list string) :
  List.filter (isin room_list) df_2025 = [] ->
  room_category df_2025 (room_type, room_list) = None.
Proof. intros Hnone. unfold room_category. rewrite Hnone. reflexivity. Qed.

(** A category is printed as soon as it has a booking, attended or not. *)
Lemma room_category_emitted (df_2025 : frame) (room_type : string) (room_list : list string) :
  List.filter (isin room_list) df_2025 <> [] ->
  exists m, room_category df_2025 (room_type, room_list) = Some m
            /\ rm_avg_attendees m
               = Float.mean (List.map (fun b => Float.of_Z (Attendees b))
                               (attended_in room_list df_2025)).
Proof.
  intros Hsome. unfold room_category, attended_in.
  destruct (List.filter (isin room_list) df_2025) as [|b rest]; [congruence|].
  change (length (b :: rest)) with (S (length rest)).
  destruct (Z.ltb_spec 0 (Z.of_nat (S (length rest)))) as [_|Hle]; [|lia].
  eexists. split; reflexivity.
Qed.

(** C5. A large room booked once in 2025 with zero attendees: the
    attended bookings of the category form an empty group, yet the
    category is printed, with [nan] as its average attendance, instead
    of being skipped; the medium category, without bookings, is
    skipped. *)
Theorem empty_attended_group_is_printed :
  attended_in large_rooms (select_2025 [empty_auditorium]) = []
  /\ conference_room_cost_benefit [empty_auditorium]
     = [mk_room_metrics "Large (200+ cap)" 1 Float.nan (Float.of_Z 100)].
Proof. split; reflexivity. Qed.

End RoomCategories.

(** ** The correlation coefficient *)

Section Pearson.

Import Correlation.
Local Open Scope R_scope.

Lemma sum_sq_nonneg (xs : list R) : 0 <= sum_sq xs.
Proof.
  unfold sum_sq. induction xs as [|x xs IH]; simpl; [lra|].
  pose proof (Rle_0_sqr x) as Hx. unfold Rsqr in Hx. lra.
Qed.

Lemma sum_sq_zero (xs : list R) : sum_sq xs = 0 -> forall x, In x xs -> x = 0.
Proof.
  unfold sum_sq. induction xs as [|a xs IH]; simpl; [tauto|].
  intros Hsum x Hin.
  pose proof (Rle_0_sqr a) as Ha. unfold Rsqr in Ha.
  pose proof (sum_sq_nonneg xs) as Hxs. unfold sum_sq in Hxs.
  destruct Hin as [<-|Hin].
  - apply Rsqr_0_uniq. unfold Rsqr. lra.
  - apply IH; [lra|exact Hin].
Qed.

Lemma sum_sq_all_zero (xs : list R) : (forall x, In x xs -> x = 0) -> sum_sq xs = 0.
Proof.
  unfold sum_sq. induction xs as [|a xs IH]; simpl; [reflexivity|].
  intros Hz. rewrite IH by auto. rewrite (Hz a) by auto. lra.
Qed.

Lemma rsum_all_equal (c : R) (xs : list R) :
  (forall x, In x xs -> x = c) -> rsum xs = INR (length xs) * c.
Proof.
  induction xs as [|a xs IH]; intros Hc.
  - simpl. lra.
  - change (length (a :: xs)) with (S (length xs)). rewrite S_INR.
    simpl rsum. rewrite IH by (intros x Hx; apply Hc; right; exact Hx).
    rewrite (Hc a) by (left; reflexivity). lra.
Qed.

(** Zero variance is constancy. *)
Lemma zero_variance_iff_constant (xs : list R) :
  sum_sq (centered xs) = 0 <-> constant xs.
Proof.
  split.
  - intros Hzero x y Hx Hy.
    assert (Hmean : forall z, In z xs -> z = mean xs).
    { intros z Hz.
      assert (z - mean xs = 0); [|lra].
      apply (sum_sq_zero _ Hzero). unfold centered.
      apply in_map_iff. exists z. split; [reflexivity|exact Hz]. }
    rewrite (Hmean x Hx), (Hmean y Hy). reflexivity.
  - intros Hconst. apply sum_sq_all_zero. intros d Hd.
    unfold centered in Hd. apply in_map_iff in Hd as (x & <- & Hx).
    destruct xs as [|a xs']; [destruct Hx|].
    assert (Hall : forall z, In z (a :: xs') -> z = a).
    { intros z Hz. apply Hconst; [exact Hz|left; reflexivity]. }
    unfold mean. rewrite (rsum_all_equal a) by exact Hall.
    rewrite (Hall x Hx).
    assert (Hn : INR (length (a :: xs')) <> 0).
    { apply not_0_INR. discriminate. }
    field. exact Hn.
Qed.

(** The quadratic [sum (x t + y)^2] is never negative. *)
Lemma quadratic_nonneg (xs ys : list R) (t : R) :
  0 <= sum_sq xs * (t * t) + 2 * dot xs ys * t + sum_sq ys.
Proof.
  revert ys. induction xs as [|x xs IH]; intros ys.
  - unfold dot. simpl. pose proof (sum_sq_nonneg ys). unfold sum_sq at 1. simpl. lra.
  - destruct ys as [|y ys].
    + unfold dot. simpl. pose proof (sum_sq_nonneg (x :: xs)) as Hx.
      pose proof (Rle_0_sqr t) as Ht. unfold Rsqr in Ht.
      unfold sum_sq at 2. simpl.
      pose proof (Rmult_le_pos _ _ Hx Ht). lra.
    + specialize (IH ys). unfold dot, sum_sq in *. simpl.
      pose proof (Rle_0_sqr (x * t + y)) as Hsq. unfold Rsqr in Hsq. lra.
Qed.

Lemma cauchy_schwarz (xs ys : list R) :
  0 < sum_sq xs -> dot xs ys * dot xs ys <= sum_sq xs * sum_sq ys.
Proof.
  intros Hpos.
  pose proof (quadratic_nonneg xs ys (- dot xs ys / sum_sq xs)) as Hq.
  set (A := sum_sq xs) in *. set (B := sum_sq ys) in *. set (C := dot xs ys) in *.
  assert (Heq : A * (- C / A * (- C / A)) + 2 * C * (- C / A) + B = (A * B - C * C) / A).
  { field. lra. }
  rewrite Heq in Hq.
  assert (Hnum : 0 <= (A * B - C * C) / A * A).
  { apply Rmult_le_pos; lra. }
  replace ((A * B - C * C) / A * A) with (A * B - C * C) in Hnum by (field; lra).
  lra.
Qed.

Lemma coefficient_bounded (xs ys : list R) :
  0 < sum_sq xs -> 0 < sum_sq ys ->
  -1 <= dot xs ys / (sqrt (sum_sq xs) * sqrt (sum_sq ys)) <= 1.
Proof.
  intros Hx Hy. pose proof (cauchy_schwarz xs ys Hx) as Hcs.
  set (C := dot xs ys) in *.
  set (D := sqrt (sum_sq xs) * sqrt (sum_sq ys)).
  assert (HD : 0 < D).
  { apply Rmult_lt_0_compat; apply sqrt_lt_R0; assumption. }
  assert (HDD : D * D = sum_sq xs * sum_sq ys).
  { unfold D.
    replace (sqrt (sum_sq xs) * sqrt (sum_sq ys) * (sqrt (sum_sq xs) * sqrt (sum_sq ys)))
      with ((sqrt (sum_sq xs) * sqrt (sum_sq xs)) * (sqrt (sum_sq ys) * sqrt (sum_sq ys)))
      by ring.
    rewrite !sqrt_sqrt by lra. reflexivity. }
  assert (Hle : C * C <= D * D) by lra.
  assert (Habs : - D <= C <= D) by nra.
  split.
  - apply Rmult_le_reg_r with D; [exact HD|].
    replace (C / D * D) with C by (field; lra). lra.
  - apply Rmult_le_reg_r with D; [exact HD|].
    replace (C / D * D) with C by (field; lra). lra.
Qed.

Lemma pearsonr_defined (xs ys : list R) :
  ~ constant xs -> ~ constant ys ->
  exists r, pearsonr xs ys = Some r /\ -1 <= r <= 1.
Proof.
  intros Hx Hy. unfold pearsonr.
  destruct (Req_dec_T (sum_sq (centered xs)) 0) as [Hzx|Hnx].
  { exfalso. apply Hx, zero_variance_iff_constant, Hzx. }
  destruct (Req_dec_T (sum_sq (centered ys)) 0) as [Hzy|Hny].
  { exfalso. apply Hy, zero_variance_iff_constant, Hzy. }
  eexists. split; [reflexivity|].
  pose proof (sum_sq_nonneg (centered xs)). pose proof (sum_sq_nonneg (centered ys)).
  apply coefficient_bounded; lra.
Qed.

Lemma pearsonr_undefined (xs ys : list R) :
  constant xs \/ constant ys -> pearsonr xs ys = None.
Proof.
  intros Hc. unfold pearsonr.
  destruct (Req_dec_T (sum_sq (centered xs)) 0) as [Hzx|Hnx]; [reflexivity|].
  destruct (Req_dec_T (sum_sq (centered ys)) 0) as [Hzy|Hny]; [reflexivity|].
  exfalso. destruct Hc as [Hc|Hc]; apply zero_variance_iff_constant in Hc; contradiction.
Qed.

Lemma series_not_constant (a b : Z) (rest : list Z) :
  a <> b -> ~ constant (List.map IZR (a :: b :: rest)).
Proof.
  intros Hab Hconst. apply Hab, eq_IZR, Hconst; simpl; auto.
Qed.

(** C3. For two sequences of equal length, [pearsonr] yields a
    coefficient within [-1, 1] whenever neither is constant, and the
    undefined marker (not a number, in particular not zero) when either
    is constant; accordingly [correlate_occupancy_with_energy] reports
    three coefficients within [-1, 1] when the monthly swipe totals vary
    and three undefined markers when they are all equal. *)
Theorem pearsonr_bounded_or_undefined (xs ys : list R) :
  length xs = length ys ->
  (~ constant xs -> ~ constant ys ->
     exists r, pearsonr xs ys = Some r /\ -1 <= r <= 1)
  /\ (constant xs \/ constant ys -> pearsonr xs ys = None /\ pearsonr xs ys <> Some 0)
  /\ (forall badge_data : Badge.badge_table,
        let report := correlate_occupancy_with_energy badge_data in
        let monthly_swipes := List.map IZR (Badge.monthly_swipes badge_data) in
        (constant monthly_swipes ->
           corr_electricity report = None /\ corr_gas report = None
           /\ corr_water report = None)
        /\ (~ constant monthly_swipes ->
             exists e g w,
               corr_electricity report = Some e /\ corr_gas report = Some g
               /\ corr_water report = Some w
               /\ -1 <= e <= 1 /\ -1 <= g <= 1 /\ -1 <= w <= 1)).
Proof.
  intros _. split; [apply pearsonr_defined|]. split.
  - intros Hc. rewrite (pearsonr_undefined xs ys Hc). split; [reflexivity|discriminate].
  - intros badge_data report monthly_swipes. subst report monthly_swipes.
    unfold correlate_occupancy_with_energy. cbn [corr_electricity corr_gas corr_water].
    split.
    + intros Hc. repeat split; apply pearsonr_undefined; left; exact Hc.
    + intros Hn.
      destruct (pearsonr_defined _ (List.map IZR Energy.electricity) Hn) as (e & He & Hbe).
      { apply series_not_constant. discriminate. }
      destruct (pearsonr_defined _ (List.map IZR Energy.gas) Hn) as (g & Hg & Hbg).
      { apply series_not_constant. discriminate. }
      destruct (pearsonr_defined _ (List.map IZR Energy.water) Hn) as (w & Hw & Hbw).
      { apply series_not_constant. discriminate. }
      exists e, g, w. tauto.
Qed.

End Pearson.

(** ** The tables are not mutated by the analyses *)

Section Frame.

Import Analyzer Script.

Variable strptime : string -> option Z.

Lemma stable_refl (st : state) : stable st st.
Proof. split; reflexivity. Qed.

Lemma stable_trans (st1 st2 st3 : state) : stable st1 st2 -> stable st2 st3 -> stable st1 st3.
Proof.
  intros [Hs1 Hh1] [Hs2 Hh2]. split; [congruence|].
  transitivity (heap st2); assumption.
Qed.

Lemma bind_some {A B : Type} (m : M A) (k : A -> M B) (st st' : state) (a : A) :
  m st = (Some a, st') -> bind m k st = k a st'.
Proof. intros H. unfold bind. rewrite H. reflexivity. Qed.

Lemma bind_none {A B : Type} (m : M A) (k : A -> M B) (st st' : state) :
  m st = (None, st') -> bind m k st = (None, st').
Proof. intros H. unfold bind. rewrite H. reflexivity. Qed.

Lemma stable_tables (st0 st : state) :
  loaded st0 -> stable st0 st -> tables st = tables st0.
Proof.
  intros (badge & energy & conference & Htab) [Hself Hheap].
  unfold tables, table_of in *. rewrite Hself.
  injection Htab as Hb He Hc.
  destruct (badge_data (self st0)) as [lb|]; [|discriminate Hb].
  destruct (energy_data (self st0)) as [le|]; [|discriminate He].
  destruct (conference_data (self st0)) as [lc|]; [|discriminate Hc].
  simpl in *.
  rewrite (lookup_weaken _ _ _ _ Hb Hheap), (lookup_weaken _ _ _ _ He Hheap),
    (lookup_weaken _ _ _ _ Hc Hheap), Hb, He, Hc. reflexivity.
Qed.

Lemma holds_loaded (st : state) badge energy conference :
  holds st badge energy conference -> loaded st.
Proof. intros H. exists badge, energy, conference. exact H. Qed.

Lemma holds_badge (st : state) badge energy conference :
  holds st badge energy conference -> the_badge_data st = (Some badge, st).
Proof.
  intros H. unfold holds, tables, table_of in H. injection H as Hb _ _.
  destruct (badge_data (self st)) as [l|] eqn:Hattr; [|discriminate Hb]. simpl in Hb.
  unfold the_badge_data, bind, get_self, attribute, read_frame, ret.
  rewrite Hattr. simpl. rewrite Hb. reflexivity.
Qed.

Lemma holds_conference (st : state) badge energy conference :
  holds st badge energy conference -> the_conference_data st = (Some conference, st).
Proof.
  intros H. unfold holds, tables, table_of in H. injection H as _ _ Hc.
  destruct (conference_data (self st)) as [l|] eqn:Hattr; [|discriminate Hc]. simpl in Hc.
  unfold the_conference_data, read_conference, bind, get_self, attribute, read_frame, ret.
  rewrite Hattr. simpl. rewrite Hc. reflexivity.
Qed.

Lemma stable_holds (st st' : state) badge energy conference :
  holds st badge energy conference -> stable st st' -> holds st' badge energy conference.
Proof.
  intros H Hs. unfold holds. rewrite (stable_tables st st' (holds_loaded _ _ _ _ H) Hs).
  exact H.
Qed.

Lemma fresh_unbound (m : gmap loc data_frame) : m !! fresh (dom m) = None.
Proof. apply not_elem_of_dom, is_fresh. Qed.

Lemma new_frame_scratch (st0 st : state) (rows : Conference.frame) :
  stable st0 st ->
  exists df st', new_frame (ConferenceFrame rows) st = (Some df, st')
                 /\ scratch st0 df rows st'.
Proof.
  intros [Hself Hheap]. unfold new_frame.
  set (l := fresh (dom (heap st))).
  assert (Hl : heap st !! l = None) by apply fresh_unbound.
  exists l, (mk_state (self st) (<[l := ConferenceFrame rows]> (heap st))).
  split; [reflexivity|]. split; [split|split]; simpl.
  - exact Hself.
  - transitivity (heap st); [exact Hheap|]. apply insert_subseteq. exact Hl.
  - destruct (heap st0 !! l) as [f|] eqn:H0; [|reflexivity].
    rewrite (lookup_weaken _ _ _ _ H0 Hheap) in Hl. discriminate Hl.
  - apply lookup_insert_eq.
Qed.

Lemma read_scratch (st0 st : state) (df : loc) (rows : Conference.frame) :
  scratch st0 df rows st -> read_conference df st = (Some rows, st).
Proof.
  intros (_ & _ & Hdf).
  unfold read_conference, bind, read_frame, ret. rewrite Hdf. reflexivity.
Qed.

(** The copy of the 2025 bookings is a new frame. *)
Lemma copy_of_2025_scratch (st0 st : state) (conference : Conference.frame) :
  stable st0 st ->
  the_conference_data st = (Some conference, st) ->
  exists df st', copy_of_2025 st = (Some df, st')
                 /\ scratch st0 df (Conference.select_2025 conference) st'.
Proof.
  intros Hs Hread.
  unfold copy_of_2025. rewrite (bind_some _ _ _ _ _ Hread).
  destruct (new_frame_scratch st0 st (Conference.select_2025 conference) Hs)
    as (sel & st1 & Hnew & Hsel).
  rewrite (bind_some _ _ _ _ _ Hnew).
  rewrite (bind_some _ _ _ _ _ (read_scratch _ _ _ _ Hsel)).
  destruct Hsel as [Hs1 _].
  apply (new_frame_scratch st0 st1 (Conference.select_2025 conference) Hs1).
Qed.

(** A column assignment on the copy changes the copy only. *)
Lemma assign_scratch (st0 st : state) (df : loc) (rows : Conference.frame)
    (step : Conference.frame -> Conference.frame) :
  scratch st0 df rows st ->
  exists st', assign df step st = (Some tt, st') /\ scratch st0 df (step rows) st'.
Proof.
  intros Hsc. unfold assign. rewrite (bind_some _ _ _ _ _ (read_scratch _ _ _ _ Hsc)).
  destruct Hsc as ([Hself Hheap] & Hfresh & Hdf).
  unfold write_frame. rewrite Hdf.
  eexists. split; [reflexivity|].
  split; [split|split]; simpl.
  - exact Hself.
  - apply insert_subseteq_r; assumption.
  - exact Hfresh.
  - apply lookup_insert_eq.
Qed.

(** The method computes the report of the pure analysis of the stored
    booking table, on a copy. *)
Lemma analyze_conference_room_utilization_on_copy (st : state) (conference : Conference.frame) :
  the_conference_data st = (Some conference, st) ->
  exists st', analyze_conference_room_utilization strptime st
              = (Some (Conference.analyze_conference_room_utilization strptime conference), st')
              /\ stable st st'.
Proof.
  intros Hread. unfold analyze_conference_room_utilization.
  destruct (copy_of_2025_scratch st st conference (stable_refl st) Hread)
    as (df & st1 & Hcopy & H1).
  rewrite (bind_some _ _ _ _ _ Hcopy).
  destruct (assign_scratch st st1 df _ (Conference.parse_Start strptime) H1) as (st2 & E2 & H2).
  rewrite (bind_some _ _ _ _ _ E2).
  destruct (assign_scratch st st2 df _ (Conference.parse_Finish strptime) H2) as (st3 & E3 & H3).
  rewrite (bind_some _ _ _ _ _ E3).
  destruct (assign_scratch st st3 df _ Conference.derive_Hours H3) as (st4 & E4 & H4).
  rewrite (bind_some _ _ _ _ _ E4).
  destruct (assign_scratch st st4 df _
              (Conference.loc_assign_Hours Conference.Hours_le_0 Conference.sentinel) H4)
    as (st5 & E5 & H5).
  rewrite (bind_some _ _ _ _ _ E5).
  destruct (assign_scratch st st5 df _
              (Conference.loc_assign_Hours Conference.Hours_gt_20 Conference.sentinel) H5)
    as (st6 & E6 & H6).
  rewrite (bind_some _ _ _ _ _ E6).
  rewrite (bind_some _ _ _ _ _ (read_scratch _ _ _ _ H6)).
  exists st6. split; [reflexivity|]. apply H6.
Qed.

(** Line 397 asks for the minimum over no floor only when the badge
    table has no row. *)
Lemma underutilized_none_iff (badge : Badge.badge_table) :
  Advanced.underutilized_floor badge = None <-> badge = [].
Proof.
  unfold Advanced.underutilized_floor, Advanced.efficiency_scores, Advanced.floor_lines,
    Badge.floor_occupancy.
  rewrite !List.map_map. split.
  - intros Hnone. destruct badge as [|e rest]; [reflexivity|]. exfalso.
    assert (Hkey : In (Badge.Floor e) (Badge.group_keys (List.map Badge.Floor (e :: rest)))).
    { apply in_group_keys. left. reflexivity. }
    destruct (Badge.group_keys (List.map Badge.Floor (e :: rest))); [destruct Hkey|].
    discriminate Hnone.
  - intros ->. reflexivity.
Qed.

(** Each analysis call computes, on the stored tables, what the
    analysis computes on their contents, or raises where this is
    undefined; it leaves the store stable, and untouched when it
    raises. *)
Lemma exec_refines (op : operation) (st : state) badge energy conference :
  holds st badge energy conference ->
  exists st',
    exec strptime op st
    = (result_of strptime op (building_info (self st)) badge conference, st')
    /\ stable st st'
    /\ (result_of strptime op (building_info (self st)) badge conference = None -> st' = st).
Proof.
  intros H. pose proof (holds_badge _ _ _ _ H) as Hb.
  pose proof (holds_conference _ _ _ _ H) as Hc.
  destruct op; unfold exec, result_of.
  - exists st. split; [|split; [apply stable_refl|reflexivity]].
    unfold analyze_occupancy_patterns, bind, get_self. rewrite Hb.
    destruct (Badge.object_dtype badge); reflexivity.
  - exists st. split; [reflexivity|split; [apply stable_refl|reflexivity]].
  - exists st. split; [|split; [apply stable_refl|reflexivity]].
    unfold correlate_occupancy_with_energy. rewrite (bind_some _ _ _ _ _ Hb).
    destruct (Badge.object_dtype badge); reflexivity.
  - destruct (analyze_conference_room_utilization_on_copy st conference Hc)
      as (st' & E & Hs).
    exists st'. split; [|split; [exact Hs|discriminate]].
    rewrite (bind_some _ _ _ _ _ E). reflexivity.
  - unfold advanced_metrics_analysis, Advanced.advanced_metrics_of.
    destruct (Badge.object_dtype badge) eqn:Hdtype.
    + exists st. split; [|split; [apply stable_refl|reflexivity]].
      apply bind_none.
      rewrite (bind_some get_self _ st st (self st) eq_refl).
      rewrite (bind_some _ _ _ _ _ Hb). rewrite Hdtype. reflexivity.
    + destruct (Advanced.underutilized_floor badge) as [floor|] eqn:Hfloor; cbn [option_map].
      * destruct (copy_of_2025_scratch st st conference (stable_refl st) Hc)
          as (df & st1 & Hcopy & H1).
        exists st1. split; [|split; [apply H1|discriminate]].
        rewrite (bind_some _ (fun r => ret (Advanced r)) st st1
                   (Advanced.assemble (building_info (self st)) badge floor
                      (Conference.select_2025 conference))); [reflexivity|].
        rewrite (bind_some get_self _ st st (self st) eq_refl).
        rewrite (bind_some _ _ _ _ _ Hb). rewrite Hdtype, Hfloor.
        rewrite (bind_some _ _ _ _ _ Hcopy).
        rewrite (bind_some _ _ _ _ _ (read_scratch _ _ _ _ H1)). reflexivity.
      * exists st. split; [|split; [apply stable_refl|reflexivity]].
        apply bind_none.
        rewrite (bind_some get_self _ st st (self st) eq_refl).
        rewrite (bind_some _ _ _ _ _ Hb). rewrite Hdtype, Hfloor. reflexivity.
  - exists st. split; [reflexivity|split; [apply stable_refl|reflexivity]].
Qed.

(** A call raises exactly when it reads the swipe columns of a badge
    table without any row. *)
Lemma result_of_none_iff (op : operation) info badge conference :
  result_of strptime op info badge conference = None
  <-> badge = [] /\ reads_swipes op = true.
Proof.
  destruct op; unfold result_of; cbn [reads_swipes];
    try (split; [discriminate|intros [_ Hf]; discriminate Hf]);
    destruct badge as [|e rest]; cbn [Badge.object_dtype];
    try (split; [intros _; split; reflexivity|reflexivity]);
    try (split; [discriminate|intros [Hf _]; discriminate Hf]).
  unfold Advanced.advanced_metrics_of.
  destruct (Advanced.underutilized_floor (e :: rest)) eqn:Hfloor; cbn [option_map].
  - split; [discriminate|intros [Hf _]; discriminate Hf].
  - apply underutilized_none_iff in Hfloor. discriminate Hfloor.
Qed.

(** C7. On a loaded analyzer every metric operation, whether it returns
    or raises, leaves the analyzer referring to the same three frames
    with the same contents: the store only grew by new frames (the
    copies on which the conference analyses work). The call returns
    whenever the badge table has a row. *)
Theorem analyses_leave_tables_unchanged (op : operation) (st : state) :
  loaded st ->
  exists out st',
    exec strptime op st = (out, st')
    /\ self st' = self st
    /\ heap st ⊆ heap st'
    /\ tables st' = tables st
    /\ (table_of st (badge_data (self st)) <> Some (BadgeFrame []) -> out <> None).
Proof.
  intros Hl. pose proof Hl as (badge & energy & conference & Htab).
  destruct (exec_refines op st badge energy conference Htab) as (st' & E & Hs & _).
  eexists _, st'. split; [exact E|].
  split; [apply Hs|]. split; [apply Hs|].
  split; [apply stable_tables; assumption|].
  intros Hrows Hnone. apply result_of_none_iff in Hnone as [-> _].
  apply Hrows. unfold tables in Htab. injection Htab as Hb _ _. exact Hb.
Qed.

End Frame.

Lemma analyses_leave_tables_unchanged_witness :
  exists out st',
    Script.exec Conference.clock_12h Script.ConferenceRoomUtilization Analyzer.example_state
    = (out, st')
    /\ Analyzer.self st' = Analyzer.self Analyzer.example_state
    /\ Analyzer.heap Analyzer.example_state ⊆ Analyzer.heap st'
    /\ Analyzer.tables st' = Analyzer.tables Analyzer.example_state
    /\ (Analyzer.table_of Analyzer.example_state
          (Analyzer.badge_data (Analyzer.self Analyzer.example_state))
        <> Some (Analyzer.BadgeFrame []) -> out <> None).
Proof.
  apply (analyses_leave_tables_unchanged Conference.clock_12h).
  do 3 eexists. vm_compute. reflexivity.
Defined.

Section PearsonExamples.

Import Correlation.
Local Open Scope R_scope.

Lemma two_points_not_constant (a b : R) (rest : list R) : a <> b -> ~ constant (a :: b :: rest).
Proof. intros Hab Hc. apply Hab, Hc; simpl; auto. Qed.

(** The scenario of the specification: a perfect linear relation. *)
Example pearsonr_perfect : pearsonr [10; 20] [10; 20] = Some 1.
Proof.
  assert (Hss : sum_sq (centered [10; 20]) = 50).
  { unfold sum_sq, centered, mean. simpl. field. }
  assert (Hdot : dot (centered [10; 20]) (centered [10; 20]) = 50).
  { unfold dot, centered, mean. simpl. field. }
  unfold pearsonr. rewrite Hss, Hdot.
  destruct (Req_dec_T 50 0) as [H0|_]; [lra|].
  f_equal. rewrite sqrt_sqrt by lra. field.
Qed.

Lemma pearsonr_bounded_or_undefined_witness :
  (exists r, pearsonr [1; 2] [10; 20] = Some r /\ -1 <= r <= 1)
  /\ pearsonr [5; 5] [10; 20] = None.
Proof.
  destruct (pearsonr_bounded_or_undefined [1; 2] [10; 20] eq_refl) as (Hdef & _).
  destruct (pearsonr_bounded_or_undefined [5; 5] [10; 20] eq_refl) as (_ & Hundef & _).
  split.
  - apply Hdef; apply two_points_not_constant; lra.
  - apply Hundef. left. intros x y Hx Hy. simpl in Hx, Hy.
    destruct Hx as [<-|[<-|[]]], Hy as [<-|[<-|[]]]; reflexivity.
Defined.

End PearsonExamples.

Section InPlace.

Import Analyzer Script.

(** The store tells a copy from the original: the same column
    assignment made on the analyzer's own booking frame would change
    the stored table. *)
Example assignment_in_place_is_visible :
  exists l st',
    conference_data (self example_state) = Some l
    /\ assign l Conference.derive_Hours example_state = (Some tt, st')
    /\ tables st' <> tables example_state.
Proof.
  do 2 eexists. split; [vm_compute; reflexivity|].
  split; [vm_compute; reflexivity|].
  vm_compute. discriminate.
Qed.

(** A call that raises: the occupancy analysis of an analyzer loaded
    from a badge CSV without any row stops at line 80 and leaves the
    state as it was. *)
Example occupancy_raises_without_employee :
  exec Conference.clock_12h OccupancyPatterns example_state_no_employee
  = (None, example_state_no_employee).
Proof. vm_compute. reflexivity. Qed.

End InPlace.

(** * Further properties of the scripts *)

(** ** The floor table *)

Section FloorTable.

Import Badge.
Local Open Scope Z_scope.

Lemma insert_key_sorted (k : Z) (ks : list Z) :
  Sorted Z.lt ks -> Sorted Z.lt (insert_key k ks).
Proof.
  induction ks as [|k' rest IH]; intros Hs; simpl.
  - repeat constructor.
  - destruct (Z.ltb_spec k k') as [Hlt|Hge].
    + constructor; [exact Hs|constructor; exact Hlt].
    + destruct (Z.eqb_spec k k') as [Heq|Hne]; [exact Hs|].
      inversion Hs as [|? ? Hrest Hhd]; subst.
      constructor; [apply IH; exact Hrest|].
      destruct rest as [|k'' rest']; simpl.
      * constructor. lia.
      * inversion Hhd; subst.
        destruct (Z.ltb_spec k k''); [constructor; lia|].
        destruct (Z.eqb_spec k k''); constructor; lia.
Qed.

Lemma group_keys_sorted (l : list Z) : StronglySorted Z.lt (group_keys l).
Proof.
  apply Sorted_StronglySorted; [intros x y z; lia|].
  induction l as [|k l IH]; simpl; [constructor|].
  apply insert_key_sorted, IH.
Qed.

Lemma strongly_sorted_nodup (ks : list Z) : StronglySorted Z.lt ks -> List.NoDup ks.
Proof.
  induction 1 as [|k ks _ IH Hall]; constructor; [|exact IH].
  intros Hin. rewrite Forall_forall in Hall. specialize (Hall k Hin). lia.
Qed.

Lemma zsum_map_add (A : Type) (f h : A -> Z) (l : list A) :
  zsum (List.map (fun x => f x + h x) l) = zsum (List.map f l) + zsum (List.map h l).
Proof. induction l as [|x l IH]; simpl; lia. Qed.

Lemma zsum_indicator (x v : Z) (ks : list Z) :
  List.NoDup ks -> In x ks ->
  zsum (List.map (fun k => if x =? k then v else 0) ks) = v.
Proof.
  induction 1 as [|k ks Hnotin Hnd IH]; intros Hin; [destruct Hin|].
  simpl. destruct (Z.eqb_spec x k) as [->|Hne].
  - assert (Hrest : zsum (List.map (fun k0 => if k =? k0 then v else 0) ks) = 0).
    { apply zsum_all_zero, Forall_map, Forall_forall. intros k0 Hk0.
      destruct (Z.eqb_spec k k0) as [->|_]; [contradiction|reflexivity]. }
    lia.
  - destruct Hin as [->|Hin]; [congruence|]. rewrite IH by exact Hin. lia.
Qed.

(** Grouping by floor splits any per-employee total. *)
Lemma groupby_Floor_splits (g : employee -> Z) (ks : list Z) (l : badge_table) :
  List.NoDup ks -> (forall e, In e l -> In (Floor e) ks) ->
  zsum (List.map (fun k => zsum (List.map g (on_floor k l))) ks) = zsum (List.map g l).
Proof.
  intros Hnd. induction l as [|e l IH]; intros Hcover.
  - simpl. apply zsum_all_zero, Forall_map, Forall_forall. reflexivity.
  - change (zsum (List.map g (e :: l))) with (g e + zsum (List.map g l)).
    rewrite <- IH by (intros e' He'; apply Hcover; right; exact He').
    rewrite <- (zsum_indicator (Floor e) (g e) ks Hnd) at 1
      by (apply Hcover; left; reflexivity).
    rewrite <- zsum_map_add. f_equal. apply List.map_ext. intros k.
    unfold on_floor. simpl. destruct (Floor e =? k); simpl; lia.
Qed.

Lemma zsum_monthly_swipes (l : badge_table) :
  zsum (monthly_swipes l) = zsum (List.map row_total l).
Proof.
  induction l as [|e l IH]; [reflexivity|].
  change (zsum (List.map row_total (e :: l)))
    with (row_total e + zsum (List.map row_total l)).
  rewrite <- IH.
  unfold monthly_swipes, row_total, months. simpl. lia.
Qed.

Lemma length_as_zsum (A : Type) (l : list A) :
  Z.of_nat (length l) = zsum (List.map (fun _ => 1) l).
Proof. induction l as [|x l IH]; [reflexivity|]. simpl length. simpl zsum. lia. Qed.

(** X1. The floor table of [analyze_occupancy_patterns] partitions the
    badge table: its floors are strictly ascending (no floor twice) and
    are exactly the floors of the employees, every listed floor has an
    employee, the employee counts add up to the number of employees and
    the swipe totals to the sum of the monthly totals. *)
Theorem floor_table_partitions (badge_data : badge_table) :
  let r := analyze_occupancy_patterns building_info badge_data in
  StronglySorted Z.lt (List.map fr_floor (r_floor_rows r))
  /\ (forall floor, In floor (List.map fr_floor (r_floor_rows r))
                   <-> exists e, In e badge_data /\ Floor e = floor)
  /\ Forall (fun row => 1 <= fr_emp_count row) (r_floor_rows r)
  /\ zsum (List.map fr_emp_count (r_floor_rows r)) = Z.of_nat (length badge_data)
  /\ zsum (List.map fr_swipes (r_floor_rows r)) = zsum (r_monthly_swipes r).
Proof.
  intros r. subst r. unfold analyze_occupancy_patterns.
  cbn [r_floor_rows r_monthly_swipes]. unfold floor_occupancy.
  rewrite !List.map_map. cbn [fr_floor fr_emp_count fr_swipes].
  set (ks := group_keys (List.map Floor badge_data)).
  assert (Hsorted : StronglySorted Z.lt ks) by apply group_keys_sorted.
  assert (Hcover : forall e, In e badge_data -> In (Floor e) ks).
  { intros e He. apply in_group_keys, in_map, He. }
  rewrite List.map_id.
  split; [exact Hsorted|]. split; [|split; [|split]].
  - intros floor. unfold ks. rewrite in_group_keys, in_map_iff.
    split; intros (e & H1 & H2); exists e; tauto.
  - apply Forall_map, Forall_forall. intros k Hk. cbn [fr_emp_count].
    apply in_group_keys, in_map_iff in Hk as (e & <- & He).
    assert (Hin : In e (on_floor (Floor e) badge_data)).
    { apply filter_In. split; [exact He|apply Z.eqb_refl]. }
    destruct (on_floor (Floor e) badge_data); [destruct Hin|]. simpl length. lia.
  - rewrite length_as_zsum.
    rewrite <- (groupby_Floor_splits (fun _ => 1) ks badge_data
                  (strongly_sorted_nodup ks Hsorted) Hcover).
    f_equal. apply List.map_ext. intros k. apply length_as_zsum.
  - rewrite zsum_monthly_swipes.
    rewrite <- (groupby_Floor_splits row_total ks badge_data
                  (strongly_sorted_nodup ks Hsorted) Hcover).
    f_equal. apply List.map_ext. intros k. apply zsum_monthly_swipes.
Qed.

End FloorTable.

(** ** Shares, rates and the first version of the occupancy analysis *)

Section OccupancyRates.

Import Badge.
Local Open Scope Z_scope.

Lemma div_of_Z_nonzero (a b : Z) :
  b <> 0 -> Float.div (Float.of_Z a) (Float.of_Z b) = Some (inject_Z a / inject_Z b)%Q.
Proof.
  intros Hb. unfold Float.div, Float.of_Z. rewrite Qeq_bool_inject_Z.
  apply Z.eqb_neq in Hb. rewrite Hb. reflexivity.
Qed.

Lemma div_by_nonzero (x : Q) (b : Z) :
  b <> 0 -> Float.div (Some x) (Float.of_Z b) = Some (x / inject_Z b)%Q.
Proof.
  intros Hb. unfold Float.div, Float.of_Z. rewrite Qeq_bool_inject_Z.
  apply Z.eqb_neq in Hb. rewrite Hb. reflexivity.
Qed.

Lemma inject_Z_nonzero (b : Z) : b <> 0 -> ~ (inject_Z b == 0)%Q.
Proof.
  intros Hb Heq. apply Hb. unfold Qeq in Heq. simpl in Heq. lia.
Qed.

Lemma omap_present (A : Type) (f : A -> Q) (l : list A) :
  omap (fun a => a) (List.map (fun x => Some (f x)) l) = List.map f l.
Proof. induction l as [|x l IH]; [reflexivity|]. simpl. f_equal. exact IH. Qed.

Lemma qsum_inject_Z (l : list Z) : (Float.qsum (List.map inject_Z l) == inject_Z (zsum l))%Q.
Proof.
  induction l as [|x l IH]; [reflexivity|].
  simpl. rewrite IH, inject_Z_plus. reflexivity.
Qed.

(** [np.mean] of a non-empty integer array. *)
Lemma np_mean_spec (l : list Z) :
  l <> [] ->
  exists q, Energy.np_mean l = Some q
            /\ (q == inject_Z (zsum l) / inject_Z (Z.of_nat (length l)))%Q.
Proof.
  intros Hne. unfold Energy.np_mean, Float.mean.
  change (List.map Float.of_Z l) with (List.map (fun x => Some (inject_Z x)) l).
  rewrite omap_present, length_map.
  rewrite div_by_nonzero by (destruct l; [congruence|simpl length; lia]).
  eexists. split; [reflexivity|]. rewrite qsum_inject_Z. reflexivity.
Qed.

(** The sum of the shares [s / G * 100] of a list of totals. *)
Lemma sum_of_shares (G : Z) (l : list Z) :
  G <> 0 ->
  Float.eq (Float.sum (List.map (fun s => Float.mul (Float.div (Float.of_Z s) (Float.of_Z G))
                                            hundred) l))
           (Some (inject_Z (zsum l) / inject_Z G * 100)%Q).
Proof.
  intros HG. pose proof (inject_Z_nonzero G HG) as HGq.
  set (q := fun s => (inject_Z s / inject_Z G * inject_Z 100)%Q).
  assert (Hmap : List.map (fun s => Float.mul (Float.div (Float.of_Z s) (Float.of_Z G)) hundred) l
                 = List.map (fun s => Some (q s)) l).
  { apply List.map_ext. intros s. rewrite div_of_Z_nonzero by exact HG. reflexivity. }
  rewrite Hmap. clear Hmap. unfold Float.sum, Float.eq. rewrite omap_present.
  induction l as [|s l IH]; simpl.
  - field. exact HGq.
  - rewrite IH, inject_Z_plus. unfold q. change (inject_Z 100) with 100%Q.
    field. exact HGq.
Qed.

(** A percentage computed in float64 stays within two roundings of the
    exact one. *)
Lemma pct_bounds (errors : Q * Q) (part whole : Z) :
  Rounding.small (fst errors) -> Rounding.small (snd errors) ->
  0 <= part -> 0 < whole ->
  (inject_Z part / inject_Z whole * (100 * Rounding.below)
   <= Rounding.pct errors part whole)%Q
  /\ (Rounding.pct errors part whole
      <= inject_Z part / inject_Z whole * (100 * Rounding.above))%Q.
Proof.
  intros [Hl1 Hu1] [Hl2 Hu2] Hpart Hwhole.
  unfold Rounding.pct, Rounding.fl, Rounding.below, Rounding.above.
  set (x := (inject_Z part / inject_Z whole)%Q).
  assert (Hx : (0 <= x)%Q).
  { unfold x. apply Qle_shift_div_l; [unfold Qlt; simpl; lia|].
    rewrite Qmult_0_l. unfold Qle; simpl; lia. }
  assert (Hu : (0 <= 1 - Rounding.u)%Q) by discriminate.
  set (d1 := fst errors) in *. set (d2 := snd errors) in *.
  generalize dependent Rounding.u. intros u Hl1 Hu1 Hl2 Hu2 Hu.
  clearbody x d1 d2.
  assert (Hlow : ((1 - u) * (1 - u) <= (1 + d1) * (1 + d2))%Q).
  { Lqa.nra. }
  assert (Hhigh : ((1 + d1) * (1 + d2) <= (1 + u) * (1 + u))%Q).
  { Lqa.nra. }
  assert (Hx100 : (0 <= x * 100)%Q) by Lqa.lra.
  assert (E : (x * (1 + d1) * 100 * (1 + d2) == (1 + d1) * (1 + d2) * (x * 100))%Q) by ring.
  assert (El : (x * (100 * ((1 - u) * (1 - u))) == (1 - u) * (1 - u) * (x * 100))%Q) by ring.
  assert (Eu : (x * (100 * ((1 + u) * (1 + u))) == (1 + u) * (1 + u) * (x * 100))%Q) by ring.
  rewrite E, El, Eu. split; apply Qmult_le_compat_r; assumption.
Qed.

(** Percentages of non-negative parts, rounded, add up to the exact
    share of their sum, within two roundings. *)
Lemma rounded_shares_bounds (whole : Z) (l : list ((Q * Q) * Z)) :
  0 < whole ->
  Forall (fun x => Rounding.small (fst (fst x)) /\ Rounding.small (snd (fst x))
                   /\ 0 <= snd x) l ->
  (inject_Z (zsum (List.map snd l)) / inject_Z whole * (100 * Rounding.below)
   <= Float.qsum (List.map (fun x => Rounding.pct (fst x) (snd x) whole) l))%Q
  /\ (Float.qsum (List.map (fun x => Rounding.pct (fst x) (snd x) whole) l)
      <= inject_Z (zsum (List.map snd l)) / inject_Z whole * (100 * Rounding.above))%Q.
Proof.
  intros Hwhole Hall.
  assert (HW : ~ (inject_Z whole == 0)%Q) by (apply inject_Z_nonzero; lia).
  induction Hall as [|[e p] l (H1 & H2 & Hp) _ [IHl IHu]].
  - cbn [List.map zsum fold_right Float.qsum]. split.
    + assert (E : (inject_Z 0 / inject_Z whole * (100 * Rounding.below) == 0)%Q)
        by (change (inject_Z 0) with 0%Q; field; exact HW).
      rewrite E. apply Qle_refl.
    + assert (E : (inject_Z 0 / inject_Z whole * (100 * Rounding.above) == 0)%Q)
        by (change (inject_Z 0) with 0%Q; field; exact HW).
      rewrite E. apply Qle_refl.
  - cbn [fst snd] in H1, H2, Hp.
    destruct (pct_bounds e p whole H1 H2 Hp Hwhole) as [Hl Hu].
    change (zsum (List.map snd ((e, p) :: l))) with (p + zsum (List.map snd l)).
    change (Float.qsum (List.map (fun x => Rounding.pct (fst x) (snd x) whole) ((e, p) :: l)))
      with (Rounding.pct e p whole
            + Float.qsum (List.map (fun x => Rounding.pct (fst x) (snd x) whole) l))%Q.
    rewrite inject_Z_plus. split.
    + assert (E : ((inject_Z p + inject_Z (zsum (List.map snd l))) / inject_Z whole
                   * (100 * Rounding.below)
                   == inject_Z p / inject_Z whole * (100 * Rounding.below)
                      + inject_Z (zsum (List.map snd l)) / inject_Z whole
                        * (100 * Rounding.below))%Q) by (field; exact HW).
      rewrite E. apply Qplus_le_compat; assumption.
    + assert (E : ((inject_Z p + inject_Z (zsum (List.map snd l))) / inject_Z whole
                   * (100 * Rounding.above)
                   == inject_Z p / inject_Z whole * (100 * Rounding.above)
                      + inject_Z (zsum (List.map snd l)) / inject_Z whole
                        * (100 * Rounding.above))%Q) by (field; exact HW).
      rewrite E. apply Qplus_le_compat; assumption.
Qed.

(** When the parts add up to the whole, the rounded percentages add up
    to 100 within two roundings. *)
Lemma rounded_shares_of_whole (whole : Z) (l : list ((Q * Q) * Z)) :
  0 < whole -> zsum (List.map snd l) = whole ->
  Forall (fun x => Rounding.small (fst (fst x)) /\ Rounding.small (snd (fst x))
                   /\ 0 <= snd x) l ->
  (100 * Rounding.below
   <= Float.qsum (List.map (fun x => Rounding.pct (fst x) (snd x) whole) l))%Q
  /\ (Float.qsum (List.map (fun x => Rounding.pct (fst x) (snd x) whole) l)
      <= 100 * Rounding.above)%Q.
Proof.
  intros Hwhole Hsum Hall.
  destruct (rounded_shares_bounds whole l Hwhole Hall) as [Hl Hu].
  rewrite Hsum in Hl, Hu.
  assert (HW : ~ (inject_Z whole == 0)%Q) by (apply inject_Z_nonzero; lia).
  assert (Hone : forall c : Q, (inject_Z whole / inject_Z whole * c == c)%Q)
    by (intros c; field; exact HW).
  rewrite Hone in Hl, Hu. split; assumption.
Qed.

Lemma floor_swipes_nonneg (badge_data : badge_table) :
  (forall e m, In e badge_data -> 0 <= col m e) ->
  Forall (fun x : Z * Z => 0 <= snd x) (floor_occupancy badge_data).
Proof.
  intros Hnonneg. unfold floor_occupancy. apply Forall_forall. intros x Hin.
  apply in_map_iff in Hin as (k & <- & _). cbn [snd].
  apply zsum_nonneg. unfold monthly_swipes. apply Forall_forall. intros t Ht.
  apply in_map_iff in Ht as (m & <- & _).
  apply zsum_nonneg. apply Forall_forall. intros c Hc.
  apply in_map_iff in Hc as (e & <- & He).
  apply Hnonneg. unfold on_floor in He. apply filter_In in He. apply He.
Qed.

(** X2. Whenever the occupancy analysis is well defined, the floor
    shares it prints add up to 100 % as exact fractions, whatever the
    number of floors. In float64 each share is rounded twice (the
    division and the product with 100): for swipe counts that are not
    negative, whatever these roundings are, the printed shares add up
    to 100 within the factors [(1 - u)^2] and [(1 + u)^2], [u] being
    the unit roundoff [2^-53]. *)
Theorem floor_shares_sum_to_100 (badge_data : badge_table) :
  well_defined (analyze_occupancy_patterns building_info badge_data) = true ->
  Float.eq
    (Float.sum (List.map fr_pct
                  (r_floor_rows (analyze_occupancy_patterns building_info badge_data))))
    (Float.of_Z 100)
  /\ (forall errors : Z -> Q * Q,
        (forall e m, In e badge_data -> 0 <= col m e) ->
        (forall floor, Rounding.small (fst (errors floor))
                       /\ Rounding.small (snd (errors floor))) ->
        (100 * Rounding.below <= Float.qsum (Rounding.floor_shares errors badge_data))%Q
        /\ (Float.qsum (Rounding.floor_shares errors badge_data) <= 100 * Rounding.above)%Q).
Proof.
  intros Hwd. apply well_defined_divisors in Hwd as [_ Hgrand]. split.
  - unfold analyze_occupancy_patterns. cbn [r_floor_rows].
    set (G := zsum (List.map snd (floor_occupancy badge_data))) in *.
    assert (Hrows : forall rows : list (Z * Z),
               List.map fr_pct
                 (List.map (fun '(floor, swipes) =>
                              mk_floor_row floor swipes
                                (Float.mul (Float.div (Float.of_Z swipes) (Float.of_Z G))
                                   hundred)
                                (Z.of_nat (length (on_floor floor badge_data)))) rows)
               = List.map (fun s => Float.mul (Float.div (Float.of_Z s) (Float.of_Z G)) hundred)
                   (List.map snd rows)).
    { intros rows. rewrite !List.map_map. apply List.map_ext. intros [floor swipes].
      reflexivity. }
    rewrite Hrows.
    pose proof (sum_of_shares G (List.map snd (floor_occupancy badge_data)) Hgrand) as Hsum.
    fold G in Hsum.
    destruct (Float.sum _) as [x|]; [|destruct Hsum].
    unfold Float.eq, Float.of_Z in *. rewrite Hsum.
    change (inject_Z 100) with 100%Q. field. apply inject_Z_nonzero, Hgrand.
  - intros errors Hnonneg Hsmall.
    pose proof (floor_swipes_nonneg badge_data Hnonneg) as Hparts.
    set (G := zsum (List.map snd (floor_occupancy badge_data))) in *.
    assert (HG : 0 < G).
    { assert (0 <= G); [|lia]. apply zsum_nonneg. apply Forall_forall. intros s Hs.
      apply in_map_iff in Hs as (x & <- & Hx).
      rewrite Forall_forall in Hparts. apply Hparts, Hx. }
    set (l := List.map (fun x : Z * Z => (errors (fst x), snd x)) (floor_occupancy badge_data)).
    assert (Hshares : Rounding.floor_shares errors badge_data
                      = List.map (fun x => Rounding.pct (fst x) (snd x) G) l).
    { unfold Rounding.floor_shares, l. fold G. rewrite List.map_map.
      apply List.map_ext. intros [floor swipes]. reflexivity. }
    rewrite Hshares. apply rounded_shares_of_whole; [exact HG| |].
    + unfold l, G. rewrite List.map_map. reflexivity.
    + unfold l. apply Forall_forall. intros x Hx.
      apply in_map_iff in Hx as ([floor swipes] & <- & Hin). cbn [fst snd].
      rewrite Forall_forall in Hparts. specialize (Hparts _ Hin).
      destruct (Hsmall floor). auto.
Qed.

Lemma floor_shares_sum_to_100_witness :
  Float.eq
    (Float.sum (List.map fr_pct
                  (r_floor_rows (analyze_occupancy_patterns building_info mixed_table))))
    (Float.of_Z 100)
  /\ (forall errors : Z -> Q * Q,
        (forall e m, In e mixed_table -> 0 <= col m e) ->
        (forall floor, Rounding.small (fst (errors floor))
                       /\ Rounding.small (snd (errors floor))) ->
        (100 * Rounding.below <= Float.qsum (Rounding.floor_shares errors mixed_table))%Q
        /\ (Float.qsum (Rounding.floor_shares errors mixed_table) <= 100 * Rounding.above)%Q).
Proof. apply floor_shares_sum_to_100. vm_compute. reflexivity. Defined.

(** X3. With a positive number of employees and of working days, the
    attendance rate [(swipes / num_employees) / working_days * 100] of
    lines 90-91 grows with the monthly swipe total, strictly. *)
Theorem attendance_rate_monotone (swipes1 swipes2 num_employees working_days : Z) :
  0 < num_employees -> 0 < working_days -> swipes1 <= swipes2 ->
  exists r1 r2,
    rate_of (avg_days_of swipes1 num_employees) working_days = Some r1
    /\ rate_of (avg_days_of swipes2 num_employees) working_days = Some r2
    /\ (r1 <= r2)%Q
    /\ (swipes1 < swipes2 -> (r1 < r2)%Q).
Proof.
  intros Hn Hwd Hle. unfold rate_of, avg_days_of.
  rewrite !div_of_Z_nonzero by lia. rewrite !div_by_nonzero by lia.
  unfold Float.mul, hundred, Float.of_Z. do 2 eexists.
  split; [reflexivity|]. split; [reflexivity|].
  assert (Hnq : (0 < inject_Z num_employees)%Q) by (unfold Qlt; simpl; lia).
  assert (Hwq : (0 < inject_Z working_days)%Q) by (unfold Qlt; simpl; lia).
  assert (Hc : (0 < / inject_Z num_employees * / inject_Z working_days * inject_Z 100)%Q).
  { apply Qmult_lt_0_compat; [apply Qmult_lt_0_compat; apply Qinv_lt_0_compat; assumption|].
    reflexivity. }
  assert (Hshape : forall s,
             (inject_Z s / inject_Z num_employees / inject_Z working_days * inject_Z 100
              == inject_Z s * (/ inject_Z num_employees * / inject_Z working_days * inject_Z 100))%Q).
  { intros s. unfold Qdiv. ring. }
  rewrite !Hshape. split.
  - apply Qmult_le_compat_r; [unfold Qle; simpl; lia|apply Qlt_le_weak, Hc].
  - intros Hlt. apply Qmult_lt_compat_r; [exact Hc|unfold Qlt; simpl; lia].
Qed.

Lemma attendance_rate_monotone_witness :
  exists r1 r2,
    rate_of (avg_days_of 1000 100) 20 = Some r1
    /\ rate_of (avg_days_of 1200 100) 20 = Some r2
    /\ (r1 <= r2)%Q
    /\ (1000 < 1200 -> (r1 < r2)%Q).
Proof. apply attendance_rate_monotone; lia. Defined.

End OccupancyRates.

Section OccupancyVersions.

Import Badge.
Local Open Scope Z_scope.

Lemma Forall2_map_same (A B C : Type) (R : B -> C -> Prop) (f : A -> B) (g : A -> C)
    (l : list A) :
  (forall x, R (f x) (g x)) -> Forall2 R (List.map f l) (List.map g l).
Proof. intros H. induction l as [|x l IH]; simpl; constructor; auto. Qed.

Lemma count_true_mono (p q : Z -> bool) (l : list Z) :
  (forall t, p t = true -> q t = true) ->
  count_true (List.map p l) <= count_true (List.map q l).
Proof.
  intros Himp. induction l as [|t l IH]; simpl; [lia|].
  specialize (Himp t).
  destruct (p t), (q t); first [lia | specialize (Himp eq_refl); discriminate Himp].
Qed.

(** X4. The first version against the current script, on the same badge
    table: what v1 reports per month as average days in office is the
    current attendance rate divided by 100 (the current average days
    divided by 20); its remote-worker count (below 50 swipes) lies
    between the current very-low count and the current low-utilizer
    count; the floor distribution and the floor shares are the same. *)
Theorem v1_occupancy_against_current (badge_data : badge_table) :
  let v1 := BadgeV1.analyze_occupancy_patterns badge_data in
  let r := analyze_occupancy_patterns building_info badge_data in
  r_attendance_rate r
  = List.map (fun days => Float.mul days hundred) (BadgeV1.v1_avg_days_in_office_per_month v1)
  /\ Forall2 (fun days avg => Float.eq (Float.mul days (Float.of_Z 20)) avg)
       (BadgeV1.v1_avg_days_in_office_per_month v1) (r_avg_days_in_office_per_month r)
  /\ tr_count (r_very_low r) <= BadgeV1.v1_remote_workers v1 <= r_low_utilizers r
  /\ BadgeV1.v1_floor_distribution v1 = r_floor_distribution r
  /\ BadgeV1.v1_floor_pct v1 = List.map fr_pct (r_floor_rows r).
Proof.
  intros v1 r. subst v1 r.
  unfold BadgeV1.analyze_occupancy_patterns, analyze_occupancy_patterns.
  cbn [r_attendance_rate r_avg_days_in_office_per_month r_very_low r_low_utilizers
       r_floor_distribution r_floor_rows tier_line tr_count
       BadgeV1.v1_avg_days_in_office_per_month BadgeV1.v1_remote_workers
       BadgeV1.v1_floor_distribution BadgeV1.v1_floor_pct working_days_per_month
       building_info].
  split; [|split; [|split; [|split]]].
  - rewrite !List.map_map. reflexivity.
  - rewrite List.map_map. apply Forall2_map_same. intros s.
    destruct (Float.div (Float.of_Z s) (Float.of_Z (Z.of_nat (length badge_data)))) as [x|];
      [|exact I].
    simpl. field.
  - split.
    + apply count_true_mono. intros t. unfold very_low_util.
      rewrite !Z.ltb_lt. lia.
    + rewrite (count_true_split very_low_util low_util (fun t => t <? 90)).
      * apply count_true_mono. intros t. rewrite !Z.ltb_lt. lia.
      * intros t. unfold very_low_util, low_util.
        destruct (Z.ltb_spec t 30), (Z.leb_spec 30 t), (Z.ltb_spec t 90); simpl; lia.
  - reflexivity.
  - rewrite List.map_map. apply List.map_ext. intros [floor swipes]. reflexivity.
Qed.

Lemma qsum_div (n : Q) (l : list Z) :
  (Float.qsum (List.map (fun s => inject_Z s / n) l) == inject_Z (zsum l) / n)%Q.
Proof.
  induction l as [|s l IH]; simpl.
  - unfold Qdiv. ring.
  - rewrite IH, inject_Z_plus. unfold Qdiv. ring.
Qed.

(** X5. The occupancy rate of [correlate_occupancy_with_energy] is the
    overall attendance rate of [analyze_occupancy_patterns] scaled by
    the number of employees over the fixed 356: the two agree exactly
    when the badge table has 356 rows. *)
Theorem occupancy_rate_against_attendance (badge_data : badge_table) :
  badge_data <> [] ->
  exists occ att,
    Rates.occupancy_rate (Rates.occupancy_and_consumption badge_data) = Some occ
    /\ r_overall_rate (analyze_occupancy_patterns building_info badge_data) = Some att
    /\ (occ * 356 == att * inject_Z (Z.of_nat (length badge_data)))%Q
    /\ (length badge_data = 356%nat -> (occ == att)%Q).
Proof.
  intros Hne.
  assert (Hn : Z.of_nat (length badge_data) <> 0).
  { destruct badge_data; [congruence|simpl length; lia]. }
  set (n := Z.of_nat (length badge_data)) in *.
  assert (Hms : monthly_swipes badge_data <> []) by discriminate.
  assert (Hlen : length (monthly_swipes badge_data) = 9%nat) by reflexivity.
  destruct (np_mean_spec (monthly_swipes badge_data) Hms) as (q & Hq & Hqv).
  rewrite Hlen in Hqv.
  assert (Hocc : Rates.occupancy_rate (Rates.occupancy_and_consumption badge_data)
                 = Some (q / inject_Z (356 * 20) * inject_Z 100)%Q).
  { unfold Rates.occupancy_and_consumption. cbn [Rates.occupancy_rate].
    rewrite Hq. rewrite div_by_nonzero by lia. reflexivity. }
  assert (Hatt : r_overall_rate (analyze_occupancy_patterns building_info badge_data)
                 = Some (Float.qsum (List.map (fun s => inject_Z s / inject_Z n)
                                       (monthly_swipes badge_data))
                         / inject_Z 9 / inject_Z 20 * inject_Z 100)%Q).
  { unfold analyze_occupancy_patterns. cbn [r_overall_rate]. fold n.
    assert (Havg : List.map (fun s => Float.div (Float.of_Z s) (Float.of_Z n))
                     (monthly_swipes badge_data)
                   = List.map (fun s => Some (inject_Z s / inject_Z n)%Q)
                       (monthly_swipes badge_data)).
    { apply List.map_ext. intros s. apply div_of_Z_nonzero, Hn. }
    rewrite Havg. unfold Float.mean. rewrite omap_present, length_map, Hlen.
    rewrite div_by_nonzero by lia.
    change (working_days_per_month building_info) with 20.
    rewrite div_by_nonzero by lia. reflexivity. }
  rewrite Hocc, Hatt. do 2 eexists. split; [reflexivity|]. split; [reflexivity|].
  pose proof (inject_Z_nonzero n Hn) as Hnq.
  assert (Hscaled : (q / inject_Z (356 * 20) * inject_Z 100 * 356
                     == Float.qsum (List.map (fun s => inject_Z s / inject_Z n)
                                      (monthly_swipes badge_data))
                        / inject_Z 9 / inject_Z 20 * inject_Z 100 * inject_Z n)%Q).
  { rewrite qsum_div, Hqv.
    change (inject_Z (356 * 20)) with 7120%Q. change (inject_Z 100) with 100%Q.
    change (inject_Z 20) with 20%Q. change (inject_Z 9) with 9%Q.
    change (inject_Z (Z.of_nat 9)) with 9%Q. field. exact Hnq. }
  split; [exact Hscaled|].
  intros H356. assert (Hn356 : n = 356) by (unfold n; rewrite H356; reflexivity).
  apply Qmult_inj_r with (z := 356%Q); [discriminate|].
  rewrite Hscaled, Hn356. reflexivity.
Qed.

Lemma occupancy_rate_against_attendance_witness :
  exists occ att,
    Rates.occupancy_rate (Rates.occupancy_and_consumption scenario_table) = Some occ
    /\ r_overall_rate (analyze_occupancy_patterns building_info scenario_table) = Some att
    /\ (occ * 356 == att * inject_Z (Z.of_nat (length scenario_table)))%Q
    /\ (length scenario_table = 356%nat -> (occ == att)%Q).
Proof. apply occupancy_rate_against_attendance. discriminate. Defined.

End OccupancyVersions.

(** ** The conference report *)

Section ConferenceReport.

Import Conference.
Local Open Scope Z_scope.

Variable strptime : string -> option Z.

(** The duration steps leave the other columns alone. *)
Lemma hours_row_keeps (first_mask : booking -> bool) (b : booking) :
  let b' := hours_row strptime first_mask b in
  Room b' = Room b /\ Date b' = Date b /\ Attendees b' = Attendees b
  /\ Attendance_Type b' = Attendance_Type b.
Proof.
  unfold hours_row. cbv zeta.
  repeat match goal with |- context [if ?c then _ else _] => destruct c end;
    repeat split; reflexivity.
Qed.

Lemma map_hours_row (A : Type) (f : booking -> A) (first_mask : booking -> bool) (df : frame) :
  (forall b, f (hours_row strptime first_mask b) = f b) ->
  List.map f (List.map (hours_row strptime first_mask) df) = List.map f df.
Proof. intros Hf. rewrite List.map_map. apply List.map_ext, Hf. Qed.

Lemma count_true_bounds (A : Type) (p : A -> bool) (l : list A) :
  0 <= Badge.count_true (List.map p l) <= Z.of_nat (length l).
Proof.
  induction l as [|x l IH]; [simpl; lia|].
  change (length (x :: l)) with (S (length l)). simpl Badge.count_true.
  destruct (p x); lia.
Qed.

(** X6. The counts of the conference report are taken on the 2025
    bookings as loaded and do not depend on how the times parse: the
    total is the number of 2025 rows, the attendees their sum, the ghost
    bookings the 2025 rows with zero attendees, at most the total. *)
Theorem conference_counts (conference_data : frame) :
  let r := analyze_conference_room_utilization strptime conference_data in
  let df_2025 := select_2025 conference_data in
  total_bookings r = Z.of_nat (length df_2025)
  /\ c_total_attendees r = Badge.zsum (List.map Attendees df_2025)
  /\ ghost_bookings r = Badge.count_true (List.map ghost_mask df_2025)
  /\ 0 <= ghost_bookings r <= total_bookings r.
Proof.
  intros r df_2025. subst r.
  unfold analyze_conference_room_utilization, report_of.
  cbn [total_bookings c_total_attendees ghost_bookings]. fold df_2025.
  rewrite with_hours_rows. unfold total_attendees.
  rewrite length_map.
  rewrite (map_hours_row _ Attendees) by (intros b; apply hours_row_keeps).
  rewrite (map_hours_row _ ghost_mask)
    by (intros b; unfold ghost_mask; f_equal; apply hours_row_keeps).
  repeat split; try reflexivity; apply count_true_bounds.
Qed.

Lemma count_true_partition (A : Type) (p q r : A -> bool) (l : list A) :
  (forall x, r x = p x || q x) -> (forall x, p x && q x = false) ->
  Badge.count_true (List.map p l) + Badge.count_true (List.map q l)
  = Badge.count_true (List.map r l).
Proof.
  intros Hor Hdisj. induction l as [|x l IH]; simpl; [reflexivity|].
  specialize (Hor x). specialize (Hdisj x).
  destruct (p x), (q x), (r x); simpl in *; try discriminate; lia.
Qed.

(** X7. In v2 the ghost bookings and the zero-attendee 'All Hands'
    bookings it sets apart add up to the ghost bookings the current
    script reports on the same table. *)
Theorem ghosts_split_by_all_hands (conference_data : frame) :
  let v2 := analyze_conference_room_utilization_v2 strptime conference_data in
  let r := analyze_conference_room_utilization strptime conference_data in
  ghost_bookings v2 + all_hands_zero v2 = ghost_bookings r
  /\ total_bookings v2 = total_bookings r
  /\ total_hours v2 = total_hours r.
Proof.
  intros v2 r. subst v2 r.
  unfold analyze_conference_room_utilization_v2, analyze_conference_room_utilization, report_of.
  cbn [ghost_bookings all_hands_zero total_bookings total_hours].
  split; [|split; reflexivity].
  apply count_true_partition; intros b;
    unfold ghost_mask_excluding, all_hands_zero_mask, ghost_mask;
    destruct (Attendees b =? 0), (String.eqb (Attendance_Type b) "All Hands"); reflexivity.
Qed.

End ConferenceReport.

Section BookedHours.

Import Conference Notions.
Local Open Scope Z_scope.

Variable strptime : string -> option Z.

Lemma hours_row_cell (b : booking) :
  exists c, Hours (hours_row strptime Hours_le_0 b) = Some c /\ bounded_cell c.
Proof.
  destruct (to_datetime strptime (Start b)) as [ts|s|] eqn:Hs;
    destruct (to_datetime strptime (Finish b)) as [tf|f|] eqn:Hf;
    try (exists None; split; [|left; reflexivity];
         unfold hours_row; cbn [Start Finish set_Start set_Finish];
         rewrite Hs, Hf; reflexivity).
  destruct (clamp_bound strptime b s f (conj Hs Hf)) as (h & Hh & Hb).
  exists h. split; [exact Hh|]. destruct h as [q|]; [|destruct Hb].
  right. exists q. split; [reflexivity|exact Hb].
Qed.

Lemma inject_length_succ (n : nat) :
  (inject_Z (Z.of_nat (S n)) == inject_Z (Z.of_nat n) + 1)%Q.
Proof. rewrite Nat2Z.inj_succ. unfold Z.succ. rewrite inject_Z_plus. reflexivity. Qed.

Lemma present_nan (l : list Float.float) :
  omap (fun a => a) (None :: l) = omap (fun a => a) l.
Proof. reflexivity. Qed.

Lemma present_value (q : Q) (l : list Float.float) :
  Float.qsum (omap (fun a => a) (Some q :: l)) = (q + Float.qsum (omap (fun a => a) l))%Q.
Proof. reflexivity. Qed.

Lemma bounded_sum (l : list Float.float) :
  Forall bounded_cell l ->
  (0 <= Float.qsum (omap (fun a => a) l))%Q
  /\ (Float.qsum (omap (fun a => a) l) <= 20 * inject_Z (Z.of_nat (length l)))%Q.
Proof.
  induction 1 as [|c l Hc _ IH].
  - simpl. split; [apply Qle_refl|discriminate].
  - change (length (c :: l)) with (S (length l)). rewrite inject_length_succ.
    destruct IH as [IH0 IH1].
    destruct Hc as [->|(q & -> & Hpos & Hle)];
      rewrite ?present_nan, ?present_value; split; Lqa.lra.
Qed.

Lemma bounded_sum_filter (A : Type) (cell : A -> Float.float) (mask : A -> bool) (l : list A) :
  Forall (fun x => bounded_cell (cell x)) l ->
  (0 <= Float.qsum (omap (fun a => a) (List.map cell (List.filter mask l))))%Q
  /\ (Float.qsum (omap (fun a => a) (List.map cell (List.filter mask l)))
      <= Float.qsum (omap (fun a => a) (List.map cell l)))%Q.
Proof.
  induction 1 as [|x l Hx Hall IH].
  - simpl. split; apply Qle_refl.
  - pose proof (bounded_sum (List.map cell l)) as [Hnn _].
    { apply Forall_map. exact Hall. }
    destruct IH as [IH0 IH1].
    cbn [List.filter List.map].
    destruct (mask x); cbn [List.map];
      destruct Hx as [->|(q & -> & Hpos & Hle)];
      rewrite ?present_nan, ?present_value; split; Lqa.lra.
Qed.

(** X8. In the current script every derived duration is [nan] or within
    (0, 20] hours, whatever the times are; so the booked hours are at
    most 20 per booking, and the ghost hours lie between 0 and the
    booked hours, the wasted energy being 5 kWh for each of them. *)
Theorem booked_hours_bounds (conference_data : frame) :
  let r := analyze_conference_room_utilization strptime conference_data in
  exists t g,
    total_hours r = Some t /\ ghost_hours r = Some g
    /\ wasted_energy_kwh r = Some (g * 5)%Q
    /\ (0 <= g)%Q /\ (g <= t)%Q /\ (t <= 20 * inject_Z (total_bookings r))%Q.
Proof.
  intros r. subst r.
  unfold analyze_conference_room_utilization, report_of.
  cbn [total_hours ghost_hours wasted_energy_kwh total_bookings].
  set (df := with_hours strptime (select_2025 conference_data)).
  assert (Hcells : Forall (fun b => bounded_cell (default Float.nan (Hours b))) df).
  { unfold df. rewrite with_hours_rows. apply Forall_map, Forall_forall.
    intros b _. destruct (hours_row_cell b) as (c & -> & Hc). exact Hc. }
  unfold hours_sum, Float.sum. do 2 eexists.
  split; [reflexivity|]. split; [reflexivity|]. split; [reflexivity|].
  destruct (bounded_sum_filter booking (fun b => default Float.nan (Hours b)) ghost_mask
              df Hcells) as [H0 Hle].
  destruct (bounded_sum (List.map (fun b => default Float.nan (Hours b)) df)) as [_ Hup].
  { apply Forall_map. exact Hcells. }
  rewrite length_map in Hup. auto.
Qed.

(** X9. The ghost share divides by the number of 2025 bookings without
    a guard: it is a number, between 0 and 100, exactly when the table
    holds a booking dated 2025, and [nan] otherwise. *)
Theorem ghost_share_defined (conference_data : frame) :
  let r := analyze_conference_room_utilization strptime conference_data in
  (Float.is_finite (ghost_pct r) = true
   <-> exists b, In b conference_data /\ year (Date b) = 2025)
  /\ (forall p, ghost_pct r = Some p -> (0 <= p)%Q /\ (p <= 100)%Q).
Proof.
  intros r. subst r.
  unfold analyze_conference_room_utilization, report_of.
  cbn [ghost_pct].
  pose proof (count_true_bounds _ ghost_mask
                (with_hours strptime (select_2025 conference_data))) as Hg.
  assert (Htot : Z.of_nat (length (with_hours strptime (select_2025 conference_data)))
                 = Z.of_nat (length (select_2025 conference_data))).
  { rewrite with_hours_rows, length_map. reflexivity. }
  set (n := Z.of_nat (length (with_hours strptime (select_2025 conference_data)))) in *.
  set (g := Badge.count_true _) in *.
  split.
  - change (Float.of_Z 100) with Badge.hundred.
    rewrite finite_percent, finite_div_of_Z, negb_true_iff, Z.eqb_neq, Htot.
    unfold select_2025.
    destruct (List.filter in_2025 conference_data) as [|b rest] eqn:Hsel.
    + split; [intros Hn; exfalso; apply Hn; reflexivity|].
      intros (b & Hb & Hyear). exfalso.
      assert (Hin : In b (List.filter in_2025 conference_data)).
      { apply filter_In. split; [exact Hb|]. apply Z.eqb_eq, Hyear. }
      rewrite Hsel in Hin. destruct Hin.
    + split; [|intros _; simpl length; lia].
      intros _. exists b.
      assert (Hin : In b (List.filter in_2025 conference_data)).
      { rewrite Hsel. left. reflexivity. }
      apply filter_In in Hin as [Hb Hyear]. split; [exact Hb|].
      apply Z.eqb_eq, Hyear.
  - intros p Hp. destruct (Z.eq_dec n 0) as [Hz|Hnz].
    + rewrite Hz in Hp. discriminate Hp.
    + rewrite div_of_Z_nonzero in Hp by exact Hnz. injection Hp as <-.
      assert (Hnq : (0 < inject_Z n)%Q) by (unfold Qlt; simpl; lia).
      assert (H0 : (0 <= inject_Z g / inject_Z n)%Q).
      { apply Qle_shift_div_l; [exact Hnq|]. unfold Qle; simpl; lia. }
      assert (H1 : (inject_Z g / inject_Z n <= 1)%Q).
      { apply Qle_shift_div_r; [exact Hnq|]. unfold Qle; simpl; lia. }
      change (inject_Z 100) with 100%Q. split; Lqa.lra.
Qed.

End BookedHours.

Section VersionsAndYears.

Import Conference Notions.
Local Open Scope Z_scope.

Variable strptime : string -> option Z.

Lemma duration_zero (s f : Z) : Qeq_bool (duration s f) 0 = (f =? s).
Proof.
  unfold duration. destruct (Z.eqb_spec f s) as [->|Hne].
  - rewrite Z.sub_diag. reflexivity.
  - apply not_true_iff_false. rewrite Qeq_bool_iff. intros Heq.
    apply Hne. unfold Qeq in Heq. simpl in Heq. lia.
Qed.

(** v1 and the current script treat a row alike unless it parses to a
    zero duration. *)
Lemma hours_row_v1_same (b : booking) :
  (forall s f, parses strptime b s f -> s <> f) ->
  hours_row strptime Hours_lt_0 b = hours_row strptime Hours_le_0 b.
Proof.
  intros Hnz. unfold hours_row. cbn [Start Finish set_Start set_Finish].
  destruct (to_datetime strptime (Start b)) as [ts|s|] eqn:Hs;
    destruct (to_datetime strptime (Finish b)) as [tf|f|] eqn:Hf;
    try reflexivity.
  rewrite hours_between_stamps. unfold Hours_lt_0, Hours_le_0. cbn [Hours set_Hours].
  unfold Float.ltb, Float.leb, Float.of_Z. change (inject_Z 0) with 0%Q.
  rewrite duration_zero.
  assert (Hne : (f =? s) = false).
  { apply Z.eqb_neq. intros ->. apply (Hnz s s); [split; assumption|reflexivity]. }
  rewrite Hne, andb_true_r. reflexivity.
Qed.

(** X10. The first version and the current script differ on
    zero-length bookings only: on a table whose 2025 bookings never
    parse to equal start and finish times, v1 computes the very same
    report. *)
Theorem v1_agrees_off_zero_durations (conference_data : frame) :
  (forall b s f, In b conference_data -> year (Date b) = 2025 ->
                 parses strptime b s f -> s <> f) ->
  analyze_conference_room_utilization_v1 strptime conference_data
  = analyze_conference_room_utilization strptime conference_data.
Proof.
  intros Hnz.
  unfold analyze_conference_room_utilization_v1, analyze_conference_room_utilization.
  rewrite with_hours_v1_rows, with_hours_rows. f_equal.
  apply List.map_ext_in. intros b Hb. apply hours_row_v1_same.
  intros s f Hp. unfold select_2025 in Hb. apply filter_In in Hb as [Hb Hyear].
  apply (Hnz b s f Hb); [apply Z.eqb_eq, Hyear|exact Hp].
Qed.

(** X11. Bookings of other years, wherever they stand in the table, do
    not change the conference report nor the room blocks. *)
Theorem other_years_ignored (before other after : frame) :
  Forall (fun b => year (Date b) <> 2025) other ->
  analyze_conference_room_utilization strptime (before ++ other ++ after)
  = analyze_conference_room_utilization strptime (before ++ after)
  /\ conference_room_cost_benefit (before ++ other ++ after)
     = conference_room_cost_benefit (before ++ after).
Proof.
  intros Hother.
  assert (Hsel : select_2025 (before ++ other ++ after) = select_2025 (before ++ after)).
  { unfold select_2025. rewrite !filter_app.
    assert (Hnone : List.filter in_2025 other = []).
    { induction Hother as [|b l Hb _ IH]; [reflexivity|].
      simpl. unfold in_2025 at 1. apply Z.eqb_neq in Hb. rewrite Hb. exact IH. }
    rewrite Hnone. reflexivity. }
  unfold analyze_conference_room_utilization, conference_room_cost_benefit.
  rewrite Hsel. split; reflexivity.
Qed.

End VersionsAndYears.

Lemma v1_agrees_off_zero_durations_witness :
  Conference.analyze_conference_room_utilization_v1 Conference.clock_12h
    [Conference.morning_meeting; Conference.overnight]
  = Conference.analyze_conference_room_utilization Conference.clock_12h
      [Conference.morning_meeting; Conference.overnight].
Proof.
  apply v1_agrees_off_zero_durations.
  intros b s f [<-|[<-|[]]] _ [Hs Hf]; vm_compute in Hs, Hf; congruence.
Defined.

Lemma other_years_ignored_witness :
  Conference.analyze_conference_room_utilization Conference.clock_12h
    ([Conference.morning_meeting] ++ [Notions.last_year_meeting] ++ [Conference.overnight])
  = Conference.analyze_conference_room_utilization Conference.clock_12h
      ([Conference.morning_meeting] ++ [Conference.overnight])
  /\ Conference.conference_room_cost_benefit
       ([Conference.morning_meeting] ++ [Notions.last_year_meeting] ++ [Conference.overnight])
     = Conference.conference_room_cost_benefit
         ([Conference.morning_meeting] ++ [Conference.overnight]).
Proof.
  apply other_years_ignored. repeat constructor. discriminate.
Defined.

Section RoomBlocks.

Import Conference.
Local Open Scope Z_scope.

Lemma percentage_bounds (g n : Z) :
  0 <= g <= n -> n <> 0 ->
  exists p, Float.mul (Float.div (Float.of_Z g) (Float.of_Z n)) (Float.of_Z 100) = Some p
            /\ (0 <= p)%Q /\ (p <= 100)%Q.
Proof.
  intros Hg Hn. rewrite div_of_Z_nonzero by exact Hn.
  eexists. split; [reflexivity|].
  assert (Hnq : (0 < inject_Z n)%Q) by (unfold Qlt; simpl; lia).
  assert (H0 : (0 <= inject_Z g / inject_Z n)%Q).
  { apply Qle_shift_div_l; [exact Hnq|]. unfold Qle; simpl; lia. }
  assert (H1 : (inject_Z g / inject_Z n <= 1)%Q).
  { apply Qle_shift_div_r; [exact Hnq|]. unfold Qle; simpl; lia. }
  change (inject_Z 100) with 100%Q. split; Lqa.lra.
Qed.

Lemma zsum_at_least_length (l : list Z) :
  Forall (fun x => 1 <= x) l -> Z.of_nat (length l) <= Badge.zsum l.
Proof.
  induction 1 as [|x l Hx _ IH]; [simpl; lia|].
  change (length (x :: l)) with (S (length l)). simpl Badge.zsum. lia.
Qed.

(** The mean of attendee counts that are all at least 1. *)
Lemma mean_attendance_at_least_one (attended : frame) (a : Q) :
  Forall (fun b => 1 <= Attendees b) attended ->
  Float.mean (List.map (fun b => Float.of_Z (Attendees b)) attended) = Some a ->
  (1 <= a)%Q.
Proof.
  intros Hall Hmean.
  destruct attended as [|b0 rest] eqn:Hatt; [discriminate Hmean|]. rewrite <- Hatt in *.
  assert (Hne : List.map Attendees attended <> []) by (rewrite Hatt; discriminate).
  destruct (np_mean_spec (List.map Attendees attended) Hne) as (q & Hq & Hqv).
  unfold Energy.np_mean in Hq. rewrite List.map_map in Hq.
  rewrite Hq in Hmean. injection Hmean as <-.
  rewrite Hqv, length_map.
  assert (Hlen : (0 < inject_Z (Z.of_nat (length attended)))%Q).
  { rewrite Hatt. unfold Qlt. simpl. lia. }
  apply Qle_shift_div_l; [exact Hlen|].
  pose proof (zsum_at_least_length (List.map Attendees attended)) as Hsum.
  rewrite length_map in Hsum.
  assert (Hge : Forall (fun x => 1 <= x) (List.map Attendees attended)).
  { apply Forall_map. exact Hall. }
  specialize (Hsum Hge). unfold Qle. simpl. lia.
Qed.

Lemma room_category_some (df_2025 : frame) (room_type : string) (room_list : list string)
    (m : room_metrics) :
  room_category df_2025 (room_type, room_list) = Some m ->
  rm_room_type m = room_type
  /\ (exists b, In b df_2025 /\ isin room_list b = true)
  /\ 1 <= rm_bookings m
  /\ (exists p, rm_ghost_pct m = Some p /\ (0 <= p)%Q /\ (p <= 100)%Q)
  /\ (forall a, rm_avg_attendees m = Some a -> (1 <= a)%Q).
Proof.
  unfold room_category.
  set (room_data := List.filter (isin room_list) df_2025).
  destruct (Z.ltb_spec 0 (Z.of_nat (length room_data))) as [Hpos|Hle]; [|discriminate].
  intros Hm. injection Hm as <-.
  cbn [rm_room_type rm_bookings rm_ghost_pct rm_avg_attendees].
  split; [reflexivity|]. split; [|split; [lia|split]].
  - destruct room_data as [|b rest] eqn:Hrd; [simpl in Hpos; lia|].
    exists b. apply filter_In. fold room_data. rewrite Hrd. left. reflexivity.
  - apply percentage_bounds; [apply count_true_bounds|lia].
  - intros a. apply mean_attendance_at_least_one.
    apply Forall_forall. intros b Hb. apply filter_In in Hb as [_ Hb].
    apply Z.ltb_lt in Hb. lia.
Qed.

Lemma block_of_category (df_2025 : frame) (m : room_metrics) :
  In m (omap (room_category df_2025) room_categories) ->
  exists ty rl, In (ty, rl) room_categories /\ room_category df_2025 (ty, rl) = Some m.
Proof.
  intros Hin. apply list_elem_of_In, list_elem_of_omap in Hin as ([ty rl] & Hc & Hm).
  exists ty, rl. split; [apply list_elem_of_In, Hc|exact Hm].
Qed.

Lemma block_printed_iff (df_2025 : frame) (ty : string) (rl : list string) :
  In (ty, rl) room_categories ->
  (forall rl', In (ty, rl') room_categories -> rl' = rl) ->
  In ty (List.map rm_room_type (omap (room_category df_2025) room_categories))
  <-> exists b, In b df_2025 /\ isin rl b = true.
Proof.
  intros Hcat Huniq. split.
  - intros Hin. apply in_map_iff in Hin as (m & Hty & Hm).
    apply block_of_category in Hm as (ty' & rl' & Hc & Hm).
    apply room_category_some in Hm as (Hty' & Hex & _).
    rewrite Hty in Hty'. subst ty'. rewrite <- (Huniq rl' Hc). exact Hex.
  - intros (b & Hb & Hin).
    assert (Hne : List.filter (isin rl) df_2025 <> []).
    { intros Hempty. assert (Hf : In b (List.filter (isin rl) df_2025))
        by (apply filter_In; split; assumption).
      rewrite Hempty in Hf. destruct Hf. }
    destruct (room_category_emitted df_2025 ty rl Hne) as (m & Hm & _).
    apply in_map_iff. exists m. split.
    + apply room_category_some in Hm as (Hty & _). exact Hty.
    + apply list_elem_of_In, list_elem_of_omap. exists (ty, rl).
      split; [apply list_elem_of_In, Hcat|exact Hm].
Qed.

(** X12. Every block of the room cost-benefit section has at least one
    booking, a ghost share between 0 and 100 % and, when it is a number,
    an average attendance of at least one person; a category is printed
    exactly when a 2025 booking is in one of its rooms. *)
Theorem room_blocks_sound (conference_data : frame) :
  let blocks := conference_room_cost_benefit conference_data in
  let df_2025 := select_2025 conference_data in
  (forall m, In m blocks ->
     1 <= rm_bookings m
     /\ (exists p, rm_ghost_pct m = Some p /\ (0 <= p)%Q /\ (p <= 100)%Q)
     /\ (forall a, rm_avg_attendees m = Some a -> (1 <= a)%Q))
  /\ (In "Large (200+ cap)"%string (List.map rm_room_type blocks)
      <-> exists b, In b df_2025 /\ isin large_rooms b = true)
  /\ (In "Medium (20-50 cap)"%string (List.map rm_room_type blocks)
      <-> exists b, In b df_2025 /\ isin medium_rooms b = true).
Proof.
  intros blocks df_2025. subst blocks.
  unfold conference_room_cost_benefit. fold df_2025.
  split; [|split].
  - intros m Hm. apply block_of_category in Hm as (ty & rl & _ & Hm).
    apply room_category_some in Hm. tauto.
  - apply block_printed_iff; [left; reflexivity|].
    intros rl' [Heq|[Heq|[]]]; [congruence|discriminate Heq].
  - apply block_printed_iff; [right; left; reflexivity|].
    intros rl' [Heq|[Heq|[]]]; [discriminate Heq|congruence].
Qed.

End RoomBlocks.

(** ** The script: loading, running, and what may raise *)

Section ScriptRuns.

Import Analyzer Script.

Variable strptime : string -> option Z.
Variable strip : string -> string.
Variable to_datetime : list date_cell -> string -> option Conference.date.

(** *** Frames of the store *)

Lemma insert_fresh_subseteq (h : gmap loc data_frame) (f : data_frame) :
  h ⊆ <[fresh (dom h) := f]> h.
Proof. apply insert_subseteq, fresh_unbound. Qed.

Lemma fresh_above (h h' : gmap loc data_frame) : h ⊆ h' -> h !! fresh (dom h') = None.
Proof.
  intros Hsub. destruct (h !! fresh (dom h')) as [f|] eqn:E; [|reflexivity].
  pose proof (lookup_weaken _ _ _ _ E Hsub) as E'.
  rewrite fresh_unbound in E'. discriminate E'.
Qed.

Lemma read_frame_insert (l : loc) (f : data_frame) (a : analyzer) (h : gmap loc data_frame) :
  read_frame l (mk_state a (<[l := f]> h)) = (Some f, mk_state a (<[l := f]> h)).
Proof. unfold read_frame. cbn [heap]. rewrite lookup_insert_eq. reflexivity. Qed.

Lemma write_frame_insert (l : loc) (f g : data_frame) (a : analyzer)
    (h : gmap loc data_frame) :
  write_frame l g (mk_state a (<[l := f]> h)) = (Some tt, mk_state a (<[l := g]> h)).
Proof.
  unfold write_frame. cbn [heap self]. rewrite lookup_insert_eq, insert_insert_eq.
  reflexivity.
Qed.

Lemma assign_columns_insert (a : analyzer) (h : gmap loc data_frame) (l : loc)
    (table : utility_table) :
  energy_data a = Some l ->
  assign_columns strip (mk_state a (<[l := EnergyFrame table]> h))
  = (Some tt, mk_state a (<[l := EnergyFrame (strip_columns strip table)]> h)).
Proof.
  intros Hl. unfold assign_columns, bind, get_self, attribute. cbn [self]. rewrite Hl.
  cbn [ret]. rewrite read_frame_insert. apply write_frame_insert.
Qed.

Lemma the_booking_csv_insert (a : analyzer) (h : gmap loc data_frame) (l : loc)
    (rows : list csv_booking) :
  conference_data a = Some l ->
  the_booking_csv (mk_state a (<[l := BookingCsvFrame rows]> h))
  = (Some rows, mk_state a (<[l := BookingCsvFrame rows]> h)).
Proof.
  intros Hl. unfold the_booking_csv, bind, get_self, attribute. cbn [self]. rewrite Hl.
  cbn [ret]. rewrite read_frame_insert. reflexivity.
Qed.

Lemma assign_Date_insert (a : analyzer) (h : gmap loc data_frame) (l : loc)
    (rows rows' : list csv_booking) :
  conference_data a = Some l ->
  assign_Date rows' (mk_state a (<[l := BookingCsvFrame rows]> h))
  = (Some tt, mk_state a (<[l := BookingCsvFrame rows']> h)).
Proof.
  intros Hl. unfold assign_Date, bind, get_self, attribute. cbn [self]. rewrite Hl.
  cbn [ret]. apply write_frame_insert.
Qed.

(** *** [load_data], line by line *)

(** The state in which [load_data] ends: the frames are created one
    after the other, and an exception leaves the attributes assigned so
    far. *)
Lemma load_data_run (badge_csv : option Badge.badge_table)
    (energy_csv : option utility_table) (conference_csv : option (list csv_booking))
    (st : state) :
  let a := self st in
  load_data strip to_datetime badge_csv energy_csv conference_csv st
  = match badge_csv with
    | None => (None, st)
    | Some badge =>
        let b := fresh (dom (heap st)) in
        let h1 := <[b := BadgeFrame badge]> (heap st) in
        match energy_csv with
        | None =>
            (None, mk_state (mk_analyzer (Some b) (energy_data a) (conference_data a)
                               (building_info a)) h1)
        | Some energy =>
            let e := fresh (dom h1) in
            let h2 := <[e := EnergyFrame (strip_columns strip energy)]> h1 in
            match conference_csv with
            | None =>
                (None, mk_state (mk_analyzer (Some b) (Some e) (conference_data a)
                                   (building_info a)) h2)
            | Some rows =>
                let c := fresh (dom h2) in
                if Date_has_str rows then
                  let h3 := <[c := BookingCsvFrame
                                      (Date_to_datetime to_datetime
                                         (Date_str_strip strip rows))]> h2 in
                  let kept := fresh (dom h3) in
                  (Some tt,
                   mk_state (mk_analyzer (Some b) (Some e) (Some kept) (building_info a))
                     (<[kept := ConferenceFrame (parse_dates strip to_datetime rows)]> h3))
                else
                  (None, mk_state (mk_analyzer (Some b) (Some e) (Some c) (building_info a))
                           (<[c := BookingCsvFrame rows]> h2))
            end
        end
    end.
Proof.
  intros a. unfold load_data.
  destruct badge_csv as [badge|]; [|reflexivity].
  cbn [read_csv]. rewrite (bind_some (ret badge) _ st st badge eq_refl).
  unfold new_frame at 1. unfold bind at 1. cbn beta iota zeta.
  unfold set_badge_data at 1. unfold bind at 1. cbn [get_self set_self self heap bind].
  fold a.
  destruct energy_csv as [energy|]; [|reflexivity].
  cbn [read_csv ret bind].
  unfold new_frame at 1. cbn beta iota zeta. cbn [self heap].
  unfold set_energy_data at 1. cbn [get_self set_self self heap bind
    badge_data energy_data conference_data building_info].
  erewrite bind_some by (apply assign_columns_insert; reflexivity).
  destruct conference_csv as [rows|]; [|reflexivity].
  cbn [read_csv ret bind].
  unfold new_frame at 1. cbn beta iota zeta. cbn [self heap].
  unfold set_conference_data at 1. cbn [get_self set_self self heap bind
    badge_data energy_data conference_data building_info].
  erewrite bind_some by (apply the_booking_csv_insert; reflexivity).
  destruct (Date_has_str rows); [|reflexivity].
  erewrite bind_some by (apply assign_Date_insert; reflexivity).
  erewrite bind_some by (apply the_booking_csv_insert; reflexivity).
  erewrite bind_some by (apply assign_Date_insert; reflexivity).
  erewrite bind_some by (apply the_booking_csv_insert; reflexivity).
  reflexivity.
Qed.

(** The three passes over the ['Date'] column (lines 56-58) keep a row
    exactly when its date is a text that reads once stripped. *)
Lemma parse_dates_rows (rows : list csv_booking) :
  parse_dates strip to_datetime rows
  = omap (fun r =>
            match csv_Date r with
            | DateText s =>
                match to_datetime (List.map csv_Date (Date_str_strip strip rows)) (strip s) with
                | Some d =>
                    Some (Conference.mk_booking (csv_Room r) d (csv_Start r) (csv_Finish r)
                            (csv_Attendees r) (csv_Attendance_Type r) None)
                | None => None
                end
            | _ => None
            end) rows.
Proof.
  unfold parse_dates, dropna_Date, Date_to_datetime.
  set (column := List.map csv_Date (Date_str_strip strip rows)). clearbody column.
  unfold Date_str_strip.
  induction rows as [|r rows IH]; [reflexivity|].
  cbn [List.map omap list_omap]. rewrite <- IH.
  unfold dated at 1. cbn [set_Date csv_Date csv_Room csv_Start csv_Finish csv_Attendees
                           csv_Attendance_Type].
  destruct (csv_Date r) as [s| |d|]; cbn [str_strip]; try reflexivity.
  destruct (to_datetime column (strip s)); reflexivity.
Qed.

Lemma parse_dates_In (rows : list csv_booking) (b : Conference.booking) :
  In b (parse_dates strip to_datetime rows)
  <-> exists r s d,
        In r rows /\ csv_Date r = DateText s
        /\ to_datetime (List.map csv_Date (Date_str_strip strip rows)) (strip s) = Some d
        /\ b = Conference.mk_booking (csv_Room r) d (csv_Start r) (csv_Finish r)
                 (csv_Attendees r) (csv_Attendance_Type r) None.
Proof.
  rewrite parse_dates_rows.
  set (column := List.map csv_Date (Date_str_strip strip rows)). clearbody column.
  rewrite <- list_elem_of_In, list_elem_of_omap. split.
  - intros (r & Hr & Hkeep). apply list_elem_of_In in Hr.
    destruct (csv_Date r) as [s| |d|] eqn:Hcell; try discriminate Hkeep.
    destruct (to_datetime column (strip s)) as [d|] eqn:Hd; [|discriminate Hkeep].
    injection Hkeep as <-. exists r, s, d. auto.
  - intros (r & s & d & Hr & Hcell & Hd & ->). exists r. split; [apply list_elem_of_In, Hr|].
    rewrite Hcell, Hd. reflexivity.
Qed.

Lemma parse_dates_length (rows : list csv_booking) :
  (length (parse_dates strip to_datetime rows) <= length rows)%nat.
Proof.
  rewrite parse_dates_rows. generalize (List.map csv_Date (Date_str_strip strip rows)).
  intros column. induction rows as [|r rows IH]; [reflexivity|].
  cbn [omap list_omap]. destruct (csv_Date r) as [s| |d|]; simpl; try lia.
  destruct (to_datetime column (strip s)); simpl; lia.
Qed.

(** X13. [load_data] returns exactly when the three CSV reads succeed
    and the ['Date'] column of the bookings holds some text (or the
    table has no row). The analyzer then refers to three new frames: the
    badge table as read, the utility table with its column names
    stripped, and the bookings whose date is a text that reads once
    stripped, at most as many as were read. Whether it returns or
    raises, the building constants and the frames that existed before
    are untouched; but a load that raises is not undone: the attributes
    assigned before the failing line stay assigned, up to the booking
    table as read when its dates cannot be stripped. *)
Theorem load_data_holds (badge_csv : option Badge.badge_table)
    (energy_csv : option utility_table) (conference_csv : option (list csv_booking))
    (st : state) :
  exists out st',
    load_data strip to_datetime badge_csv energy_csv conference_csv st = (out, st')
    /\ building_info (self st') = building_info (self st)
    /\ heap st ⊆ heap st'
    /\ (out = Some tt
        <-> exists badge energy rows,
              badge_csv = Some badge /\ energy_csv = Some energy
              /\ conference_csv = Some rows /\ Date_has_str rows = true)
    /\ (forall badge energy rows,
          badge_csv = Some badge -> energy_csv = Some energy ->
          conference_csv = Some rows -> Date_has_str rows = true ->
          holds st' badge (strip_columns strip energy) (parse_dates strip to_datetime rows)
          /\ (length (parse_dates strip to_datetime rows) <= length rows)%nat
          /\ (forall b,
                In b (parse_dates strip to_datetime rows)
                <-> exists r s d,
                      In r rows /\ csv_Date r = DateText s
                      /\ to_datetime (List.map csv_Date (Date_str_strip strip rows)) (strip s)
                         = Some d
                      /\ b = Conference.mk_booking (csv_Room r) d (csv_Start r)
                               (csv_Finish r) (csv_Attendees r) (csv_Attendance_Type r) None)
          /\ (forall l, In (Some l) [badge_data (self st'); energy_data (self st');
                                     conference_data (self st')] ->
                        heap st !! l = None))
    /\ (badge_csv = None -> st' = st)
    /\ (forall badge,
          badge_csv = Some badge ->
          table_of st' (badge_data (self st')) = Some (BadgeFrame badge))
    /\ (forall badge energy,
          badge_csv = Some badge -> energy_csv = Some energy ->
          table_of st' (energy_data (self st'))
          = Some (EnergyFrame (strip_columns strip energy)))
    /\ (forall badge energy rows,
          badge_csv = Some badge -> energy_csv = Some energy ->
          conference_csv = Some rows -> Date_has_str rows = false ->
          table_of st' (conference_data (self st')) = Some (BookingCsvFrame rows)).
Proof.
  pose proof (load_data_run badge_csv energy_csv conference_csv st) as Hrun.
  cbv zeta in Hrun.
  destruct badge_csv as [badge|].
  2: { exists None, st. split; [exact Hrun|]. repeat split; try discriminate; try reflexivity.
       intros (? & ? & ? & ? & _). discriminate. }
  set (h := heap st) in *.
  set (b := fresh (dom h)) in *. set (h1 := <[b := BadgeFrame badge]> h) in *.
  assert (S01 : h ⊆ h1) by apply insert_fresh_subseteq.
  assert (Hb1 : h1 !! b = Some (BadgeFrame badge)) by apply lookup_insert_eq.
  destruct energy_csv as [energy|].
  2: { eexists None, _. split; [exact Hrun|]. cbn [self heap building_info badge_data].
       repeat split; try discriminate; try reflexivity; try exact S01.
       - intros (? & ? & ? & _ & ? & _). discriminate.
       - intros ? [= <-]. exact Hb1. }
  set (e := fresh (dom h1)) in *.
  set (h2 := <[e := EnergyFrame (strip_columns strip energy)]> h1) in *.
  assert (S12 : h1 ⊆ h2) by apply insert_fresh_subseteq.
  assert (He2 : h2 !! e = Some (EnergyFrame (strip_columns strip energy)))
    by apply lookup_insert_eq.
  assert (S02 : h ⊆ h2) by (transitivity h1; assumption).
  destruct conference_csv as [rows|].
  2: { eexists None, _. split; [exact Hrun|].
       cbn [self heap building_info badge_data energy_data].
       repeat split; try discriminate; try reflexivity; try exact S02.
       - intros (? & ? & ? & _ & _ & ? & _). discriminate.
       - intros ? [= <-]. exact (lookup_weaken _ _ _ _ Hb1 S12).
       - intros ? ? [= <-] [= <-]. exact He2. }
  set (c := fresh (dom h2)) in *.
  destruct (Date_has_str rows) eqn:Hstr.
  - set (h3 := <[c := BookingCsvFrame (Date_to_datetime to_datetime
                                         (Date_str_strip strip rows))]> h2) in *.
    set (kept := fresh (dom h3)) in *.
    set (h4 := <[kept := ConferenceFrame (parse_dates strip to_datetime rows)]> h3) in *.
    assert (S23 : h2 ⊆ h3) by apply insert_fresh_subseteq.
    assert (S34 : h3 ⊆ h4) by apply insert_fresh_subseteq.
    assert (S03 : h ⊆ h3) by (transitivity h2; assumption).
    assert (S24 : h2 ⊆ h4) by (transitivity h3; assumption).
    assert (S14 : h1 ⊆ h4) by (transitivity h2; assumption).
    assert (Hb4 : h4 !! b = Some (BadgeFrame badge)) by exact (lookup_weaken _ _ _ _ Hb1 S14).
    assert (He4 : h4 !! e = Some (EnergyFrame (strip_columns strip energy)))
      by exact (lookup_weaken _ _ _ _ He2 S24).
    assert (Hk4 : h4 !! kept = Some (ConferenceFrame (parse_dates strip to_datetime rows)))
      by apply lookup_insert_eq.
    eexists (Some tt), _. split; [exact Hrun|].
    cbn [self heap building_info badge_data energy_data conference_data].
    split; [reflexivity|]. split; [transitivity h3; assumption|].
    split; [split; [intros _; eauto 8|reflexivity]|].
    split.
    { intros badge' energy' rows' [= <-] [= <-] [= <-] _.
      split; [|split; [apply parse_dates_length|split; [apply parse_dates_In|]]].
      - unfold holds, tables, table_of.
        cbn [self heap badge_data energy_data conference_data mbind option_bind].
        rewrite Hb4, He4, Hk4. reflexivity.
      - intros l [Hl|[Hl|[Hl|[]]]]; injection Hl as <-.
        + apply fresh_unbound.
        + apply fresh_above, S01.
        + apply fresh_above, S03. }
    split; [discriminate|].
    split; [intros ? [= <-]; exact Hb4|].
    split; [intros ? ? [= <-] [= <-]; exact He4|].
    intros ? ? rows' _ _ [= <-] Hf. rewrite Hstr in Hf. discriminate Hf.
  - set (h3 := <[c := BookingCsvFrame rows]> h2) in *.
    assert (S23 : h2 ⊆ h3) by apply insert_fresh_subseteq.
    assert (S13 : h1 ⊆ h3) by (transitivity h2; assumption).
    eexists None, _. split; [exact Hrun|].
    cbn [self heap building_info badge_data energy_data conference_data].
    split; [reflexivity|]. split; [transitivity h2; assumption|].
    split.
    { split; [discriminate|]. intros (? & ? & rows' & _ & _ & [= <-] & Hf).
      rewrite Hstr in Hf. discriminate Hf. }
    split.
    { intros ? ? rows' _ _ [= <-] Hf. rewrite Hstr in Hf. discriminate Hf. }
    split; [discriminate|].
    split; [intros ? [= <-]; exact (lookup_weaken _ _ _ _ Hb1 S13)|].
    split; [intros ? ? [= <-] [= <-]; exact (lookup_weaken _ _ _ _ He2 S23)|].
    intros ? ? rows' _ _ [= <-] _. apply lookup_insert_eq.
Qed.

(** *** The analysis calls *)

(** X14. On a loaded analyzer an analysis call raises exactly when it
    reads the swipe columns ([analyze_occupancy_patterns],
    [correlate_occupancy_with_energy], [advanced_metrics_analysis]) and
    the badge table has no row; it then stops before any frame is
    created: the state is left exactly as it was. *)
Theorem raises_iff_swipes_without_row (op : operation) (st : state)
    badge energy conference :
  holds st badge energy conference ->
  (fst (exec strptime op st) = None
   <-> badge = []
       /\ (op = OccupancyPatterns \/ op = OccupancyEnergyCorrelation
           \/ op = AdvancedMetrics))
  /\ (fst (exec strptime op st) = None -> snd (exec strptime op st) = st).
Proof.
  intros H.
  destruct (exec_refines strptime op st badge energy conference H) as (st' & E & _ & Hsame).
  rewrite E. cbn [fst snd]. split; [|exact Hsame].
  rewrite result_of_none_iff.
  destruct op; cbn [reads_swipes]; intuition (auto; discriminate).
Qed.

(** The calls, started in any state that still holds the tables of
    [st]. *)
Lemma exec_all_from (ops : list operation) (st st1 : state) badge energy conference :
  holds st badge energy conference -> badge <> [] -> stable st st1 ->
  exists rs st',
    exec_all strptime ops st1 = (Some rs, st')
    /\ List.map Some rs
       = List.map (fun op => result_of strptime op (building_info (self st)) badge conference)
           ops
    /\ stable st st'.
Proof.
  intros H Hne. revert st1. induction ops as [|op ops IH]; intros st1 Hs1.
  - exists [], st1. repeat split; [exact (proj1 Hs1)|exact (proj2 Hs1)].
  - pose proof (stable_holds _ _ _ _ _ H Hs1) as H1.
    destruct (exec_refines strptime op st1 badge energy conference H1) as (st2 & E & Hs2 & _).
    rewrite (proj1 Hs1) in E.
    destruct (result_of strptime op (building_info (self st)) badge conference)
      as [r|] eqn:Hr.
    2: { apply result_of_none_iff in Hr as [Hempty _]. contradiction. }
    destruct (IH st2 (stable_trans _ _ _ Hs1 Hs2)) as (rs & st3 & Eall & Hrs & Hs3).
    exists (r :: rs), st3. split; [|split; [|exact Hs3]].
    + cbn [exec_all]. rewrite (bind_some _ _ _ _ _ E), (bind_some _ _ _ _ _ Eall).
      reflexivity.
    + cbn [List.map]. rewrite Hr, Hrs. reflexivity.
Qed.

(** X15. On a loaded analyzer with a non-empty badge table, any
    sequence of analysis calls returns; each call yields what the
    analysis yields on the contents of the tables, whatever ran before
    it, and afterwards the analyzer still holds the same tables. *)
Theorem analyses_do_not_interfere (ops : list operation) (st : state)
    badge energy conference :
  holds st badge energy conference -> badge <> [] ->
  exists rs st',
    exec_all strptime ops st = (Some rs, st')
    /\ List.map Some rs
       = List.map (fun op => result_of strptime op (building_info (self st)) badge conference)
           ops
    /\ holds st' badge energy conference
    /\ self st' = self st.
Proof.
  intros H Hne.
  destruct (exec_all_from ops st st badge energy conference H Hne (stable_refl st))
    as (rs & st' & E & Hrs & Hs).
  exists rs, st'. split; [exact E|]. split; [exact Hrs|].
  split; [exact (stable_holds _ _ _ _ _ H Hs)|exact (proj1 Hs)].
Qed.

(** What [load_data] leaves when it returns. *)
Lemma load_data_returns (badge : Badge.badge_table) (energy : utility_table)
    (rows : list csv_booking) (st : state) :
  Date_has_str rows = true ->
  exists st',
    load_data strip to_datetime (Some badge) (Some energy) (Some rows) st = (Some tt, st')
    /\ holds st' badge (strip_columns strip energy) (parse_dates strip to_datetime rows)
    /\ building_info (self st') = building_info (self st).
Proof.
  intros Hstr. rewrite load_data_run. cbv zeta. rewrite Hstr.
  eexists. split; [reflexivity|]. split; [|reflexivity].
  unfold holds, tables, table_of.
  cbn [self heap badge_data energy_data conference_data mbind option_bind].
  set (h := heap st).
  set (b := fresh (dom h)). set (h1 := <[b := BadgeFrame badge]> h).
  set (e := fresh (dom h1)).
  set (h2 := <[e := EnergyFrame (strip_columns strip energy)]> h1).
  set (c := fresh (dom h2)).
  set (h3 := <[c := BookingCsvFrame (Date_to_datetime to_datetime
                                       (Date_str_strip strip rows))]> h2).
  set (kept := fresh (dom h3)).
  assert (S12 : h1 ⊆ h2) by apply insert_fresh_subseteq.
  assert (S23 : h2 ⊆ h3) by apply insert_fresh_subseteq.
  assert (S34 : h3 ⊆ <[kept := ConferenceFrame (parse_dates strip to_datetime rows)]> h3)
    by apply insert_fresh_subseteq.
  assert (Hb : h1 !! b = Some (BadgeFrame badge)) by apply lookup_insert_eq.
  assert (He : h2 !! e = Some (EnergyFrame (strip_columns strip energy)))
    by apply lookup_insert_eq.
  rewrite (lookup_weaken _ _ _ _ (lookup_weaken _ _ _ _ (lookup_weaken _ _ _ _ Hb S12) S23) S34).
  rewrite (lookup_weaken _ _ _ _ (lookup_weaken _ _ _ _ He S23) S34).
  rewrite lookup_insert_eq. reflexivity.
Qed.

Lemma load_data_raises (badge_csv : option Badge.badge_table)
    (energy_csv : option utility_table) (conference_csv : option (list csv_booking))
    (st : state) :
  fst (load_data strip to_datetime badge_csv energy_csv conference_csv st) = None
  <-> badge_csv = None \/ energy_csv = None \/ conference_csv = None
      \/ exists rows, conference_csv = Some rows /\ Date_has_str rows = false.
Proof.
  rewrite load_data_run. cbv zeta.
  destruct badge_csv as [badge|]; [|cbn [fst]; tauto].
  destruct energy_csv as [energy|]; [|cbn [fst]; tauto].
  destruct conference_csv as [rows|]; [|cbn [fst]; tauto].
  destruct (Date_has_str rows) eqn:Hstr; cbn [fst].
  - split; [discriminate|].
    intros [Hf|[Hf|[Hf|(rows' & [= <-] & Hf)]]]; try discriminate Hf.
    rewrite Hstr in Hf. discriminate Hf.
  - split; [|reflexivity]. intros _. right. right. right. exists rows. auto.
Qed.

(** X16. The script (load, then the six analysis calls) raises exactly
    when a CSV read fails, the ['Date'] column of the bookings cannot be
    stripped, or the badge table has no row. The last case is met in
    the first analysis only: the load itself accepts the empty table
    and the analyzer is left loaded. When the script returns, the
    results are those of the analyses on the loaded contents and the
    analyzer holds the tables as loaded. *)
Theorem main_raises_iff (badge_csv : option Badge.badge_table)
    (energy_csv : option utility_table) (conference_csv : option (list csv_booking))
    (st : state) :
  exists out st',
    main strptime strip to_datetime badge_csv energy_csv conference_csv st = (out, st')
    /\ (out = None
        <-> badge_csv = None \/ badge_csv = Some [] \/ energy_csv = None
            \/ conference_csv = None
            \/ exists rows, conference_csv = Some rows /\ Date_has_str rows = false)
    /\ (forall rs,
          out = Some rs ->
          exists badge energy rows,
            badge_csv = Some badge /\ energy_csv = Some energy /\ conference_csv = Some rows
            /\ List.map Some rs
               = List.map (fun op => result_of strptime op (building_info (self st)) badge
                                       (parse_dates strip to_datetime rows)) analyses
            /\ holds st' badge (strip_columns strip energy)
                 (parse_dates strip to_datetime rows))
    /\ (forall energy rows,
          badge_csv = Some [] -> energy_csv = Some energy -> conference_csv = Some rows ->
          Date_has_str rows = true ->
          holds st' [] (strip_columns strip energy) (parse_dates strip to_datetime rows)).
Proof.
  unfold main.
  destruct (load_data strip to_datetime badge_csv energy_csv conference_csv st)
    as [[[]|] st1] eqn:Eload.
  - (* the load returned *)
    assert (Hok : fst (load_data strip to_datetime badge_csv energy_csv conference_csv st)
                  <> None) by (rewrite Eload; discriminate).
    rewrite load_data_raises in Hok.
    destruct badge_csv as [badge|]; [|tauto].
    destruct energy_csv as [energy|]; [|tauto].
    destruct conference_csv as [rows|]; [|tauto].
    destruct (Date_has_str rows) eqn:Hstr; [|exfalso; apply Hok; eauto 6].
    destruct (load_data_returns badge energy rows st Hstr) as (st1' & Eload' & H1 & Hinfo).
    rewrite Eload in Eload'. injection Eload' as <-.
    rewrite (bind_some _ _ _ _ _ Eload).
    destruct badge as [|emp rest].
    + (* no employee: the first analysis raises *)
      destruct (exec_refines strptime OccupancyPatterns st1 _ _ _ H1) as (st2 & E & _ & Hsame).
      cbn [result_of Badge.object_dtype] in E, Hsame. rewrite (Hsame eq_refl) in E.
      exists None, st1. split.
      { unfold analyses. cbn [exec_all]. apply bind_none. exact E. }
      split; [split; [tauto|reflexivity]|].
      split; [discriminate|].
      intros ? ? _ [= <-] [= <-] _. exact H1.
    + destruct (exec_all_from analyses st1 st1 _ _ _ H1) as (rs & st' & E & Hrs & Hs);
        [discriminate|apply stable_refl|].
      exists (Some rs), st'. split; [exact E|].
      split.
      { split; [discriminate|].
        intros [Hf|[Hf|[Hf|[Hf|(rows' & [= <-] & Hf)]]]]; try discriminate Hf.
        rewrite Hstr in Hf. discriminate Hf. }
      split; [|intros ? ? Hf; discriminate Hf].
      intros rs0 [= <-]. exists (emp :: rest), energy, rows.
      rewrite Hinfo in Hrs. repeat split; [exact Hrs|exact (stable_holds _ _ _ _ _ H1 Hs)].
  - (* the load raised *)
    assert (Hraised : fst (load_data strip to_datetime badge_csv energy_csv conference_csv st)
                      = None) by (rewrite Eload; reflexivity).
    rewrite load_data_raises in Hraised.
    exists None, st1. split; [apply bind_none, Eload|].
    split; [split; [tauto|reflexivity]|].
    split; [discriminate|].
    intros energy rows -> -> -> Hstr.
    destruct Hraised as [Hf|[Hf|[Hf|(rows' & [= <-] & Hf)]]]; try discriminate Hf.
    rewrite Hstr in Hf. discriminate Hf.
Qed.

End ScriptRuns.

Lemma raises_iff_swipes_without_row_witness :
  (fst (Script.exec Conference.clock_12h Script.OccupancyPatterns
          Analyzer.example_state_no_employee) = None
   <-> @nil Badge.employee = []
       /\ (Script.OccupancyPatterns = Script.OccupancyPatterns
           \/ Script.OccupancyPatterns = Script.OccupancyEnergyCorrelation
           \/ Script.OccupancyPatterns = Script.AdvancedMetrics))
  /\ (fst (Script.exec Conference.clock_12h Script.OccupancyPatterns
             Analyzer.example_state_no_employee) = None ->
      snd (Script.exec Conference.clock_12h Script.OccupancyPatterns
             Analyzer.example_state_no_employee)
      = Analyzer.example_state_no_employee).
Proof.
  apply (raises_iff_swipes_without_row Conference.clock_12h Script.OccupancyPatterns
           Analyzer.example_state_no_employee []
           (Analyzer.strip_columns Analyzer.strip_spaces Analyzer.example_utilities)
           [Conference.morning_meeting; Conference.midnight_to_midnight]).
  vm_compute. reflexivity.
Defined.

Lemma analyses_do_not_interfere_witness :
  exists rs st',
    Script.exec_all Conference.clock_12h
      [Script.AdvancedMetrics; Script.ConferenceRoomUtilization; Script.AdvancedMetrics]
      Analyzer.example_state = (Some rs, st')
    /\ List.map Some rs
       = List.map (fun op => Script.result_of Conference.clock_12h op
                               (Analyzer.building_info (Analyzer.self Analyzer.example_state))
                               [Badge.ten_a_month]
                               [Conference.morning_meeting; Conference.midnight_to_midnight])
           [Script.AdvancedMetrics; Script.ConferenceRoomUtilization;
            Script.AdvancedMetrics]
    /\ Script.holds st' [Badge.ten_a_month]
         (Analyzer.strip_columns Analyzer.strip_spaces Analyzer.example_utilities)
         [Conference.morning_meeting; Conference.midnight_to_midnight]
    /\ Analyzer.self st' = Analyzer.self Analyzer.example_state.
Proof.
  apply (analyses_do_not_interfere Conference.clock_12h).
  - vm_compute. reflexivity.
  - discriminate.
Defined.

(** ** Floor efficiency *)

Section FloorEfficiency.

Import Badge Advanced.
Local Open Scope Z_scope.

Lemma ltb_some (x y : Q) : Float.ltb (Some x) (Some y) = true <-> (x < y)%Q.
Proof.
  unfold Float.ltb. rewrite andb_true_iff, negb_true_iff, Qle_bool_iff.
  rewrite <- not_true_iff_false, Qeq_bool_iff. split.
  - intros [Hle Hne]. apply Qle_lt_or_eq in Hle. tauto.
  - intros Hlt. split; [apply Qlt_le_weak, Hlt|].
    intros Heq. rewrite Heq in Hlt. exact (Qlt_irrefl _ Hlt).
Qed.

(** The first minimal key of a list of finite scores. *)
Lemma min_from_least (best : Z * Float.float) (rest : list (Z * Float.float)) :
  Forall (fun x => exists v, snd x = Some v) (best :: rest) ->
  exists v, In (min_from best rest, Some v) (best :: rest)
            /\ forall k' v', In (k', Some v') (best :: rest) -> (v <= v')%Q.
Proof.
  revert best. induction rest as [|x rest IH]; intros best Hfin.
  - inversion Hfin as [|? ? (v & Hv) _]; subst. exists v. destruct best as [k c].
    simpl in *. subst c. split; [left; reflexivity|].
    intros k' v' [Heq|[]]. injection Heq as _ <-. apply Qle_refl.
  - inversion Hfin as [|? ? (vb & Hvb) Hrest]; subst.
    inversion Hrest as [|? ? (vx & Hvx) Hrest']; subst.
    destruct best as [kb cb], x as [kx cx]. simpl in Hvb, Hvx. subst cb cx.
    cbn [min_from snd]. destruct (Float.ltb (Some vx) (Some vb)) eqn:Hlt.
    + apply ltb_some in Hlt.
      destruct (IH (kx, Some vx)) as (v & Hin & Hmin).
      { constructor; [exists vx; reflexivity|exact Hrest']. }
      exists v. split; [right; exact Hin|].
      intros k' v' [Heq|Hin'].
      * injection Heq as _ <-. apply Qle_trans with vx.
        -- apply (Hmin kx vx). left. reflexivity.
        -- apply Qlt_le_weak, Hlt.
      * apply (Hmin k' v' Hin').
    + assert (Hge : (vb <= vx)%Q).
      { apply Qnot_lt_le. intros Hc. apply ltb_some in Hc. congruence. }
      destruct (IH (kb, Some vb)) as (v & Hin & Hmin).
      { constructor; [exists vb; reflexivity|exact Hrest']. }
      exists v. split.
      * destruct Hin as [Heq|Hin]; [left; exact Heq|right; right; exact Hin].
      * intros k' v' [Heq|[Heq|Hin']].
        -- apply (Hmin k' v'). left. exact Heq.
        -- injection Heq as _ <-. apply Qle_trans with vb; [|exact Hge].
           apply (Hmin kb vb). left. reflexivity.
        -- apply (Hmin k' v'). right. exact Hin'.
Qed.

Lemma floor_lines_finite (badge_data : badge_table) :
  Forall (fun l => 1 <= fl_employees l /\ exists e, fl_efficiency l = Some e)
         (floor_lines badge_data).
Proof.
  unfold floor_lines, floor_occupancy. rewrite List.map_map.
  apply Forall_map, Forall_forall. intros k Hk.
  cbn [fl_employees fl_efficiency].
  apply in_group_keys, in_map_iff in Hk as (e & <- & He).
  assert (Hin : In e (on_floor (Floor e) badge_data)).
  { apply filter_In. split; [exact He|apply Z.eqb_refl]. }
  assert (Hemp : 1 <= Z.of_nat (length (on_floor (Floor e) badge_data))).
  { destruct (on_floor (Floor e) badge_data); [destruct Hin|simpl length; lia]. }
  split; [exact Hemp|].
  rewrite div_of_Z_nonzero by lia. eexists. reflexivity.
Qed.

(** X17. In the floor efficiency section every listed floor has an
    employee, so every efficiency is a number; the floor named as
    underutilized is a floor of the table whose efficiency is not above
    that of any other floor. *)
Theorem underutilized_floor_is_least_efficient (badge_data : badge_table) :
  Forall (fun l => 1 <= fl_employees l /\ exists e, fl_efficiency l = Some e)
         (floor_lines badge_data)
  /\ (forall floor, underutilized_floor badge_data = Some floor ->
       exists l e,
         In l (floor_lines badge_data) /\ fl_floor l = floor /\ fl_efficiency l = Some e
         /\ forall l' e', In l' (floor_lines badge_data) -> fl_efficiency l' = Some e' ->
                           (e <= e')%Q).
Proof.
  split; [apply floor_lines_finite|].
  intros floor Hmin. unfold underutilized_floor, min_key in Hmin.
  destruct (efficiency_scores badge_data) as [|best rest] eqn:Hscores; [discriminate|].
  injection Hmin as <-.
  destruct (min_from_least best rest) as (v & Hin & Hleast).
  { rewrite <- Hscores. unfold efficiency_scores. apply Forall_map.
    eapply Forall_impl; [|apply floor_lines_finite]. intros l [_ He]. exact He. }
  rewrite <- Hscores in Hin, Hleast. unfold efficiency_scores in Hin, Hleast.
  apply in_map_iff in Hin as (l & Hl & Hlin). injection Hl as Hfloor Heff.
  exists l, v. repeat split; try assumption.
  intros l' e' Hl' He'. apply (Hleast (fl_floor l') e').
  apply in_map_iff. exists l'. split; [rewrite He'; reflexivity|exact Hl'].
Qed.

End FloorEfficiency.

(** ** Water per swipe and cost per swipe *)

Section PerSwipe.

Import Badge Advanced Notions.
Local Open Scope Z_scope.

Lemma ediv_Z_nonzero (w s : Z) : s <> 0 -> ediv_Z w s = Fin (inject_Z w / inject_Z s).
Proof. intros Hs. unfold ediv_Z. apply Z.eqb_neq in Hs. rewrite Hs. reflexivity. Qed.

Lemma emean_three (a b c : Q) :
  emean [Fin a; Fin b; Fin c] = Fin ((0 + a + b + c) / inject_Z 3).
Proof. reflexivity. Qed.

Lemma positive_ratio (w s : Z) : 0 < w -> 0 < s -> (0 < inject_Z w / inject_Z s)%Q.
Proof.
  intros Hw Hs. apply Qlt_shift_div_l; [unfold Qlt; simpl; lia|].
  unfold Qlt. simpl. lia.
Qed.

Lemma positive_not_zero (y : Q) : (0 < y)%Q -> Qeq_bool y 0 = false.
Proof.
  intros Hy. apply not_true_iff_false. rewrite Qeq_bool_iff. intros Heq.
  rewrite Heq in Hy. exact (Qlt_irrefl _ Hy).
Qed.

Lemma summer_ratio_unfold (badge_data : badge_table) :
  summer_ratio (monthly_swipes badge_data)
  = ediv (emean [ediv_Z 17143000 (month_total Jul badge_data);
                 ediv_Z 17287000 (month_total Aug badge_data);
                 ediv_Z 16696000 (month_total Sep badge_data)])
         (emean [ediv_Z 5978000 (month_total Jan badge_data);
                 ediv_Z 5901000 (month_total Feb badge_data);
                 ediv_Z 6083000 (month_total Mar badge_data)]).
Proof. reflexivity. Qed.

(** The mean of three positive quantities per positive swipe total. *)
Lemma emean_positive (w1 w2 w3 s1 s2 s3 : Z) :
  0 < w1 -> 0 < w2 -> 0 < w3 -> 0 < s1 -> 0 < s2 -> 0 < s3 ->
  exists x, emean [ediv_Z w1 s1; ediv_Z w2 s2; ediv_Z w3 s3] = Fin x /\ (0 < x)%Q.
Proof.
  intros Hw1 Hw2 Hw3 Hs1 Hs2 Hs3.
  rewrite !ediv_Z_nonzero by lia. rewrite emean_three.
  eexists. split; [reflexivity|].
  pose proof (positive_ratio w1 s1 Hw1 Hs1).
  pose proof (positive_ratio w2 s2 Hw2 Hs2).
  pose proof (positive_ratio w3 s3 Hw3 Hs3).
  apply Qlt_shift_div_l; [reflexivity|]. Lqa.lra.
Qed.

(** X18. When the winter months (January to March) and the summer
    months (July to September) all have swipes, the summer-to-winter
    ratio of water per swipe is a positive number. *)
Theorem summer_ratio_positive (badge_data : badge_table) :
  0 < month_total Jan badge_data -> 0 < month_total Feb badge_data ->
  0 < month_total Mar badge_data -> 0 < month_total Jul badge_data ->
  0 < month_total Aug badge_data -> 0 < month_total Sep badge_data ->
  exists q, summer_ratio (monthly_swipes badge_data) = Fin q /\ (0 < q)%Q.
Proof.
  intros Hjan Hfeb Hmar Hjul Haug Hsep. rewrite summer_ratio_unfold.
  destruct (emean_positive 17143000 17287000 16696000 _ _ _ eq_refl eq_refl eq_refl
              Hjul Haug Hsep) as (x & -> & Hx).
  destruct (emean_positive 5978000 5901000 6083000 _ _ _ eq_refl eq_refl eq_refl
              Hjan Hfeb Hmar) as (y & -> & Hy).
  unfold ediv. rewrite (positive_not_zero y Hy).
  exists (x / y)%Q. split; [reflexivity|].
  apply Qlt_shift_div_l; [exact Hy|]. rewrite Qmult_0_l. exact Hx.
Qed.

(** X19. When a winter month has no swipe at all, its water per swipe
    is infinite and so is the winter mean: with swipes in every summer
    month the summer-to-winter ratio comes out as 0, not as an error or
    an undefined value. *)
Theorem summer_ratio_zero_after_empty_winter_month (badge_data : badge_table) :
  0 <= month_total Jan badge_data -> 0 <= month_total Feb badge_data ->
  0 <= month_total Mar badge_data ->
  month_total Jan badge_data = 0 \/ month_total Feb badge_data = 0
  \/ month_total Mar badge_data = 0 ->
  0 < month_total Jul badge_data -> 0 < month_total Aug badge_data ->
  0 < month_total Sep badge_data ->
  summer_ratio (monthly_swipes badge_data) = Fin 0.
Proof.
  intros Hjan Hfeb Hmar Hzero Hjul Haug Hsep. rewrite summer_ratio_unfold.
  rewrite (ediv_Z_nonzero _ (month_total Jul badge_data)),
    (ediv_Z_nonzero _ (month_total Aug badge_data)),
    (ediv_Z_nonzero _ (month_total Sep badge_data)) by lia.
  rewrite emean_three.
  destruct (Z.eq_dec (month_total Jan badge_data) 0) as [->|Nj];
    [|rewrite (ediv_Z_nonzero _ _ Nj)];
    (destruct (Z.eq_dec (month_total Feb badge_data) 0) as [->|Nf];
     [|rewrite (ediv_Z_nonzero _ _ Nf)]);
    (destruct (Z.eq_dec (month_total Mar badge_data) 0) as [->|Nm];
     [|rewrite (ediv_Z_nonzero _ _ Nm)]);
    try reflexivity.
  exfalso. lia.
Qed.

Lemma summer_ratio_positive_witness :
  exists q, summer_ratio (monthly_swipes scenario_table) = Fin q /\ (0 < q)%Q.
Proof. apply summer_ratio_positive; reflexivity. Defined.

Lemma summer_ratio_zero_after_empty_winter_month_witness :
  summer_ratio (monthly_swipes [away_in_january]) = Fin 0.
Proof.
  apply summer_ratio_zero_after_empty_winter_month;
    first [reflexivity | discriminate | (left; reflexivity)].
Defined.

Lemma annual_swipes_zero (total : Z) :
  Qeq_bool (inject_Z total * (inject_Z 12 / inject_Z 9)) 0 = (total =? 0).
Proof.
  destruct (Z.eqb_spec total 0) as [->|Hne]; [reflexivity|].
  apply not_true_iff_false. rewrite Qeq_bool_iff. intros Heq.
  apply Qmult_integral in Heq as [Heq|Heq]; [|discriminate Heq].
  apply Hne. unfold Qeq in Heq. simpl in Heq. lia.
Qed.

(** X20. The cost per swipe divides by the extrapolated annual swipes
    without a guard: it is a number exactly when the table has a swipe
    in total, and then the cost per swipe times four thirds of the
    nine-month total gives back the annual cost of 2,475,270. *)
Theorem cost_per_swipe_defined (badge_data : badge_table) :
  (Float.is_finite (cost_per_swipe (monthly_swipes badge_data)) = true
   <-> zsum (monthly_swipes badge_data) <> 0)
  /\ (forall c, cost_per_swipe (monthly_swipes badge_data) = Some c ->
                (c * (inject_Z (zsum (monthly_swipes badge_data)) * (4 # 3)) == 2475270)%Q).
Proof.
  set (total := zsum (monthly_swipes badge_data)).
  set (T := ((5666000 * (15 # 100) + 273000 * (120 # 100)) + 129777000 * (1 # 100))%Q).
  assert (HT : (T == 2475270)%Q) by reflexivity.
  assert (Hcost : cost_per_swipe (monthly_swipes badge_data)
                  = if total =? 0 then None
                    else Some (T / (inject_Z total * (inject_Z 12 / inject_Z 9)))%Q).
  { unfold cost_per_swipe, total_swipes_annual. fold total.
    assert (Hc : total_annual_cost = Some T) by reflexivity.
    rewrite Hc. unfold Float.mul, Float.div, Float.of_Z.
    change (Qeq_bool (inject_Z 9) 0) with false. cbv iota.
    rewrite annual_swipes_zero. destruct (total =? 0); reflexivity. }
  clearbody T. rewrite Hcost. split.
  - destruct (Z.eqb_spec total 0) as [Hz|Hnz]; simpl; split; congruence.
  - intros c. destruct (Z.eqb_spec total 0) as [Hz|Hnz]; [discriminate|].
    intros Hc. injection Hc as <-. rewrite <- HT.
    change (inject_Z 12) with 12%Q. change (inject_Z 9) with 9%Q.
    field. apply inject_Z_nonzero, Hnz.
Qed.

End PerSwipe.

(** ** Peak and off-peak months *)

Section PeakMonths.

Import Badge Advanced Notions.
Local Open Scope Z_scope.

Lemma in_firstn (A : Type) (n : nat) (l : list A) (x : A) : In x (firstn n l) -> In x l.
Proof.
  intros Hx. rewrite <- (firstn_skipn n l). apply in_or_app. left. exact Hx.
Qed.

Lemma insert_desc_perm (x : month * Z) (l : month_series) :
  Permutation (insert_desc x l) (x :: l).
Proof.
  induction l as [|y l IH]; simpl; [reflexivity|].
  destruct (snd x <? snd y); [|reflexivity].
  rewrite IH. apply perm_swap.
Qed.

Lemma insert_asc_perm (x : month * Z) (l : month_series) :
  Permutation (insert_asc x l) (x :: l).
Proof.
  induction l as [|y l IH]; simpl; [reflexivity|].
  destruct (snd y <? snd x); [|reflexivity].
  rewrite IH. apply perm_swap.
Qed.

Lemma insert_desc_sorted (x : month * Z) (l : month_series) :
  Sorted by_value_desc l -> Sorted by_value_desc (insert_desc x l).
Proof.
  induction l as [|y l IH]; intros Hs; simpl.
  - repeat constructor.
  - destruct (Z.ltb_spec (snd x) (snd y)) as [Hlt|Hge].
    + inversion Hs as [|? ? Hrest Hhd]; subst.
      constructor; [apply IH; exact Hrest|].
      destruct l as [|z l']; simpl.
      * constructor. unfold by_value_desc. lia.
      * inversion Hhd; subst.
        destruct (snd x <? snd z); constructor; unfold by_value_desc in *; lia.
    + constructor; [exact Hs|]. constructor. unfold by_value_desc. lia.
Qed.

Lemma insert_asc_sorted (x : month * Z) (l : month_series) :
  Sorted by_value_asc l -> Sorted by_value_asc (insert_asc x l).
Proof.
  induction l as [|y l IH]; intros Hs; simpl.
  - repeat constructor.
  - destruct (Z.ltb_spec (snd y) (snd x)) as [Hlt|Hge].
    + inversion Hs as [|? ? Hrest Hhd]; subst.
      constructor; [apply IH; exact Hrest|].
      destruct l as [|z l']; simpl.
      * constructor. unfold by_value_asc. lia.
      * inversion Hhd; subst.
        destruct (snd z <? snd x); constructor; unfold by_value_asc in *; lia.
    + constructor; [exact Hs|]. constructor. unfold by_value_asc. lia.
Qed.

Lemma sort_desc_spec (s : month_series) :
  Permutation (fold_right insert_desc [] s) s
  /\ StronglySorted by_value_desc (fold_right insert_desc [] s).
Proof.
  split.
  - induction s as [|x s IH]; simpl; [reflexivity|].
    rewrite insert_desc_perm, IH. reflexivity.
  - apply Sorted.Sorted_StronglySorted; [intros x y z; unfold by_value_desc; lia|].
    induction s as [|x s IH]; simpl; [constructor|]. apply insert_desc_sorted, IH.
Qed.

Lemma sort_asc_spec (s : month_series) :
  Permutation (fold_right insert_asc [] s) s
  /\ StronglySorted by_value_asc (fold_right insert_asc [] s).
Proof.
  split.
  - induction s as [|x s IH]; simpl; [reflexivity|].
    rewrite insert_asc_perm, IH. reflexivity.
  - apply Sorted.Sorted_StronglySorted; [intros x y z; unfold by_value_asc; lia|].
    induction s as [|x s IH]; simpl; [constructor|]. apply insert_asc_sorted, IH.
Qed.

Lemma strongly_sorted_values (R : month * Z -> month * Z -> Prop) (R' : Z -> Z -> Prop)
    (l : month_series) :
  (forall x y, R x y -> R' (snd x) (snd y)) ->
  StronglySorted R l -> StronglySorted R' (List.map snd l).
Proof.
  intros HR. induction 1 as [|x l _ IH Hall]; simpl; constructor; [exact IH|].
  apply Forall_map. eapply Forall_impl; [|exact Hall]. intros y. apply HR.
Qed.

Lemma strongly_sorted_rev (l : list Z) :
  StronglySorted (fun a b => b <= a) l -> StronglySorted Z.le (rev l).
Proof.
  induction 1 as [|x l _ IH Hall]; simpl; [constructor|].
  apply StronglySorted_app_2; [|exact IH|repeat constructor].
  intros a b Ha Hb. apply list_elem_of_In in Ha, Hb.
  apply in_rev in Ha. destruct Hb as [<-|[]].
  rewrite Forall_forall in Hall. exact (Hall a Ha).
Qed.

(** The three smallest values of a list of at least six lie below its
    three largest. *)
Lemma smallest_below_largest (vd va : list Z) :
  StronglySorted (fun a b => b <= a) vd -> StronglySorted Z.le va ->
  Permutation va vd -> (6 <= length vd)%nat ->
  forall p l, In p (firstn 3 vd) -> In l (firstn 3 va) -> l <= p.
Proof.
  intros Hd Ha Hperm Hlen p l Hp Hl.
  assert (Hva : va = rev vd).
  { apply (StronglySorted_unique Z.le); [exact Ha|apply strongly_sorted_rev, Hd|].
    rewrite Hperm. apply Permutation_rev. }
  subst va. rewrite <- (firstn_skipn 3 vd) in Hd, Hl.
  rewrite rev_app_distr, firstn_app in Hl.
  assert (Hskip : (3 <= length (rev (skipn 3 vd)))%nat).
  { rewrite length_rev, length_skipn. lia. }
  replace (3 - length (rev (skipn 3 vd)))%nat with 0%nat in Hl by lia.
  rewrite firstn_0, app_nil_r in Hl.
  apply in_firstn, in_rev in Hl.
  apply (StronglySorted_app_1_elem_of _ _ _ p l Hd); apply list_elem_of_In; assumption.
Qed.

Lemma three_sum (A : Type) (l : list A) :
  length l = 3%nat -> exists a b c, l = [a; b; c].
Proof.
  destruct l as [|a [|b [|c [|d l]]]]; try discriminate. intros _. eauto.
Qed.

(** X21. Among the nine monthly totals, the three peak months and the
    three low months are months of the table; no low month has more
    swipes than a peak month, no other month more than a peak month or
    fewer than a low month, and the mean of the low months is at most
    the mean of the peak months. *)
Theorem peak_months_dominate_low_months (badge_data : badge_table) :
  let series := List.combine months (monthly_swipes badge_data) in
  let peak := nlargest 3 series in
  let low := nsmallest 3 series in
  length peak = 3%nat /\ length low = 3%nat
  /\ (forall x, In x peak \/ In x low -> In x series)
  /\ (forall p l, In p peak -> In l low -> snd l <= snd p)
  /\ (forall p x, In p peak -> In x series -> ~ In x peak -> snd x <= snd p)
  /\ (forall l x, In l low -> In x series -> ~ In x low -> snd l <= snd x)
  /\ exists pm lm, series_mean peak = Some pm /\ series_mean low = Some lm /\ (lm <= pm)%Q.
Proof.
  intros series peak low.
  assert (Hlen : length series = 9%nat) by reflexivity.
  destruct (sort_desc_spec series) as [Pd Sd]. destruct (sort_asc_spec series) as [Pa Sa].
  set (D := fold_right insert_desc [] series) in *.
  set (A := fold_right insert_asc [] series) in *.
  assert (LD : length D = 9%nat) by (rewrite (Permutation_length Pd); exact Hlen).
  assert (LA : length A = 9%nat) by (rewrite (Permutation_length Pa); exact Hlen).
  assert (Lp : length peak = 3%nat) by (unfold peak, nlargest; fold D; rewrite length_firstn; lia).
  assert (Ll : length low = 3%nat) by (unfold low, nsmallest; fold A; rewrite length_firstn; lia).
  assert (Hdom : forall p l, In p peak -> In l low -> snd l <= snd p).
  { intros p l Hp Hl.
    apply (smallest_below_largest (List.map snd D) (List.map snd A)).
    - apply (strongly_sorted_values by_value_desc); [auto|exact Sd].
    - apply (strongly_sorted_values by_value_asc); [auto|exact Sa].
    - apply Permutation_map. rewrite Pa, Pd. reflexivity.
    - rewrite length_map. lia.
    - rewrite firstn_map. apply in_map. exact Hp.
    - rewrite firstn_map. apply in_map. exact Hl. }
  split; [exact Lp|]. split; [exact Ll|]. split; [|split; [exact Hdom|split; [|split]]].
  - intros x [Hx|Hx].
    + apply (Permutation_in _ Pd). exact (in_firstn _ _ _ _ Hx).
    + apply (Permutation_in _ Pa). exact (in_firstn _ _ _ _ Hx).
  - intros p x Hp Hx Hnot.
    apply (Permutation_in _ (Permutation_sym Pd)) in Hx.
    rewrite <- (firstn_skipn 3 D) in Hx, Sd. apply in_app_or in Hx as [Hx|Hx]; [contradiction|].
    apply (StronglySorted_app_1_elem_of _ _ _ p x Sd); apply list_elem_of_In; assumption.
  - intros l x Hl Hx Hnot.
    apply (Permutation_in _ (Permutation_sym Pa)) in Hx.
    rewrite <- (firstn_skipn 3 A) in Hx, Sa. apply in_app_or in Hx as [Hx|Hx]; [contradiction|].
    apply (StronglySorted_app_1_elem_of _ _ _ l x Sa); apply list_elem_of_In; assumption.
  - destruct (three_sum _ peak Lp) as (p1 & p2 & p3 & Ep).
    destruct (three_sum _ low Ll) as (l1 & l2 & l3 & El).
    assert (H1 : snd l1 <= snd p1) by (apply Hdom; [rewrite Ep|rewrite El]; simpl; auto).
    assert (H2 : snd l2 <= snd p2) by (apply Hdom; [rewrite Ep|rewrite El]; simpl; auto).
    assert (H3 : snd l3 <= snd p3) by (apply Hdom; [rewrite Ep|rewrite El]; simpl; auto).
    unfold series_mean. rewrite Ep, El.
    destruct (np_mean_spec (List.map snd [p1; p2; p3])) as (pm & Hpm & Vpm); [discriminate|].
    destruct (np_mean_spec (List.map snd [l1; l2; l3])) as (lm & Hlm & Vlm); [discriminate|].
    exists pm, lm. split; [exact Hpm|]. split; [exact Hlm|].
    rewrite Vpm, Vlm. simpl length. simpl zsum.
    apply Qmult_le_compat_r; [unfold Qle; simpl; lia|discriminate].
Qed.

End PeakMonths.

(** ** The floor areas *)

Section FloorAreas.

Import Badge Advanced.
Local Open Scope Z_scope.

(** X22. The floor-area dictionary with its default: floors 1 and 2 get
    the area [building_info] gives for floors 1-2, and every other floor,
    listed (3 to 5) or not (such as 6), the area it gives for floors
    3-6; so the areas of floors 1 to 6 add up to [total_sqft]. *)
Theorem floor_sqft_get_spec :
  (forall floor,
      floor_sqft_get floor
      = if (floor =? 1) || (floor =? 2) then floor_1_2_sqft building_info
        else floor_3_6_sqft building_info)
  /\ zsum (List.map floor_sqft_get [1; 2; 3; 4; 5; 6]) = total_sqft building_info.
Proof.
  split; [|reflexivity].
  intros floor. unfold floor_sqft_get, floor_sqft. cbn [list_to_map foldr fst snd].
  rewrite !lookup_insert, lookup_empty.
  repeat case_decide; subst; try reflexivity;
    destruct (Z.eqb_spec floor 1), (Z.eqb_spec floor 2); simpl; try reflexivity; lia.
Qed.

End FloorAreas.

(** ** When the advanced metrics are all numbers *)

Section AdvancedFinite.

Import Badge Advanced Notions.
Local Open Scope Z_scope.

Lemma monthly_swipes_by_name (badge_data : badge_table) :
  monthly_swipes badge_data
  = [month_total Jan badge_data; month_total Feb badge_data; month_total Mar badge_data;
     month_total Apr badge_data; month_total May badge_data; month_total Jun badge_data;
     month_total Jul badge_data; month_total Aug badge_data; month_total Sep badge_data].
Proof. reflexivity. Qed.

Lemma efinite_ediv_Z (w s : Z) : 0 < w -> efinite (ediv_Z w s) = negb (s =? 0).
Proof.
  intros Hw. unfold ediv_Z. destruct (s =? 0); [|reflexivity].
  destruct (Z.eqb_spec w 0); [lia|reflexivity].
Qed.

Lemma floor_sqft_get_cases (floor : Z) :
  floor_sqft_get floor = 44352 \/ floor_sqft_get floor = 22728.
Proof.
  unfold floor_sqft_get, floor_sqft. cbn [list_to_map foldr fst snd].
  rewrite !lookup_insert, lookup_empty.
  repeat case_decide; simpl; auto.
Qed.

Lemma mom_change_finite (l : list Z) :
  Forall (fun a => a <> 0) l -> Forall (fun c => Float.is_finite c = true) (mom_change l).
Proof.
  induction 1 as [|a l Ha Hall IH]; [constructor|].
  destruct l as [|b l']; [constructor|].
  cbn [mom_change]. constructor; [|exact IH].
  change (Float.of_Z 100) with hundred.
  rewrite finite_percent, finite_div_of_Z. apply Z.eqb_neq in Ha. rewrite Ha. reflexivity.
Qed.

Lemma builtin_sum_finite (l : list Float.float) :
  Forall (fun c => Float.is_finite c = true) l -> Float.is_finite (builtin_sum l) = true.
Proof.
  unfold builtin_sum.
  assert (Hgen : forall acc, Float.is_finite acc = true ->
                             Forall (fun c => Float.is_finite c = true) l ->
                             Float.is_finite (fold_left Energy.fadd l acc) = true).
  { induction l as [|c l IH]; intros acc Hacc Hall; [exact Hacc|].
    inversion Hall as [|? ? Hc Hrest]; subst. cbn [fold_left]. apply IH; [|exact Hrest].
    destruct acc, c; try discriminate; reflexivity. }
  apply Hgen. reflexivity.
Qed.

Lemma in_skipn (A : Type) (n : nat) (l : list A) (x : A) : In x (skipn n l) -> In x l.
Proof.
  intros Hx. rewrite <- (firstn_skipn n l). apply in_or_app. right. exact Hx.
Qed.

Lemma slice_finite (i j : nat) (l : list Float.float) :
  Forall (fun c => Float.is_finite c = true) l ->
  Forall (fun c => Float.is_finite c = true) (Energy.slice i j l).
Proof.
  rewrite !Forall_forall. intros Hall c Hc. apply Hall.
  unfold Energy.slice in Hc. apply in_firstn, in_skipn in Hc. exact Hc.
Qed.

(** The variance of peak against low months is a number when every
    monthly total is positive. *)
Lemma variance_finite (series : month_series) :
  length series = 9%nat -> (forall x, In x series -> 0 < snd x) ->
  Float.is_finite
    (Float.mul (Float.div (Rates.fsub (series_mean (nlargest 3 series))
                                      (series_mean (nsmallest 3 series)))
                          (series_mean (nsmallest 3 series)))
               (Float.of_Z 100)) = true.
Proof.
  intros Hlen Hpos.
  destruct (sort_desc_spec series) as [Pd _]. destruct (sort_asc_spec series) as [Pa _].
  assert (Lp : length (nlargest 3 series) = 3%nat).
  { unfold nlargest. rewrite length_firstn, (Permutation_length Pd). lia. }
  assert (Ll : length (nsmallest 3 series) = 3%nat).
  { unfold nsmallest. rewrite length_firstn, (Permutation_length Pa). lia. }
  assert (Hlow : forall x, In x (nsmallest 3 series) -> 0 < snd x).
  { intros x Hx. apply Hpos, (Permutation_in _ Pa), (in_firstn _ _ _ _ Hx). }
  destruct (three_sum _ _ Lp) as (p1 & p2 & p3 & Ep).
  destruct (three_sum _ _ Ll) as (l1 & l2 & l3 & El).
  rewrite Ep, El in *. unfold series_mean.
  destruct (np_mean_spec (List.map snd [p1; p2; p3])) as (pm & -> & _); [discriminate|].
  destruct (np_mean_spec (List.map snd [l1; l2; l3])) as (lm & -> & Vlm); [discriminate|].
  assert (Hlm : (0 < lm)%Q).
  { rewrite Vlm. apply Qlt_shift_div_l; [reflexivity|].
    pose proof (Hlow l1 (or_introl eq_refl)).
    pose proof (Hlow l2 (or_intror (or_introl eq_refl))).
    pose proof (Hlow l3 (or_intror (or_intror (or_introl eq_refl)))).
    simpl zsum. unfold Qlt. simpl. lia. }
  unfold Rates.fsub, Float.div. rewrite (positive_not_zero lm Hlm). reflexivity.
Qed.

(** X23. For a badge table whose monthly totals are not negative, the
    numbers the advanced metrics derive from the badge table (peak/low
    variance, floor lines, month-over-month changes and summer trend,
    water per swipe and its summer ratio, annual swipes and cost per
    swipe) are all finite exactly when every one of the nine months has
    at least one swipe. *)
Theorem advanced_metrics_finite_iff (badge_data : badge_table) (floor : Z)
    (df_2025 : Conference.frame) :
  (forall m, 0 <= month_total m badge_data) ->
  (advanced_well_defined (assemble building_info badge_data floor df_2025) = true
   <-> forall m, 0 < month_total m badge_data).
Proof.
  intros Hnn. unfold advanced_well_defined. rewrite andb_true_iff.
  unfold advanced_floats, assemble.
  cbn [peak_low_variance excess_kwh excess_cost summer_growth a_total_swipes_annual
       a_cost_per_swipe a_mom_change a_floor_lines a_summer_ratio a_water_per_swipe].
  split.
  - intros [_ Hwps]. cbn [forallb] in Hwps. apply andb_true_iff in Hwps as [_ Hwps].
    rewrite monthly_swipes_by_name in Hwps.
    unfold water_per_swipe, Energy.water in Hwps. cbn [List.combine List.map forallb] in Hwps.
    rewrite !efinite_ediv_Z in Hwps by reflexivity.
    rewrite !andb_true_iff, !negb_true_iff, !Z.eqb_neq in Hwps.
    intros m. pose proof (Hnn m). destruct m; lia.
  - intros Hpos.
    assert (Hne : forall m, month_total m badge_data <> 0).
    { intros m. specialize (Hpos m). lia. }
    split.
    + assert (Hmom : Forall (fun c => Float.is_finite c = true)
                       (mom_change (monthly_swipes badge_data))).
      { apply mom_change_finite. rewrite monthly_swipes_by_name.
        repeat constructor; apply Hne. }
      rewrite forallb_forall. intros c Hc.
      rewrite !in_app_iff in Hc. destruct Hc as [Hc|[Hc|[Hc|Hc]]].
      * destruct Hc as [<-|[<-|[<-|[<-|[<-|[<-|[]]]]]]].
        -- apply variance_finite; [reflexivity|].
           intros x Hx. rewrite monthly_swipes_by_name in Hx. simpl in Hx.
           repeat (destruct Hx as [<-|Hx]; [apply Hpos|]). destruct Hx.
        -- reflexivity.
        -- reflexivity.
        -- rewrite finite_div_by by lia. apply builtin_sum_finite, slice_finite, Hmom.
        -- reflexivity.
        -- unfold cost_per_swipe, total_swipes_annual, Float.mul, Float.div, Float.of_Z.
           change (Qeq_bool (inject_Z 9) 0) with false. cbv iota.
           rewrite annual_swipes_zero.
           assert (Htot : zsum (monthly_swipes badge_data) <> 0).
           { rewrite monthly_swipes_by_name. simpl zsum.
             pose proof (Hpos Jan). pose proof (Hpos Feb). pose proof (Hpos Mar).
             pose proof (Hpos Apr). pose proof (Hpos May). pose proof (Hpos Jun).
             pose proof (Hpos Jul). pose proof (Hpos Aug). pose proof (Hpos Sep). lia. }
           apply Z.eqb_neq in Htot. rewrite Htot. reflexivity.
      * rewrite Forall_forall in Hmom. apply Hmom, Hc.
      * apply in_map_iff in Hc as (l & <- & Hl).
        unfold floor_lines in Hl. apply in_map_iff in Hl as ([k swipes] & <- & _).
        cbn [fl_swipes_per_sqft]. rewrite finite_div_of_Z.
        destruct (floor_sqft_get_cases k) as [-> | ->]; reflexivity.
      * apply in_map_iff in Hc as (l & <- & Hl).
        pose proof (floor_lines_finite badge_data) as Hfin.
        rewrite Forall_forall in Hfin. destruct (Hfin l Hl) as [_ (e & ->)]. reflexivity.
    + cbn [forallb]. apply andb_true_iff. split.
      * rewrite summer_ratio_unfold.
        destruct (emean_positive 17143000 17287000 16696000 _ _ _ eq_refl eq_refl eq_refl
                    (Hpos Jul) (Hpos Aug) (Hpos Sep)) as (x & -> & Hx).
        destruct (emean_positive 5978000 5901000 6083000 _ _ _ eq_refl eq_refl eq_refl
                    (Hpos Jan) (Hpos Feb) (Hpos Mar)) as (y & -> & Hy).
        unfold ediv. rewrite (positive_not_zero y Hy). reflexivity.
      * rewrite monthly_swipes_by_name.
        unfold water_per_swipe, Energy.water. cbn [List.combine List.map forallb].
        rewrite !efinite_ediv_Z by reflexivity.
        rewrite !andb_true_iff, !negb_true_iff, !Z.eqb_neq.
        repeat split; try apply Hne; reflexivity.
Qed.

Lemma advanced_metrics_finite_iff_witness :
  advanced_well_defined (assemble building_info scenario_table 1 []) = true
  <-> forall m, 0 < month_total m scenario_table.
Proof.
  apply advanced_metrics_finite_iff. intros m. destruct m; discriminate.
Defined.

End AdvancedFinite.

(** ** Tier shares, space figures and monthly changes *)

Section SharesAndChanges.

Import Badge Advanced.
Local Open Scope Z_scope.

Lemma tier_counts_total (totals : list Z) :
  count_true (List.map very_low_util totals) + count_true (List.map low_util totals)
  + count_true (List.map medium_util totals) + count_true (List.map high_util totals)
  = Z.of_nat (length totals).
Proof.
  induction totals as [|t totals IH]; [reflexivity|].
  change (length (t :: totals)) with (S (length totals)). rewrite Nat2Z.inj_succ.
  cbn [List.map count_true fold_right].
  destruct (tier_masks_cases t) as [H|[H|[H|H]]];
    destruct H as (-> & -> & -> & ->); unfold count_true in *; lia.
Qed.

(** X24. For a non-empty badge table the four tier percentages of the
    utilization distribution add up to 100 as exact fractions. In
    float64 each percentage is rounded twice (the division and the
    product with 100): whatever these roundings are, the printed
    percentages add up to 100 within the factors [(1 - u)^2] and
    [(1 + u)^2], [u] being the unit roundoff [2^-53]. *)
Theorem tier_shares_sum_to_100 (badge_data : badge_table) :
  badge_data <> [] ->
  let r := analyze_occupancy_patterns building_info badge_data in
  Float.eq (Float.sum [tr_pct (r_very_low r); tr_pct (r_low r);
                       tr_pct (r_medium r); tr_pct (r_high r)])
           (Float.of_Z 100)
  /\ (forall e1 e2 e3 e4 : Q * Q,
        Forall (fun e => Rounding.small (fst e) /\ Rounding.small (snd e)) [e1; e2; e3; e4] ->
        (100 * Rounding.below
         <= Float.qsum (Rounding.tier_shares e1 e2 e3 e4 badge_data))%Q
        /\ (Float.qsum (Rounding.tier_shares e1 e2 e3 e4 badge_data)
            <= 100 * Rounding.above)%Q).
Proof.
  intros Hne r. subst r.
  set (n := Z.of_nat (length badge_data)).
  set (totals := total_swipes badge_data).
  assert (Hn : n <> 0) by (unfold n; destruct badge_data; [congruence|simpl length; lia]).
  assert (Htot : zsum [count_true (List.map very_low_util totals);
                       count_true (List.map low_util totals);
                       count_true (List.map medium_util totals);
                       count_true (List.map high_util totals)] = n).
  { pose proof (tier_counts_total totals) as Ht. unfold totals at 5 in Ht.
    unfold total_swipes in Ht. rewrite length_map in Ht. fold n in Ht.
    simpl zsum. lia. }
  split.
  - unfold analyze_occupancy_patterns.
    cbn [r_very_low r_low r_medium r_high tier_line tr_pct]. fold n totals.
    pose proof (sum_of_shares n
                  [count_true (List.map very_low_util totals);
                   count_true (List.map low_util totals);
                   count_true (List.map medium_util totals);
                   count_true (List.map high_util totals)] Hn) as Hsum.
    cbn [List.map] in Hsum.
    destruct (Float.sum _) as [x|]; [|destruct Hsum].
    unfold Float.eq, Float.of_Z in *. rewrite Hsum.
    rewrite Htot. change (inject_Z 100) with 100%Q. field. apply inject_Z_nonzero, Hn.
  - intros e1 e2 e3 e4 Hsmall.
    inversion Hsmall as [|? ? [H11 H12] Hs2]; subst.
    inversion Hs2 as [|? ? [H21 H22] Hs3]; subst.
    inversion Hs3 as [|? ? [H31 H32] Hs4]; subst.
    inversion Hs4 as [|? ? [H41 H42] _]; subst.
    unfold Rounding.tier_shares. fold n totals.
    apply (rounded_shares_of_whole n
             [(e1, count_true (List.map very_low_util totals));
              (e2, count_true (List.map low_util totals));
              (e3, count_true (List.map medium_util totals));
              (e4, count_true (List.map high_util totals))]).
    + unfold n in *. lia.
    + exact Htot.
    + repeat (apply Forall_cons;
                [cbn [fst snd]; repeat split; try apply count_true_nonneg;
                 first [apply H11|apply H12|apply H21|apply H22|apply H31|apply H32
                       |apply H41|apply H42]|]).
      apply Forall_nil.
Qed.

Lemma tier_shares_sum_to_100_witness :
  let r := analyze_occupancy_patterns building_info mixed_table in
  Float.eq (Float.sum [tr_pct (r_very_low r); tr_pct (r_low r);
                       tr_pct (r_medium r); tr_pct (r_high r)])
           (Float.of_Z 100)
  /\ (forall e1 e2 e3 e4 : Q * Q,
        Forall (fun e => Rounding.small (fst e) /\ Rounding.small (snd e)) [e1; e2; e3; e4] ->
        (100 * Rounding.below
         <= Float.qsum (Rounding.tier_shares e1 e2 e3 e4 mixed_table))%Q
        /\ (Float.qsum (Rounding.tier_shares e1 e2 e3 e4 mixed_table)
            <= 100 * Rounding.above)%Q).
Proof. apply tier_shares_sum_to_100. discriminate. Defined.

(** X25. The hoteling opportunity printed by the occupancy analysis is
    the potential space reduction of the advanced metrics, 120 sqft for
    each employee below 90 swipes, hence at most 120 sqft per employee;
    the space savings are 25 dollars for each of these square feet. *)
Theorem hoteling_is_space_reduction (badge_data : badge_table) (floor : Z)
    (df_2025 : Conference.frame) :
  let r := analyze_occupancy_patterns building_info badge_data in
  let a := assemble building_info badge_data floor df_2025 in
  r_hoteling_sqft r = potential_space_reduction_sqft a
  /\ r_hoteling_sqft r = 120 * below_90 badge_data
  /\ space_savings a = 25 * r_hoteling_sqft r
  /\ 0 <= r_hoteling_sqft r <= 120 * Z.of_nat (length badge_data).
Proof.
  intros r a. subst r a. unfold analyze_occupancy_patterns, assemble.
  cbn [r_hoteling_sqft potential_space_reduction_sqft space_savings].
  assert (Hlow : count_true (List.map very_low_util (total_swipes badge_data))
                 + count_true (List.map low_util (total_swipes badge_data))
                 = below_90 badge_data).
  { unfold below_90. apply count_true_split. intros t. unfold very_low_util, low_util.
    destruct (Z.ltb_spec t 30), (Z.leb_spec 30 t), (Z.ltb_spec t 90); simpl; lia. }
  assert (Hremote : remote_employees badge_data = below_90 badge_data).
  { unfold remote_employees, full_remote, mostly_remote, below_90.
    apply count_true_split. intros t.
    destruct (Z.ltb_spec t 20), (Z.leb_spec 20 t), (Z.ltb_spec t 90); simpl; lia. }
  rewrite Hlow, Hremote.
  pose proof (count_true_bounds _ (fun t => t <? 90) (total_swipes badge_data)) as Hb.
  assert (Hlen : length (total_swipes badge_data) = length badge_data)
    by (unfold total_swipes; apply List.length_map).
  rewrite Hlen in Hb. fold (below_90 badge_data) in Hb.
  repeat split; lia.
Qed.

Lemma mom_change_lookup (monthly : list Z) (i : nat) (prev cur : Z) :
  monthly !! i = Some prev -> monthly !! S i = Some cur ->
  exists c, mom_change monthly !! i = Some c
            /\ (prev = 0 -> c = None)
            /\ (prev <> 0 ->
                exists q, c = Some q
                          /\ (q * inject_Z prev == 100 * inject_Z (cur - prev))%Q).
Proof.
  revert i. induction monthly as [|a [|b l] IH]; intros i Hprev Hcur.
  - rewrite lookup_nil in Hprev. discriminate.
  - change ([a] !! S i) with (@nil Z !! i) in Hcur.
    rewrite lookup_nil in Hcur. discriminate.
  - destruct i as [|i].
    + simpl in Hprev, Hcur. injection Hprev as <-. injection Hcur as <-.
      cbn [mom_change]. eexists. split; [reflexivity|]. split.
      * intros ->. reflexivity.
      * intros Hnz. rewrite div_of_Z_nonzero by exact Hnz.
        eexists. split; [reflexivity|].
        change (inject_Z 100) with 100%Q. field. apply inject_Z_nonzero, Hnz.
    + cbn [mom_change]. simpl in Hprev, Hcur.
      destruct (IH i Hprev Hcur) as (c & Hc & H0 & H1).
      exists c. split; [exact Hc|]. split; assumption.
Qed.

Lemma mom_arrows_lookup (monthly : list Z) (i : nat) (prev cur : Z) :
  monthly !! i = Some prev -> monthly !! S i = Some cur ->
  mom_arrows monthly !! i = Some (arrow_up prev cur).
Proof.
  revert i. induction monthly as [|a [|b l] IH]; intros i Hprev Hcur.
  - rewrite lookup_nil in Hprev. discriminate.
  - change ([a] !! S i) with (@nil Z !! i) in Hcur.
    rewrite lookup_nil in Hcur. discriminate.
  - destruct i as [|i].
    + simpl in Hprev, Hcur. injection Hprev as <-. injection Hcur as <-. reflexivity.
    + cbn [mom_arrows]. simpl in Hprev, Hcur. exact (IH i Hprev Hcur).
Qed.

(** The arrow follows the sign of the difference when the month before
    has no negative total, with or without swipes. *)
Lemma arrow_up_growth (prev cur : Z) : 0 <= prev -> arrow_up prev cur = (prev <? cur).
Proof.
  intros Hprev. unfold arrow_up.
  destruct (Z.eq_dec prev 0) as [->|Hnz].
  - cbn. rewrite Z.sub_0_r. reflexivity.
  - rewrite div_of_Z_nonzero by exact Hnz.
    unfold Float.gtb, Float.ltb, Float.mul, Float.of_Z.
    assert (HP : (0 < inject_Z prev)%Q) by (unfold Qlt; simpl; lia).
    set (x := (inject_Z (cur - prev) / inject_Z prev * inject_Z 100)%Q).
    destruct (Z.ltb_spec prev cur) as [Hlt|Hge].
    + assert (Hx : (0 < x)%Q).
      { unfold x. apply Qmult_lt_0_compat; [|reflexivity].
        apply Qlt_shift_div_l; [exact HP|]. rewrite Qmult_0_l.
        unfold Qlt; simpl; lia. }
      assert (Hle : Qle_bool (inject_Z 0) x = true)
        by (apply Qle_bool_iff, Qlt_le_weak, Hx).
      assert (Hne : Qeq_bool (inject_Z 0) x = false).
      { destruct (Qeq_bool (inject_Z 0) x) eqn:E; [|reflexivity].
        apply Qeq_bool_iff in E. rewrite <- E in Hx. discriminate Hx. }
      rewrite Hle, Hne. reflexivity.
    + assert (Hx : (x <= 0)%Q).
      { unfold x. apply Qle_trans with (0 * inject_Z 100)%Q; [|discriminate].
        apply Qmult_le_compat_r; [|discriminate].
        apply Qle_shift_div_r; [exact HP|]. rewrite Qmult_0_l.
        unfold Qle; simpl; lia. }
      destruct (Qle_bool (inject_Z 0) x) eqn:Hle; [|reflexivity].
      apply Qle_bool_iff in Hle.
      assert (E : (inject_Z 0 == x)%Q) by (apply Qle_antisym; assumption).
      apply Qeq_bool_iff in E. rewrite E. reflexivity.
Qed.

(** X26. When no monthly total is negative, the arrow printed for a
    month points up exactly when the month has more swipes than the one
    before, also after a month without any swipe; and a change that is
    a finite number is never below -100 %, which it reaches exactly for
    a month without swipes. *)
Theorem mom_arrow_up_iff_growth (monthly : list Z) (i : nat) (prev cur : Z) :
  Forall (fun s => 0 <= s) monthly ->
  monthly !! i = Some prev -> monthly !! S i = Some cur ->
  mom_arrows monthly !! i = Some (prev <? cur)
  /\ (forall c, mom_change monthly !! i = Some (Some c) ->
                (-100 <= c)%Q /\ ((c == -100)%Q <-> cur = 0)).
Proof.
  intros Hall Hprev Hcur.
  assert (Hp : 0 <= prev).
  { rewrite Forall_forall in Hall. apply Hall.
    apply list_elem_of_In. eapply list_elem_of_lookup_2, Hprev. }
  assert (Hc : 0 <= cur).
  { rewrite Forall_forall in Hall. apply Hall.
    apply list_elem_of_In. eapply list_elem_of_lookup_2, Hcur. }
  split.
  - rewrite (mom_arrows_lookup monthly i prev cur Hprev Hcur).
    rewrite arrow_up_growth by exact Hp. reflexivity.
  - intros c Hchange.
    destruct (mom_change_lookup monthly i prev cur Hprev Hcur) as (c' & Hc' & H0 & H1).
    rewrite Hchange in Hc'. injection Hc' as <-.
    destruct (Z.eq_dec prev 0) as [Hz|Hnz]; [discriminate (H0 Hz)|].
    destruct (H1 Hnz) as (q & [= <-] & Hq).
    assert (HP : (0 < inject_Z prev)%Q) by (unfold Qlt; simpl; lia).
    assert (Hsum : ((c + 100) * inject_Z prev == 100 * inject_Z cur)%Q).
    { unfold Zminus in Hq. rewrite inject_Z_plus, inject_Z_opp in Hq.
      rewrite Qmult_plus_distr_l, Hq. ring. }
    split.
    + assert (H100 : (0 <= c + 100)%Q).
      { apply Qmult_lt_0_le_reg_r with (z := inject_Z prev); [exact HP|].
        rewrite Qmult_0_l, Hsum.
        apply Qmult_le_0_compat; [discriminate|unfold Qle; simpl; lia]. }
      apply Qplus_le_l with (z := 100%Q). exact H100.
    + split.
      * intros Heq. rewrite Heq in Hsum.
        assert (Hzero : (100 * inject_Z cur == 0)%Q) by (rewrite <- Hsum; ring).
        apply Qmult_integral in Hzero as [Hf|Hcur0]; [discriminate Hf|].
        unfold Qeq in Hcur0. simpl in Hcur0. lia.
      * intros ->. change (inject_Z 0) with 0%Q in Hsum. rewrite Qmult_0_r in Hsum.
        apply Qmult_integral in Hsum as [H100|Hf].
        -- apply Qplus_inj_r with (z := 100%Q).
           rewrite H100. reflexivity.
        -- rewrite Hf in HP. discriminate HP.
Qed.

Lemma mom_arrow_up_iff_growth_witness :
  mom_arrows [0; 12; 9] !! 0%nat = Some (0 <? 12)
  /\ (forall c, mom_change [0; 12; 9] !! 0%nat = Some (Some c) ->
                (-100 <= c)%Q /\ ((c == -100)%Q <-> 12 = 0)).
Proof.
  apply (mom_arrow_up_iff_growth [0; 12; 9] 0 0 12).
  - repeat constructor; lia.
  - reflexivity.
  - reflexivity.
Defined.

End SharesAndChanges.
